(** * GeoParquet downloader: query construction, export dispatch and
      bbox detection

    A shallow embedding of the two worker modules of the QGIS GeoParquet
    downloader plugin:

    - [gpq_downloader/utils.py]            (module [Utils] below),
    - [qgis_plugin_gpq_downloader.py]      (module [Plugin] below).

    Both define a [Worker] (query builder and export dispatcher) and a
    [ValidationWorker] (bbox-capability detector).  The database engine,
    the host application and the cancellation flag are external to the
    workers; they are modelled by an environment record whose fields give
    the answer of every external call. *)

From Stdlib Require Import String Ascii List ZArith QArith Lia Bool.
From Stdlib Require Import DecimalString.
From Stdlib Require SpecFloat.
From stdpp Require Import gmap strings.
Import ListNotations.

Local Open Scope string_scope.
Local Open Scope Z_scope.

(** Strings are computed with: appending to a literal reduces. *)
#[local] Arguments String.append : simpl nomatch.

(** ** Python string primitives

    Strings are byte strings; [lower] and [upper] act on the ASCII letters
    and leave every other byte alone. *)

Module PyStr.

Definition is_upper (c : ascii) : bool :=
  let n := nat_of_ascii c in (Nat.leb 65 n && Nat.leb n 90)%bool.

Definition is_lower (c : ascii) : bool :=
  let n := nat_of_ascii c in (Nat.leb 97 n && Nat.leb n 122)%bool.

Definition lower_char (c : ascii) : ascii :=
  if is_upper c then ascii_of_nat (nat_of_ascii c + 32) else c.

Definition upper_char (c : ascii) : ascii :=
  if is_lower c then ascii_of_nat (nat_of_ascii c - 32) else c.

(** [s.lower()] *)
Fixpoint lower (s : string) : string :=
  match s with
  | EmptyString => EmptyString
  | String c t => String (lower_char c) (lower t)
  end.

(** [s.upper()] *)
Fixpoint upper (s : string) : string :=
  match s with
  | EmptyString => EmptyString
  | String c t => String (upper_char c) (upper t)
  end.

(** [s.startswith(p)] *)
Definition startswith (p s : string) : bool := String.prefix p s.

(** [s.endswith(suf)]: some tail of [s] is [suf]. *)
Fixpoint endswith (suf s : string) : bool :=
  (String.eqb s suf ||
   match s with
   | EmptyString => false
   | String _ t => endswith suf t
   end)%bool.

(** [sub in s] *)
Fixpoint contains (sub s : string) : bool :=
  (String.prefix sub s ||
   match s with
   | EmptyString => false
   | String _ t => contains sub t
   end)%bool.

(** [s.split(sep)] for a one-character separator: never the empty list. *)
Fixpoint split (sep : ascii) (s : string) : list string :=
  match s with
  | EmptyString => [EmptyString]
  | String c t =>
      if Ascii.eqb c sep then EmptyString :: split sep t
      else match split sep t with
           | h :: r => String c h :: r
           | [] => [String c EmptyString]
           end
  end.

(** [l[-1]] and [l[0]] on the result of a split. *)
Definition last_item (l : list string) : string := List.last l EmptyString.
Definition first_item (l : list string) : string := List.hd EmptyString l.

(** [s.lstrip(c)], [s.rstrip(c)] and [s.strip(c)] for one character. *)
Fixpoint lstrip (c : ascii) (s : string) : string :=
  match s with
  | EmptyString => EmptyString
  | String d t => if Ascii.eqb d c then lstrip c t else s
  end.

Fixpoint rstrip (c : ascii) (s : string) : string :=
  match s with
  | EmptyString => EmptyString
  | String d t =>
      match rstrip c t with
      | EmptyString => if Ascii.eqb d c then EmptyString else String d EmptyString
      | r => String d r
      end
  end.

Definition strip (c : ascii) (s : string) : string := rstrip c (lstrip c s).

(** [sep.join(l)] *)
Definition join (sep : string) (l : list string) : string := String.concat sep l.

(** [str(n)] for an [int]. *)
Definition of_int (n : Z) : string := NilZero.string_of_int (Z.to_int n).

(** The line feed of a triple-quoted literal and runs of blanks. *)
Definition nl : string := String (ascii_of_nat 10) EmptyString.

Fixpoint spaces (n : nat) : string :=
  match n with
  | O => EmptyString
  | S k => String " " (spaces k)
  end.

(** Truth value of a string: empty is false. *)
Definition truthy (s : string) : bool :=
  match s with EmptyString => false | String _ _ => true end.

End PyStr.

(** ** Python floats

    A Python [float] is an IEEE 754 binary64 number. Its operations are
    those of the standard specification of binary floating point
    arithmetic, at precision 53 and maximal exponent 1024; every result is
    rounded to nearest, ties to even. *)

Module PyFloat.
Import SpecFloat.

Definition float : Type := spec_float.

Definition prec : Z := 53.
Definition emax : Z := 1024.

(** [float(n)] for an [int]: the nearest double, or [None] where Python
    raises OverflowError (the nearest double would be infinite). *)
Definition of_int (n : Z) : option float :=
  match binary_normalize prec emax n 0 false with
  | S754_infinity _ => None
  | f => Some f
  end.

Definition mul (x y : float) : float := SFmul prec emax x y.
Definition add (x y : float) : float := SFadd prec emax x y.
Definition div (x y : float) : float := SFdiv prec emax x y.

(** [x > y]; false when either side is a NaN. *)
Definition gt (x y : float) : bool := SFltb y x.

(** [bool(x)]: only the two zeros are false. *)
Definition truthy (x : float) : bool :=
  match x with S754_zero _ => false | _ => true end.

Definition zero : float := S754_zero false.

(** The number a finite float stands for. *)
Definition value (x : float) : option Q :=
  match x with
  | S754_zero _ => Some 0%Q
  | S754_finite s m e => Some (inject_Z (cond_Zopp s (Zpos m)) * (2 # 1) ^ e)%Q
  | S754_infinity _ | S754_nan => None
  end.

(** [x > n] for an [int]: Python compares the two numbers exactly,
    without converting [n]. *)
Definition gt_int (x : float) (n : Z) : bool :=
  match x with
  | S754_nan => false
  | S754_infinity s => negb s
  | S754_zero _ | S754_finite _ _ _ =>
      match value x with
      | Some v => negb (Qle_bool v (inject_Z n))
      | None => false
      end
  end.

End PyFloat.

#[global] Arguments PyFloat.of_int : simpl never.
#[global] Arguments PyFloat.mul : simpl never.
#[global] Arguments PyFloat.add : simpl never.
#[global] Arguments PyFloat.div : simpl never.
#[global] Arguments PyFloat.gt : simpl never.
#[global] Arguments PyFloat.gt_int : simpl never.

(** ** Python values, exceptions and the effect monad *)

Module Py.

(** The double quote, for building SQL identifiers. *)
Definition dq : string := String (ascii_of_nat 34) EmptyString.

(** The values stored in the [validation_results] dictionary. A schema is
    the list of rows of a [DESCRIBE]; only the first two fields of a row
    (column name, column type) are ever read. *)
Inductive pyval : Type :=
  | PyNone
  | PyBool (b : bool)
  | PyStr (s : string)
  | PyRows (rows : list (string * string)).

(** Truth value of [d.get(k)] or [d[k]] used as a condition. *)
Definition truthy (v : option pyval) : bool :=
  match v with
  | None | Some PyNone => false
  | Some (PyBool b) => b
  | Some (PyStr s) => PyStr.truthy s
  | Some (PyRows rows) => match rows with [] => false | _ => true end
  end.

(** How an f-string renders a value. Rows are shown by their two fields. *)
Definition format (v : option pyval) : string :=
  match v with
  | None | Some PyNone => "None"
  | Some (PyBool true) => "True"
  | Some (PyBool false) => "False"
  | Some (PyStr s) => s
  | Some (PyRows rows) =>
      "[" +:+ PyStr.join ", "
               (map (fun r => "('" +:+ fst r +:+ "', '" +:+ snd r +:+ "')") rows)
          +:+ "]"
  end.

(** An exception: its class name and [str(e)]. *)
Inductive exn : Type := PyExc (kind msg : string).

Definition str_exn (e : exn) : string := match e with PyExc _ m => m end.

(** Reading a local variable that was never assigned. *)
Definition unbound_local (var : string) : exn :=
  PyExc "UnboundLocalError"
        ("local variable '" +:+ var +:+ "' referenced before assignment").

(** Answer of an external call: a value or a raised exception. *)
Inductive answer (A : Type) : Type :=
  | Ok (a : A)
  | Fails (e : exn).
Arguments Ok {A} a.
Arguments Fails {A} e.

(** [float(n)] as an operand conversion: an [int] that is too large
    raises. *)
Definition overflow : exn :=
  PyExc "OverflowError" "int too large to convert to float".

Definition to_float (n : Z) : answer PyFloat.float :=
  match PyFloat.of_int n with
  | Some f => Ok f
  | None => Fails overflow
  end.

(** Arithmetic between an [int] and a [float]: the [int] operand is
    converted first. *)
Definition int_mul_float (n : Z) (x : PyFloat.float) : answer PyFloat.float :=
  match to_float n with
  | Ok f => Ok (PyFloat.mul f x)
  | Fails e => Fails e
  end.

Definition float_add_int (x : PyFloat.float) (n : Z) : answer PyFloat.float :=
  match to_float n with
  | Ok f => Ok (PyFloat.add x f)
  | Fails e => Fails e
  end.

Definition float_div_int (x : PyFloat.float) (n : Z) : answer PyFloat.float :=
  match to_float n with
  | Ok f =>
      if PyFloat.truthy f then Ok (PyFloat.div x f)
      else Fails (PyExc "ZeroDivisionError" "float division by zero")
  | Fails e => Fails e
  end.


(** A map extent (QgsRectangle). *)
Record Extent : Type := mkExtent {
  xMinimum : Q; yMinimum : Q; xMaximum : Q; yMaximum : Q
}.

(** One row of [parquet_kv_metadata]: key and value are byte strings. *)
Record kv_row : Type := mkKv { kv_key : string; kv_value : string }.

(** Everything the workers observe: Qt signal emissions and the calls made
    on the database connection. *)
Inductive event : Type :=
  | Progress (msg : string)
  | Error (msg : string)
  | Info (msg : string)
  | LoadLayer (path : string)
  | Finished
  | FileSizeWarning (mb : PyFloat.float)
  | ValidationFinished (ok : bool) (msg : string) (results : gmap string pyval)
  | NeedsBboxWarning
  | Connect (database : option string)
  | Execute (sql : string)
  | Commit
  | Close.

(** The environment of one run. The engine is deterministic in the text it
    is given ([eng_json_path] in the document stored in [temp_json]).
    [kill_at = Some n] means that [kill()] is called by the main thread
    when the worker has made [n] steps (emissions, engine calls and reads
    of the flag); [Some 0] is a worker killed before it starts. *)
Record Env : Type := mkEnv {
  host_destination_crs : answer string;
  host_transform_bbox : string -> Extent -> answer Extent;
  float_str : Q -> string;
  bytes_decode : string -> answer string;
  eng_connect : option string -> option exn;
  eng_execute : string -> option exn;
  eng_describe : string -> answer (list (string * string));
  eng_count : string -> answer Z;
  eng_avg : string -> answer (option PyFloat.float);
  eng_kv_metadata : string -> answer (list kv_row);
  eng_json_path : string -> answer (option (option string));
  eng_commit : option exn;
  eng_close : option exn;
  kill_at : option nat
}.

(** Worker state: what was observed so far, the step counter, and the
    local variables that a [finally] block reads again: [table_name] and
    whether [conn] is bound. *)
Record state : Type := mkState {
  trace : list event;
  clock : nat;
  table_name : option string;
  conn : bool
}.

Definition initial : state := mkState [] 0 None false.

(** How a block ends: normally, by [return r], or by an exception. *)
Inductive outcome (R A : Type) : Type :=
  | Normal (a : A)
  | Returned (r : R)
  | Raised (e : exn).
Arguments Normal {R A} a.
Arguments Returned {R A} r.
Arguments Raised {R A} e.

(** A block of a function whose return type is [R]. *)
Definition M (R A : Type) : Type := state -> state * outcome R A.

Definition ret {R A} (a : A) : M R A := fun s => (s, Normal a).

Definition bind {R A B} (c : M R A) (k : A -> M R B) : M R B :=
  fun s =>
    match c s with
    | (s1, Normal a) => k a s1
    | (s1, Returned r) => (s1, Returned r)
    | (s1, Raised e) => (s1, Raised e)
    end.

Definition return_ {R A} (r : R) : M R A := fun s => (s, Returned r).
Definition raise {R A} (e : exn) : M R A := fun s => (s, Raised e).

(** Calling a function: its [return] is the value of the call. *)
Definition call {R R'} (body : M R R) : M R' R :=
  fun s =>
    match body s with
    | (s1, Normal r) => (s1, Normal r)
    | (s1, Returned r) => (s1, Normal r)
    | (s1, Raised e) => (s1, Raised e)
    end.

Definition emit {R} (e : event) : M R unit :=
  fun s =>
    (mkState (trace s ++ [e]) (S (clock s)) (table_name s) (conn s), Normal tt).

Definition lift {R A} (a : answer A) : M R A :=
  match a with Ok v => ret v | Fails e => raise e end.

Definition check {R} (o : option exn) : M R unit :=
  match o with None => ret tt | Some e => raise e end.

(** [try: body except Exception as e: handler(e)] *)
Definition try_except {R A} (body : M R A) (handler : exn -> M R A) : M R A :=
  fun s =>
    match body s with
    | (s1, Raised e) => handler e s1
    | r => r
    end.

(** [try: body finally: fin]: [fin] always runs; if it raises or returns,
    that replaces the way [body] ended. *)
Definition try_finally {R A} (body : M R A) (fin : M R unit) : M R A :=
  fun s =>
    match body s with
    | (s1, o) =>
        match fin s1 with
        | (s2, Normal _) => (s2, o)
        | (s2, Returned r) => (s2, Returned r)
        | (s2, Raised e) => (s2, Raised e)
        end
    end.

(** [self.killed], read at the current step. *)
Definition read_killed {R} (env : Env) : M R bool :=
  fun s =>
    (mkState (trace s) (S (clock s)) (table_name s) (conn s),
     Normal (match kill_at env with
             | Some n => Nat.leb n (clock s)
             | None => false
             end)).

Definition set_table_name {R} (t : string) : M R unit :=
  fun s => (mkState (trace s) (clock s) (Some t) (conn s), Normal tt).

Definition get_table_name {R} : M R string :=
  fun s =>
    match table_name s with
    | Some t => (s, Normal t)
    | None => (s, Raised (unbound_local "table_name"))
    end.

(** [conn = duckdb.connect(db)]: [conn] is bound when the call succeeds. *)
Definition connect {R} (env : Env) (db : option string) : M R unit :=
  fun s =>
    let s1 := mkState (trace s ++ [Connect db]) (S (clock s)) (table_name s) (conn s) in
    match eng_connect env db with
    | None => (mkState (trace s1) (clock s1) (table_name s1) true, Normal tt)
    | Some e => (s1, Raised e)
    end.

(** The calls on the connection. Each is recorded before it is answered. *)
Definition execute {R} (env : Env) (sql : string) : M R unit :=
  bind (emit (Execute sql)) (fun _ => check (eng_execute env sql)).

Definition describe {R} (env : Env) (sql : string) : M R (list (string * string)) :=
  bind (emit (Execute sql)) (fun _ => lift (eng_describe env sql)).

Definition count {R} (env : Env) (sql : string) : M R Z :=
  bind (emit (Execute sql)) (fun _ => lift (eng_count env sql)).

Definition average {R} (env : Env) (sql : string) : M R (option PyFloat.float) :=
  bind (emit (Execute sql)) (fun _ => lift (eng_avg env sql)).

Definition kv_metadata {R} (env : Env) (sql : string) : M R (list kv_row) :=
  bind (emit (Execute sql)) (fun _ => lift (eng_kv_metadata env sql)).

Definition json_path {R} (env : Env) (sql doc : string) : M R (option (option string)) :=
  bind (emit (Execute sql)) (fun _ => lift (eng_json_path env doc)).

Definition commit {R} (env : Env) : M R unit :=
  bind (emit Commit) (fun _ => check (eng_commit env)).

(** [conn.close()]: an unbound [conn] raises before anything is closed. *)
Definition close {R} (env : Env) : M R unit :=
  fun s =>
    if conn s then bind (emit Close) (fun _ => check (eng_close env)) s
    else (s, Raised (unbound_local "conn")).

(** Running a method from the initial state. *)
Definition run_trace {R A} (c : M R A) : list event := trace (fst (c initial)).
Definition run_outcome {R A} (c : M R A) : outcome R A := snd (c initial).

End Py.

Declare Scope py_scope.
Delimit Scope py_scope with py.
Notation "x <- c ;; k" := (Py.bind c (fun x => k))
  (at level 100, c at next level, right associativity) : py_scope.
Notation "c ;; k" := (Py.bind c (fun _ => k))
  (at level 100, right associativity) : py_scope.

(** ** Text that both modules build in the same way

    The two [Worker.run] bodies contain the same f-strings; they differ in
    the indentation of the triple-quoted literals, which is a parameter
    here. *)

Module Sql.
Import Py.
Local Open Scope py_scope.

(** [transform_bbox_to_4326(extent, source_crs)] of [utils.py]; a
    reference system is identified by its authority id. *)
Definition transform_bbox_to_4326 {R} (env : Env) (extent : Extent)
    (source_crs : string) : M R Extent :=
  let dest_crs := "EPSG:4326" in
  if negb (String.eqb source_crs dest_crs)
  then lift (host_transform_bbox env source_crs extent)
  else ret extent.

(** The body of the loop over the schema rows: one SELECT entry. *)
Definition select_entry (row : string * string) : string :=
  let col_name := fst row in
  let col_type := snd row in
  let quoted_col_name := dq +:+ col_name +:+ dq in
  if (PyStr.contains "STRUCT" (PyStr.upper col_type)
      || PyStr.contains "MAP" (PyStr.upper col_type))%bool
  then "TO_JSON(" +:+ quoted_col_name +:+ ") AS " +:+ quoted_col_name
  else if PyStr.contains "[]" col_type
  then "array_to_string(" +:+ quoted_col_name +:+ ", ', ') AS " +:+ quoted_col_name
  else if String.eqb (PyStr.upper col_type) "UTINYINT"
  then "CAST(" +:+ quoted_col_name +:+ " AS INTEGER) AS " +:+ quoted_col_name
  else quoted_col_name.

(** The synthetic column of the Overture special case. *)
Definition name_column : string :=
  dq +:+ "names" +:+ dq +:+ "." +:+ dq +:+ "primary" +:+ dq +:+ " as name,".

(** The WHERE clause; [ind] is the indentation of the literal. *)
Definition where_clause (env : Env) (ind : nat) (bbox_column : option pyval)
    (bbox : Extent) : string :=
  let f := float_str env in
  if truthy bbox_column then
    PyStr.nl +:+ PyStr.spaces ind
      +:+ "WHERE " +:+ dq +:+ format bbox_column +:+ dq +:+ ".xmin BETWEEN "
      +:+ f (xMinimum bbox) +:+ " AND " +:+ f (xMaximum bbox)
      +:+ PyStr.nl +:+ PyStr.spaces ind
      +:+ "AND " +:+ dq +:+ format bbox_column +:+ dq +:+ ".ymin BETWEEN "
      +:+ f (yMinimum bbox) +:+ " AND " +:+ f (yMaximum bbox)
      +:+ PyStr.nl +:+ PyStr.spaces ind
  else
    PyStr.nl +:+ PyStr.spaces ind
      +:+ "WHERE ST_Intersects("
      +:+ PyStr.nl +:+ PyStr.spaces (ind + 4) +:+ "geometry,"
      +:+ PyStr.nl +:+ PyStr.spaces (ind + 4)
      +:+ "ST_GeomFromText('POLYGON(("
      +:+ f (xMinimum bbox) +:+ " " +:+ f (yMinimum bbox) +:+ ","
      +:+ PyStr.nl +:+ PyStr.spaces 44
      +:+ f (xMaximum bbox) +:+ " " +:+ f (yMinimum bbox) +:+ ","
      +:+ PyStr.nl +:+ PyStr.spaces 44
      +:+ f (xMaximum bbox) +:+ " " +:+ f (yMaximum bbox) +:+ ","
      +:+ PyStr.nl +:+ PyStr.spaces 44
      +:+ f (xMinimum bbox) +:+ " " +:+ f (yMaximum bbox) +:+ ","
      +:+ PyStr.nl +:+ PyStr.spaces 44
      +:+ f (xMinimum bbox) +:+ " " +:+ f (yMinimum bbox) +:+ "))')"
      +:+ PyStr.nl +:+ PyStr.spaces ind +:+ ")"
      +:+ PyStr.nl +:+ PyStr.spaces ind.

(** The statement that materializes the result into [table_name]. *)
Definition base_query (ind : nat) (table_name select_query dataset_url
    where_clause : string) : string :=
  PyStr.nl +:+ PyStr.spaces ind
    +:+ "CREATE TABLE " +:+ table_name +:+ " AS ("
    +:+ PyStr.nl +:+ PyStr.spaces (ind + 4)
    +:+ select_query +:+ " FROM read_parquet('" +:+ dataset_url +:+ "')"
    +:+ PyStr.nl +:+ PyStr.spaces (ind + 4) +:+ where_clause
    +:+ PyStr.nl +:+ PyStr.spaces ind +:+ ") "
    +:+ PyStr.nl +:+ PyStr.spaces ind.

Definition schema_query (dataset_url : string) : string :=
  "DESCRIBE SELECT * FROM read_parquet('" +:+ dataset_url +:+ "')".

Definition metadata_query (dataset_url : string) : string :=
  "SELECT key, value FROM parquet_kv_metadata('" +:+ dataset_url +:+ "')".

Definition count_query (table_name : string) : string :=
  "SELECT COUNT(*) FROM " +:+ table_name.

Definition duckdb_saved : string :=
  "Data has been successfully saved to DuckDB database."
    +:+ PyStr.nl +:+ PyStr.nl
    +:+ "Note: QGIS does not currently support loading DuckDB files directly.".

End Sql.

(** ** [gpq_downloader/utils.py] *)

Module Utils.
Import Py Sql.
Local Open Scope py_scope.

Record Worker : Type := mkWorker {
  dataset_url : string;
  extent : Extent;
  output_file : string;
  validation_results : gmap string pyval;
  size_warning_accepted : bool
}.

(** [Worker.process_schema_columns] *)
Definition process_schema_columns (schema_result : list (string * string))
    : list string :=
  map select_entry schema_result.

(** The SELECT list of [Worker.run]. *)
Definition select_query (w : Worker) (schema_result : list (string * string))
    : string :=
  if negb (PyStr.endswith ".parquet" (output_file w)) then
    let columns := process_schema_columns schema_result in
    if PyStr.contains "overture" (dataset_url w)
    then "SELECT " +:+ name_column +:+ PyStr.join ", " columns
    else "SELECT " +:+ PyStr.join ", " columns
  else "SELECT *".

(** The query of [estimate_file_size] that averages the length of the
    sampled features. *)
Definition sample_query (table_name : string) (sample_size : Z)
    (cols : list (string * string)) : string :=
  let props :=
    map (fun col => "'" +:+ fst col +:+ "', COALESCE(CAST(" +:+ fst col
                      +:+ " AS VARCHAR), 'null')")
        (filter (fun col => negb (String.eqb (fst col) "geometry")) cols) in
  PyStr.nl +:+ PyStr.spaces 20 +:+ "WITH sample AS ("
    +:+ PyStr.nl +:+ PyStr.spaces 24 +:+ "SELECT * FROM " +:+ table_name
    +:+ " LIMIT " +:+ PyStr.of_int sample_size
    +:+ PyStr.nl +:+ PyStr.spaces 20 +:+ ")"
    +:+ PyStr.nl +:+ PyStr.spaces 20 +:+ "SELECT AVG(LENGTH("
    +:+ PyStr.nl +:+ PyStr.spaces 24 +:+ "json_object("
    +:+ PyStr.nl +:+ PyStr.spaces 28 +:+ "'type', 'Feature',"
    +:+ PyStr.nl +:+ PyStr.spaces 28 +:+ "'geometry', ST_AsGeoJSON(geometry),"
    +:+ PyStr.nl +:+ PyStr.spaces 28 +:+ "'properties', json_object("
    +:+ PyStr.nl +:+ PyStr.spaces 32 +:+ PyStr.join ", " props
    +:+ PyStr.nl +:+ PyStr.spaces 28 +:+ ")"
    +:+ PyStr.nl +:+ PyStr.spaces 24 +:+ ")::VARCHAR"
    +:+ PyStr.nl +:+ PyStr.spaces 20 +:+ ")) as avg_feature_size"
    +:+ PyStr.nl +:+ PyStr.spaces 20 +:+ "FROM sample;"
    +:+ PyStr.nl +:+ PyStr.spaces 16.

(** The arithmetic of the estimate once the average is known. The row
    count is an [int] and the average a [float], so every operation is a
    floating point one. *)
Definition estimate_mb (row_count : Z) (avg_feature_size : PyFloat.float)
    : answer PyFloat.float :=
  let collection_overhead := 50 in
  let comma_overhead := row_count - 1 in
  match int_mul_float row_count avg_feature_size with
  | Fails e => Fails e
  | Ok product =>
      match float_add_int product collection_overhead with
      | Fails e => Fails e
      | Ok with_overhead =>
          match float_add_int with_overhead comma_overhead with
          | Fails e => Fails e
          | Ok total_estimated_bytes =>
              float_div_int total_estimated_bytes (1024 * 1024)
          end
      end
  end.

#[global] Arguments estimate_mb : simpl never.

(** [Worker.estimate_file_size]. The [0] it returns when there is nothing
    to estimate, or after an exception, is read as the float zero. *)
Definition estimate_file_size (env : Env) (table_name : string)
    : M PyFloat.float PyFloat.float :=
  try_except
    (row_count <- count env (count_query table_name) ;;
     let sample_size := Z.min 100 row_count in
     (if 0 <? sample_size then
        cols <- describe env ("DESCRIBE " +:+ table_name) ;;
        avg_feature_size <- average env (sample_query table_name sample_size cols) ;;
        match avg_feature_size with
        | Some a =>
            if PyFloat.truthy a
            then mb <- lift (estimate_mb row_count a) ;; return_ mb
            else ret tt
        | None => ret tt
        end
      else ret tt) ;;
     return_ PyFloat.zero)
    (fun e => return_ PyFloat.zero).

Definition no_data : string :=
  "No data found in the requested area. Check that your map extent overlaps with the data and/or expand your map extent.".

(** The size above which a GeoJSON export asks for confirmation. *)
Definition size_threshold : Z := 4096.

(** The [try] block of [Worker.run]. *)
Definition run_body (env : Env) (w : Worker) (bbox : Extent) : M unit unit :=
  emit (Progress "Loading spatial extension...") ;;
  (if PyStr.endswith ".duckdb" (PyStr.lower (output_file w))
   then connect env (Some (output_file w))
   else connect env None) ;;
  execute env "INSTALL httpfs;" ;;
  execute env "INSTALL spatial;" ;;
  execute env "LOAD httpfs;" ;;
  execute env "LOAD spatial;" ;;
  schema_result <- describe env (schema_query (dataset_url w)) ;;
  let validation_results :=
    <["schema" := PyRows schema_result]> (validation_results w) in
  let table_name := "download_data" in
  set_table_name table_name ;;
  emit (Progress "Preparing query...") ;;
  let select_query := select_query w schema_result in
  let bbox_column := validation_results !! "bbox_column" in
  let where_clause := where_clause env 16 bbox_column bbox in
  let base_query :=
    base_query 12 table_name select_query (dataset_url w) where_clause in
  emit (Progress "Downloading data...") ;;
  execute env base_query ;;
  row_count <- count env (count_query table_name) ;;
  (if row_count =? 0
   then emit (Error no_data) ;; return_ tt
   else ret tt) ;;
  emit (Progress "Processing data to requested format...") ;;
  let file_extension :=
    PyStr.last_item (PyStr.split "." (PyStr.lower (output_file w))) in
  (if String.eqb file_extension "duckdb" then
     emit (Progress "Saving to DuckDB database...") ;;
     commit env ;;
     killed <- read_killed env ;;
     if negb killed then emit (Info duckdb_saved) else ret tt
   else
     (if PyStr.endswith ".geojson" (PyStr.lower (output_file w)) then
        estimated_size <- call (estimate_file_size env table_name) ;;
        if (PyFloat.gt_int estimated_size size_threshold
            && negb (size_warning_accepted w))%bool
        then emit (FileSizeWarning estimated_size) ;; return_ tt
        else ret tt
      else ret tt) ;;
     emit (Progress ("Exporting data to " +:+ PyStr.upper file_extension +:+ "...")) ;;
     let copy_query :=
       "COPY " +:+ table_name +:+ " TO '" +:+ output_file w +:+ "'" in
     format_options <-
       (if String.eqb file_extension "parquet"
        then ret "(FORMAT 'parquet', COMPRESSION 'ZSTD');"
        else if PyStr.endswith ".gpkg" (output_file w)
        then ret "(FORMAT GDAL, DRIVER 'GPKG', SRS 'EPSG:4326');"
        else if PyStr.endswith ".fgb" (output_file w)
        then ret "(FORMAT GDAL, DRIVER 'FlatGeobuf', SRS 'EPSG:4326');"
        else if PyStr.endswith ".geojson" (output_file w)
        then ret "(FORMAT GDAL, DRIVER 'GeoJSON', SRS 'EPSG:4326');"
        else emit (Error "Unsupported file format.") ;; return_ tt) ;;
     execute env (copy_query +:+ format_options)) ;;
  killed <- read_killed env ;;
  (if killed then return_ tt else ret tt) ;;
  killed <- read_killed env ;;
  if negb killed then
    (if PyStr.endswith ".duckdb" (PyStr.lower (output_file w))
     then emit (Info duckdb_saved)
     else emit (LoadLayer (output_file w))) ;;
    emit Finished
  else ret tt.

(** The [finally] block of [Worker.run]. *)
Definition run_cleanup (env : Env) (w : Worker) : M unit unit :=
  (if negb (PyStr.endswith ".duckdb" (PyStr.lower (output_file w)))
   then try_except
          (table_name <- get_table_name ;;
           execute env ("DROP TABLE IF EXISTS " +:+ table_name))
          (fun _ => ret tt)
   else ret tt) ;;
  close env.

(** [Worker.run] *)
Definition run (env : Env) (w : Worker) : M unit unit :=
  emit (Progress "Connecting to database...") ;;
  source_crs <- lift (host_destination_crs env) ;;
  bbox <- transform_bbox_to_4326 env (extent w) source_crs ;;
  connect env None ;;
  try_finally
    (try_except
       (run_body env w bbox)
       (fun e =>
          killed <- read_killed env ;;
          if negb killed then emit (Error (str_exn e)) else ret tt))
    (run_cleanup env w).

End Utils.

(** ** [ValidationWorker], the same class in both modules

    The preset catalogue is a dictionary of sources, each a dictionary of
    datasets, iterated in insertion order. [utils.py] reads it from
    [data/presets.json] when the worker is created; the plugin module has
    it as the literal [PRESET_DATASETS]. *)

Module ValidationWorker.
Import Py Sql.
Local Open Scope py_scope.

(** One dataset entry: [url] and [url_template] are present when the
    entry has a string under that key. *)
Record Preset : Type := mkPreset {
  url : option string;
  url_template : option string;
  needs_validation_flag : option bool
}.

Definition Catalogue : Type := list (string * list (string * Preset)).

(** [dataset.get("needs_validation", True)] *)
Definition get_needs_validation (dataset : Preset) : bool :=
  match needs_validation_flag dataset with Some b => b | None => true end.

(** The two tests made on one dataset entry; [Some b] is [return b]. *)
Definition match_dataset (dataset_url : string) (dataset : Preset)
    : option bool :=
  if match url dataset with
     | Some u => PyStr.contains u dataset_url
     | None => false
     end
  then Some (get_needs_validation dataset)
  else if match url_template dataset with
          | Some t =>
              PyStr.contains (PyStr.first_item (PyStr.split "{" t)) dataset_url
          | None => false
          end
  then Some (get_needs_validation dataset)
  else None.

(** [for dataset in source.values()] *)
Fixpoint scan_datasets (dataset_url : string)
    (datasets : list (string * Preset)) : option bool :=
  match datasets with
  | [] => None
  | (_, dataset) :: rest =>
      match match_dataset dataset_url dataset with
      | Some b => Some b
      | None => scan_datasets dataset_url rest
      end
  end.

(** [for source in PRESET_DATASETS.values()] *)
Fixpoint scan_sources (dataset_url : string) (sources : Catalogue)
    : option bool :=
  match sources with
  | [] => None
  | (_, datasets) :: rest =>
      match scan_datasets dataset_url datasets with
      | Some b => Some b
      | None => scan_sources dataset_url rest
      end
  end.

(** [ValidationWorker.needs_validation] *)
Definition needs_validation (presets : Catalogue) (dataset_url : string)
    : bool :=
  match scan_sources dataset_url presets with
  | Some b => b
  | None => true
  end.

Definition json_path_query : string :=
  PyStr.nl +:+ PyStr.spaces 24
    +:+ "SELECT json_str->'$.columns.geometry.covering.bbox.xmin[0]' as bbox_column"
    +:+ PyStr.nl +:+ PyStr.spaces 24 +:+ "FROM temp_json"
    +:+ PyStr.nl +:+ PyStr.spaces 20.

(** The [try] block run on one row whose key is [b"geo"]. *)
Definition probe_geo (env : Env) (value : string)
    : M (option string) unit :=
  decoded_value <- lift (bytes_decode env value) ;;
  execute env "INSTALL json;" ;;
  execute env "LOAD json;" ;;
  execute env ("CREATE TEMP TABLE temp_json AS SELECT '" +:+ decoded_value
               +:+ "' as json_str") ;;
  result <- json_path env json_path_query decoded_value ;;
  match result with
  | Some (Some r0) =>
      if PyStr.truthy r0
      then
        let bbox_col := PyStr.strip (ascii_of_nat 34) r0 in
        return_ (Some bbox_col)
      else ret tt
  | _ => ret tt
  end.

(** [for key, value in metadata_results] *)
Fixpoint scan_metadata (env : Env) (metadata_results : list kv_row)
    : M (option string) unit :=
  match metadata_results with
  | [] => ret tt
  | row :: rest =>
      (if String.eqb (kv_key row) "geo" then
         try_finally
           (try_except (probe_geo env (kv_value row)) (fun e => ret tt))
           (execute env "DROP TABLE IF EXISTS temp_json")
       else ret tt) ;;
      scan_metadata env rest
  end.

(** [ValidationWorker.check_bbox_metadata] *)
Definition check_bbox_metadata (env : Env) (dataset_url : string)
    : M (option string) (option string) :=
  metadata_results <- kv_metadata env (metadata_query dataset_url) ;;
  scan_metadata env metadata_results ;;
  return_ None.

(** [any(row[0].lower() == 'bbox' and 'struct' in row[1].lower() ...)] *)
Definition has_standard_bbox (schema_result : list (string * string)) : bool :=
  existsb (fun row => (String.eqb (PyStr.lower (fst row)) "bbox"
                       && PyStr.contains "struct" (PyStr.lower (snd row)))%bool)
          schema_result.

Definition preset_results : gmap string pyval :=
  {[ "has_bbox" := PyBool true; "bbox_column" := PyStr "bbox" ]}.

(** The [try] block of [ValidationWorker.run]. *)
Definition run_body (presets : Catalogue) (env : Env) (dataset_url : string)
    : M unit unit :=
  emit (Progress "Connecting to data source...") ;;
  connect env None ;;
  execute env "INSTALL spatial;" ;;
  execute env "LOAD spatial;" ;;
  execute env "INSTALL httpfs;" ;;
  execute env "LOAD httpfs;" ;;
  (if negb (needs_validation presets dataset_url)
   then emit (ValidationFinished true "Validation successful" preset_results) ;;
        return_ tt
   else ret tt) ;;
  emit (Progress "Checking data format...") ;;
  schema_result <- describe env (schema_query dataset_url) ;;
  let validation_results : gmap string pyval :=
    {[ "schema" := PyRows schema_result;
       "has_bbox" := PyBool false;
       "bbox_column" := PyNone ]} in
  validation_results <-
    (if has_standard_bbox schema_result then
       ret (<["bbox_column" := PyStr "bbox"]>
              (<["has_bbox" := PyBool true]> validation_results))
     else
       bbox_column <- call (check_bbox_metadata env dataset_url) ;;
       match bbox_column with
       | Some c =>
           if PyStr.truthy c
           then ret (<["bbox_column" := PyStr c]>
                       (<["has_bbox" := PyBool true]> validation_results))
           else ret validation_results
       | None => ret validation_results
       end) ;;
  (if negb (truthy (validation_results !! "has_bbox"))
   then emit NeedsBboxWarning ;; return_ tt
   else ret tt) ;;
  emit (ValidationFinished true "Validation successful" validation_results).

(** [ValidationWorker.run] *)
Definition run (presets : Catalogue) (env : Env) (dataset_url : string)
    : M unit unit :=
  try_finally
    (try_except
       (run_body presets env dataset_url)
       (fun e =>
          emit (ValidationFinished false
                  ("Error validating source: " +:+ str_exn e) ∅)))
    (close env).

End ValidationWorker.

(** ** [qgis_plugin_gpq_downloader.py] *)

Module Plugin.
Import Py Sql.
Local Open Scope py_scope.

Definition templated (t : string) (nv : bool) : ValidationWorker.Preset :=
  ValidationWorker.mkPreset None (Some t) (Some nv).

Definition located (u : string) (nv : bool) : ValidationWorker.Preset :=
  ValidationWorker.mkPreset (Some u) None (Some nv).

(** The module-level catalogue. *)
Definition PRESET_DATASETS : ValidationWorker.Catalogue :=
  [ ("overture",
     [ ("buildings", templated "s3://overturemaps-us-west-2/release/2025-01-22.0/theme=buildings/type=building/*" false);
       ("places", templated "s3://overturemaps-us-west-2/release/2025-01-22.0/theme=places/type=place/*" false);
       ("transportation", templated "s3://overturemaps-us-west-2/release/2025-01-22.0/theme=transportation/type=segment/*" false);
       ("addresses", templated "s3://overturemaps-us-west-2/release/2025-01-22.0/theme=addresses/type=*/*" false);
       ("base", templated "s3://overturemaps-us-west-2/release/2025-01-22.0/theme=base/type={subtype}/*" false);
       ("divisions", templated "s3://overturemaps-us-west-2/release/2025-01-22.0/theme=divisions/type=division_area/*" false) ]);
    ("source_cooperative",
     [ ("planet_eu_boundaries", located "https://data.source.coop/planet/eu-field-boundaries/field_boundaries.parquet" false);
       ("usda_crop", located "https://data.source.coop/fiboa/us-usda-cropland/us_usda_cropland.parquet" false);
       ("ca_crop", located "https://data.source.coop/fiboa/us-ca-scm/us_ca_scm.parquet" false);
       ("vida_buildings", located "s3://us-west-2.opendata.source.coop/vida/google-microsoft-osm-open-buildings/geoparquet/by_country/*/*.parquet" false);
       ("us_structures", located "s3://us-west-2.opendata.source.coop/wherobots/usa-structures/geoparquet/*.parquet" false);
       ("fsq_places_fused", located "s3://us-west-2.opendata.source.coop/fused/fsq-os-places/2025-01-10/places/*.parquet" false);
       ("nhd_flowlines", located "https://data.source.coop/cholmes/nhd/NHDFlowline.parquet" true) ]);
    ("other",
     [ ("foursquare_places", located "hf://datasets/foursquare/fsq-os-places/release/dt=2025-01-10/places/parquet/*.parquet" false) ]) ].

Record Worker : Type := mkWorker {
  dataset_url : string;
  extent : Extent;
  output_file : string;
  validation_results : gmap string pyval
}.

(** The SELECT list of [Worker.run]; the loop over the schema is written
    out in the method. *)
Definition select_query (w : Worker) (schema_result : list (string * string))
    : string :=
  if negb (PyStr.endswith ".parquet" (output_file w)) then
    let columns := map select_entry schema_result in
    let has_names_column :=
      existsb (fun row => PyStr.contains "names" (fst row)) schema_result in
    if (PyStr.contains "overture" (dataset_url w) && has_names_column)%bool
    then "SELECT " +:+ name_column +:+ PyStr.join ", " columns
    else "SELECT " +:+ PyStr.join ", " columns
  else "SELECT *".

Definition no_data : string :=
  "No data found in the requested area. Check that your map extent overlaps with the data and/or expand your map extent. Skipping to next dataset if available.".

Definition no_data_for (dataset_url : string) : string :=
  "No data found in the requested area for " +:+ dataset_url
    +:+ ". Skipping to next dataset if available.".

(** The inner [try] block of [Worker.run]. *)
Definition run_body (env : Env) (w : Worker) (bbox : Extent) : M unit unit :=
  emit (Progress "Loading spatial extension...") ;;
  (if PyStr.endswith ".duckdb" (PyStr.lower (output_file w))
   then connect env (Some (output_file w))
   else connect env None) ;;
  execute env "INSTALL httpfs;" ;;
  execute env "INSTALL spatial;" ;;
  execute env "LOAD httpfs;" ;;
  execute env "LOAD spatial;" ;;
  schema_result <- describe env (schema_query (dataset_url w)) ;;
  let validation_results :=
    <["schema" := PyRows schema_result]> (validation_results w) in
  let table_name := "download_data" in
  set_table_name table_name ;;
  emit (Progress "Preparing query...") ;;
  let select_query := select_query w schema_result in
  let bbox_column := validation_results !! "bbox_column" in
  let where_clause := where_clause env 20 bbox_column bbox in
  let base_query :=
    base_query 16 table_name select_query (dataset_url w) where_clause in
  emit (Progress "Downloading data...") ;;
  execute env base_query ;;
  row_count <- count env (count_query table_name) ;;
  (if row_count =? 0
   then emit (Info no_data) ;; emit Finished ;; return_ tt
   else ret tt) ;;
  emit (Progress "Processing data to requested format...") ;;
  let file_extension :=
    PyStr.last_item (PyStr.split "." (PyStr.lower (output_file w))) in
  (if String.eqb file_extension "duckdb" then
     commit env ;;
     killed <- read_killed env ;;
     if negb killed then emit (Info duckdb_saved) else ret tt
   else
     let copy_query :=
       "COPY " +:+ table_name +:+ " TO '" +:+ output_file w +:+ "'" in
     format_options <-
       (if String.eqb file_extension "parquet"
        then ret (Some "(FORMAT 'parquet', COMPRESSION 'ZSTD');")
        else if PyStr.endswith ".gpkg" (output_file w)
        then ret (Some "(FORMAT GDAL, DRIVER 'GPKG');")
        else if PyStr.endswith ".fgb" (output_file w)
        then ret (Some "(FORMAT GDAL, DRIVER 'FlatGeobuf', SRS 'EPSG:4326');")
        else emit (Error "Unsupported file format.") ;; ret None) ;;
     (* [format_options] is read by the [print] that precedes the COPY *)
     format_options <-
       match format_options with
       | Some f => ret f
       | None => raise (unbound_local "format_options")
       end ;;
     execute env (copy_query +:+ format_options)) ;;
  killed <- read_killed env ;;
  (if killed then return_ tt else ret tt) ;;
  killed <- read_killed env ;;
  if negb killed then
    (if PyStr.endswith ".duckdb" (PyStr.lower (output_file w))
     then emit (Info duckdb_saved)
     else emit (LoadLayer (output_file w))) ;;
    emit Finished
  else ret tt.

(** The inner [except] block. *)
Definition run_handler (env : Env) (w : Worker) (e : exn) : M unit unit :=
  killed <- read_killed env ;;
  if negb killed then
    let error_str := str_exn e in
    if PyStr.contains "No data found" error_str
    then emit (Info (no_data_for (dataset_url w))) ;; emit Finished
    else emit (Error error_str)
  else ret tt.

(** The [finally] block. *)
Definition run_cleanup (env : Env) (w : Worker) : M unit unit :=
  (if negb (PyStr.endswith ".duckdb" (PyStr.lower (output_file w)))
   then try_except
          (table_name <- get_table_name ;;
           execute env ("DROP TABLE IF EXISTS " +:+ table_name))
          (fun _ => ret tt)
   else ret tt) ;;
  close env.

(** [Worker.run] *)
Definition run (env : Env) (w : Worker) : M unit unit :=
  try_except
    (emit (Progress "Connecting to database...") ;;
     source_crs <- lift (host_destination_crs env) ;;
     bbox <- transform_bbox_to_4326 env (extent w) source_crs ;;
     connect env None ;;
     try_finally
       (try_except (run_body env w bbox) (run_handler env w))
       (run_cleanup env w))
    (fun e =>
       killed <- read_killed env ;;
       if negb killed then emit (Error (str_exn e)) else ret tt).

(** [ValidationWorker.run] with the module's catalogue. *)
Definition validation_run (env : Env) (dataset_url : string) : M unit unit :=
  ValidationWorker.run PRESET_DATASETS env dataset_url.

End Plugin.

(** ** Observations on traces *)

Module Obs.
Import Py.

(** A file is written by a COPY statement or by committing into the
    destination database. *)
Definition is_copy (e : event) : bool :=
  match e with
  | Execute sql => PyStr.startswith "COPY" sql
  | _ => false
  end.

Definition writes_file (e : event) : bool :=
  match e with
  | Execute sql => PyStr.startswith "COPY" sql
  | Commit => true
  | _ => false
  end.

Definition is_error (e : event) : bool :=
  match e with Error _ => true | _ => false end.

Definition is_info (e : event) : bool :=
  match e with Info _ => true | _ => false end.

Definition is_error_or_info (e : event) : bool := (is_error e || is_info e)%bool.

Definition is_error_msg (m : string) (e : event) : bool :=
  match e with Error m' => String.eqb m m' | _ => false end.

Definition is_info_msg (m : string) (e : event) : bool :=
  match e with Info m' => String.eqb m m' | _ => false end.

Definition is_progress_msg (m : string) (e : event) : bool :=
  match e with Progress m' => String.eqb m m' | _ => false end.

Definition is_execute (q : string) (e : event) : bool :=
  match e with Execute q' => String.eqb q q' | _ => false end.

Definition is_finished (e : event) : bool :=
  match e with Finished => true | _ => false end.

Definition is_load_layer (e : event) : bool :=
  match e with LoadLayer _ => true | _ => false end.

Definition is_size_warning (e : event) : bool :=
  match e with FileSizeWarning _ => true | _ => false end.

Definition is_close (e : event) : bool :=
  match e with Close => true | _ => false end.

Definition is_validation_finished (e : event) : bool :=
  match e with ValidationFinished _ _ _ => true | _ => false end.

Definition is_bbox_warning (e : event) : bool :=
  match e with NeedsBboxWarning => true | _ => false end.

(** Some event of the trace satisfies [p]; no event does. *)
Definition some (p : event -> bool) (t : list event) : bool := existsb p t.
Definition none (p : event -> bool) (t : list event) : bool :=
  forallb (fun e => negb (p e)) t.

(** The dispatcher of [Worker.run] is entered when this is announced. *)
Definition dispatching : string := "Processing data to requested format...".

(** The extension the dispatcher branches on. *)
Definition file_extension (output_file : string) : string :=
  PyStr.last_item (PyStr.split "." (PyStr.lower output_file)).

Definition supported_formats : list string :=
  ["duckdb"; "parquet"; "gpkg"; "fgb"; "geojson"].

Definition supported (ext : string) : bool :=
  existsb (String.eqb ext) supported_formats.

End Obs.

(** ** Sample environments, for running the workers on concrete inputs *)

Module Sample.
Import Py.

(** Integral coordinates as Python shows them: [10.0]. *)
Definition show_float (q : Q) : string :=
  PyStr.of_int (Qnum q / Zpos (Qden q)) +:+ ".0".

(** The double 200.0. *)
Definition bytes_200 : PyFloat.float :=
  SpecFloat.S754_finite false 7036874417766400 (-45).

(** The double nearest to 0.1. *)
Definition tenth : PyFloat.float :=
  SpecFloat.S754_finite false 7205759403792794 (-56).

(** The doubles 10001.0 and 100.0, and their quotient: the average of
    100 lengths whose sum is 10001. *)
Definition sum_10001 : PyFloat.float :=
  SpecFloat.S754_finite false 5498107894693888 (-39).

Definition rows_100 : PyFloat.float :=
  SpecFloat.S754_finite false 7036874417766400 (-46).

Definition average_100_01 : PyFloat.float :=
  SpecFloat.S754_finite false 7037578105208177 (-46).

(** An engine on which every call succeeds: the dataset has the given
    schema and metadata, the materialized table [rows] rows whose sampled
    features average [avg] bytes. *)
Definition engine (schema : list (string * string)) (metadata : list kv_row)
    (geo_column : option (option string)) (rows : Z)
    (avg : option PyFloat.float)
    (kill : option nat) : Env :=
  {| host_destination_crs := Ok "EPSG:4326";
     host_transform_bbox := fun _ e => Ok e;
     float_str := show_float;
     bytes_decode := fun b => Ok b;
     eng_connect := fun _ => None;
     eng_execute := fun _ => None;
     eng_describe := fun _ => Ok schema;
     eng_count := fun _ => Ok rows;
     eng_avg := fun _ => Ok avg;
     eng_kv_metadata := fun _ => Ok metadata;
     eng_json_path := fun _ => Ok geo_column;
     eng_commit := None;
     eng_close := None;
     kill_at := kill |}.

(** The same engine reading a metadata blob that it cannot parse. *)
Definition engine_bad_geo (schema : list (string * string))
    (metadata : list kv_row) : Env :=
  {| host_destination_crs := Ok "EPSG:4326";
     host_transform_bbox := fun _ e => Ok e;
     float_str := show_float;
     bytes_decode := fun b => Ok b;
     eng_connect := fun _ => None;
     eng_execute := fun _ => None;
     eng_describe := fun _ => Ok schema;
     eng_count := fun _ => Ok 0;
     eng_avg := fun _ => Ok None;
     eng_kv_metadata := fun _ => Ok metadata;
     eng_json_path := fun _ => Fails (PyExc "ConversionException" "Malformed JSON");
     eng_commit := None;
     eng_close := None;
     kill_at := None |}.

Definition places_schema : list (string * string) :=
  [ ("id", "VARCHAR");
    ("geometry", "GEOMETRY");
    ("bbox", "STRUCT(xmin FLOAT, xmax FLOAT, ymin FLOAT, ymax FLOAT)");
    ("names", "STRUCT(primary VARCHAR, common MAP(VARCHAR, VARCHAR))");
    ("websites", "VARCHAR[]");
    ("level", "UTINYINT") ].

Definition address_schema : list (string * string) :=
  [ ("id", "VARCHAR");
    ("geometry", "GEOMETRY");
    ("bbox", "STRUCT(xmin FLOAT, xmax FLOAT, ymin FLOAT, ymax FLOAT)");
    ("street", "VARCHAR") ].

(** A schema with no column called [names], one of whose column names
    contains that word. *)
Definition nickname_schema : list (string * string) :=
  [ ("id", "VARCHAR"); ("geometry", "GEOMETRY"); ("nicknames", "VARCHAR[]") ].

Definition plain_schema : list (string * string) :=
  [ ("id", "VARCHAR"); ("geometry", "GEOMETRY") ].

Definition square : Extent := mkExtent (0 # 1) (0 # 1) (10 # 1) (10 # 1).

Definition overture_places : string :=
  "s3://overturemaps-us-west-2/release/2025-01-22.0/theme=places/type=place/*".

Definition overture_addresses : string :=
  "s3://overturemaps-us-west-2/release/2025-01-22.0/theme=addresses/type=*/*".

Definition custom_url : string := "https://example.org/data/fields.parquet".

Definition preset_results : gmap string pyval :=
  {[ "has_bbox" := PyBool true; "bbox_column" := PyStr "bbox" ]}.

(** Workers of both modules on the same request. *)
Definition utils_worker (url out : string) : Utils.Worker :=
  Utils.mkWorker url square out preset_results false.

Definition plugin_worker (url out : string) : Plugin.Worker :=
  Plugin.mkWorker url square out preset_results.

End Sample.

(** ** A weakest-precondition calculus for the effect monad

    [wp c Post s] holds when running [c] from [s] ends in a state and an
    outcome that satisfy [Post]. One rule per primitive; the rules are
    applied from the first statement of a method to its last. *)

Module Wp.
Import Py.

Definition push (e : event) (s : state) : state :=
  mkState (trace s ++ [e]) (S (clock s)) (table_name s) (conn s).

Definition tick (s : state) : state :=
  mkState (trace s) (S (clock s)) (table_name s) (conn s).

Definition bound (s : state) : state :=
  mkState (trace s) (clock s) (table_name s) true.

Definition named (t : string) (s : state) : state :=
  mkState (trace s) (clock s) (Some t) (conn s).

Definition killed_by (env : Env) (s : state) : bool :=
  match kill_at env with
  | Some n => Nat.leb n (clock s)
  | None => false
  end.

Definition wp {R A} (c : M R A) (Post : state -> outcome R A -> Prop)
    (s : state) : Prop :=
  Post (fst (c s)) (snd (c s)).

(** What is left to show after a statement that ends normally with [a],
    returns, or raises. *)
Definition after {R A B} (k : A -> M R B) (Post : state -> outcome R B -> Prop)
    (s : state) (o : outcome R A) : Prop :=
  match o with
  | Normal a => wp (k a) Post s
  | Returned r => Post s (Returned r)
  | Raised e => Post s (Raised e)
  end.

(** Statements on the connection are the only events of a probe. *)
Definition quiet (e : event) : bool :=
  match e with Execute _ => true | _ => false end.

(** [s'] is [s] after some statements were executed. *)
Definition extended (s s' : state) : Prop :=
  exists l, trace s' = (trace s ++ l)%list
            /\ forallb quiet l = true
            /\ table_name s' = table_name s
            /\ conn s' = conn s.

End Wp.

(** ** Statements about runs *)

Module Spec.
Import Py.

(** What the dispatcher does with a destination it cannot write: nothing
    is written on any path, and once the dispatcher is entered the
    unsupported format is reported and the download ends without a layer
    or a completion signal. *)
Definition rejects_format (t : list event) : Prop :=
  Obs.none Obs.writes_file t = true
  /\ (Obs.some (Obs.is_progress_msg Obs.dispatching) t = true ->
      Obs.some (Obs.is_error_msg "Unsupported file format.") t = true
      /\ Obs.none Obs.is_load_layer t = true
      /\ Obs.none Obs.is_finished t = true).

(** The tests [Worker.run] makes on a path, all negative. *)
Record unsupported_path (out : string) : Prop := {
  up_duckdb : String.eqb (Obs.file_extension out) "duckdb" = false;
  up_parquet : String.eqb (Obs.file_extension out) "parquet" = false;
  up_duckdb_l : PyStr.endswith ".duckdb" (PyStr.lower out) = false;
  up_geojson_l : PyStr.endswith ".geojson" (PyStr.lower out) = false;
  up_gpkg : PyStr.endswith ".gpkg" out = false;
  up_fgb : PyStr.endswith ".fgb" out = false;
  up_geojson : PyStr.endswith ".geojson" out = false
}.

(** The only error or information signals a worker may emit once it is
    killed, according to the guards that [Worker.run] has. *)
Definition unguarded (no_data : string) (e : event) : bool :=
  (negb (Obs.is_error_or_info e)
   || Obs.is_error_msg no_data e
   || Obs.is_info_msg no_data e
   || Obs.is_error_msg "Unsupported file format." e)%bool.

(** *** The WHERE clause, as the specification words it

    A predicate over the rows of the dataset: a range test on one field of
    a bounding-box column, a conjunction, or an intersection test against
    a polygon ring. *)
Inductive predicate : Type :=
  | Between (column field : string) (lo hi : Q)
  | Both (p q : predicate)
  | Intersects (ring : list (Q * Q)).

(** The fields of the bounding-box column that a predicate reads. *)
Fixpoint fields (p : predicate) : list string :=
  match p with
  | Between _ f _ _ => [f]
  | Both p q => fields p ++ fields q
  | Intersects _ => []
  end.

(** Minimum X within the extent's X range and minimum Y within its Y
    range. *)
Definition range_filter (column : string) (extent : Extent) : predicate :=
  Both (Between column "xmin" (xMinimum extent) (xMaximum extent))
       (Between column "ymin" (yMinimum extent) (yMaximum extent)).

(** The four corners of the extent, closed by repeating the first. *)
Definition ring_of (extent : Extent) : list (Q * Q) :=
  [ (xMinimum extent, yMinimum extent);
    (xMaximum extent, yMinimum extent);
    (xMaximum extent, yMaximum extent);
    (xMinimum extent, yMaximum extent);
    (xMinimum extent, yMinimum extent) ].

(** The bounding box stored with a row. *)
Record Box : Type := mkBox { box_xmin : Q; box_ymin : Q; box_xmax : Q; box_ymax : Q }.

Definition field_of (b : Box) (f : string) : option Q :=
  if String.eqb f "xmin" then Some (box_xmin b)
  else if String.eqb f "ymin" then Some (box_ymin b)
  else if String.eqb f "xmax" then Some (box_xmax b)
  else if String.eqb f "ymax" then Some (box_ymax b)
  else None.

(** Whether a row passes; [touches] decides the intersection test on
    the row's geometry. *)
Fixpoint accepts (touches : list (Q * Q) -> bool) (p : predicate) (b : Box)
    : bool :=
  match p with
  | Between _ f lo hi =>
      match field_of b f with
      | Some v => (Qle_bool lo v && Qle_bool v hi)%bool
      | None => false
      end
  | Both p q => (accepts touches p b && accepts touches q b)%bool
  | Intersects ring => touches ring
  end.

(** The SQL text of a predicate, laid out as the workers lay it out. *)
Fixpoint render (env : Env) (ind : nat) (p : predicate) : string :=
  match p with
  | Between c f lo hi =>
      dq +:+ c +:+ dq +:+ "." +:+ f +:+ " BETWEEN " +:+ float_str env lo
         +:+ " AND " +:+ float_str env hi
  | Both p q =>
      render env ind p +:+ PyStr.nl +:+ PyStr.spaces ind +:+ "AND "
        +:+ render env ind q
  | Intersects ring =>
      "ST_Intersects("
        +:+ PyStr.nl +:+ PyStr.spaces (ind + 4) +:+ "geometry,"
        +:+ PyStr.nl +:+ PyStr.spaces (ind + 4) +:+ "ST_GeomFromText('POLYGON(("
        +:+ PyStr.join ("," +:+ PyStr.nl +:+ PyStr.spaces 44)
              (map (fun pt => float_str env (fst pt) +:+ " " +:+ float_str env (snd pt))
                   ring)
        +:+ "))')"
        +:+ PyStr.nl +:+ PyStr.spaces ind +:+ ")"
  end.

Definition where_text (env : Env) (ind : nat) (p : predicate) : string :=
  PyStr.nl +:+ PyStr.spaces ind +:+ "WHERE " +:+ render env ind p
    +:+ PyStr.nl +:+ PyStr.spaces ind.

(** The extent in WGS84, as the bounding-box normalizer gives it. *)
Definition normalized (env : Env) (source_crs : string) (extent : Extent)
    : answer Extent :=
  if String.eqb source_crs "EPSG:4326" then Ok extent
  else host_transform_bbox env source_crs extent.

(** The engine accepts the connection and the extensions of a download. *)
Definition download_setup_ok (env : Env) (database : option string) : Prop :=
  eng_connect env None = None
  /\ eng_connect env database = None
  /\ eng_execute env "INSTALL httpfs;" = None
  /\ eng_execute env "INSTALL spatial;" = None
  /\ eng_execute env "LOAD httpfs;" = None
  /\ eng_execute env "LOAD spatial;" = None.

(** The database a download connects to: the destination when it is a
    DuckDB file, otherwise one in memory. *)
Definition database_of (output_file : string) : option string :=
  if PyStr.endswith ".duckdb" (PyStr.lower output_file)
  then Some output_file else None.

(** *** The SELECT list, as the specification words it *)

(** The serialization a column type calls for. *)
Inductive kind : Type := Structured | ListLike | NarrowUnsigned | Plain.

Definition classify (col_type : string) : kind :=
  if (PyStr.contains "STRUCT" (PyStr.upper col_type)
      || PyStr.contains "MAP" (PyStr.upper col_type))%bool then Structured
  else if PyStr.contains "[]" col_type then ListLike
  else if String.eqb (PyStr.upper col_type) "UTINYINT" then NarrowUnsigned
  else Plain.

Definition quoted (col_name : string) : string := dq +:+ col_name +:+ dq.

Definition coerce (k : kind) (col_name : string) : string :=
  match k with
  | Structured => "TO_JSON(" +:+ quoted col_name +:+ ") AS " +:+ quoted col_name
  | ListLike =>
      "array_to_string(" +:+ quoted col_name +:+ ", ', ') AS " +:+ quoted col_name
  | NarrowUnsigned =>
      "CAST(" +:+ quoted col_name +:+ " AS INTEGER) AS " +:+ quoted col_name
  | Plain => quoted col_name
  end.

(** The SELECT list with and without the synthetic [name] column. *)
Definition with_name (columns : list string) : string :=
  "SELECT " +:+ Sql.name_column +:+ PyStr.join ", " columns.

Definition without_name (columns : list string) : string :=
  "SELECT " +:+ PyStr.join ", " columns.

(** The two conditions of the Overture special case, as the plugin module
    tests them. *)
Definition is_overture (dataset_url : string) : bool :=
  PyStr.contains "overture" dataset_url.

Definition has_names (schema : list (string * string)) : bool :=
  existsb (fun row => PyStr.contains "names" (fst row)) schema.

(** The second condition as the specification words it: the schema has
    a column called [names]. *)
Definition names_column (schema : list (string * string)) : bool :=
  existsb (fun row => String.eqb (fst row) "names") schema.

(** *** The size estimate *)

(** The estimate as the specification words it, in exact arithmetic. *)
Definition exact_mb (N : Z) (A : Q) : Q :=
  ((inject_Z N * A + (50 # 1) + inject_Z (N - 1)) / (1048576 # 1))%Q.

(** Whether the float [mb] stands for exactly that number: for an
    average [a], and for the number that the float [A] the engine
    returned stands for. *)
Definition stands_for (N : Z) (a : Q) (mb : PyFloat.float) : bool :=
  match PyFloat.value mb with
  | Some v => Qeq_bool v (exact_mb N a)
  | None => false
  end.

Definition is_exact (N : Z) (A mb : PyFloat.float) : bool :=
  match PyFloat.value A with
  | Some a => stands_for N a mb
  | None => false
  end.

(** The doubles 50.0 and 1048576.0, and the estimate as the code computes
    it from the converted row count [n] and the converted [N - 1]. *)
Definition fifty : PyFloat.float :=
  SpecFloat.S754_finite false 7036874417766400 (-47).

Definition mebi : PyFloat.float :=
  SpecFloat.S754_finite false 4503599627370496 (-32).

Definition rounded_mb (n A k : PyFloat.float) : PyFloat.float :=
  PyFloat.div (PyFloat.add (PyFloat.add (PyFloat.mul n A) fifty) k) mebi.

(** *** The geo metadata *)

Definition create_temp_json (decoded_value : string) : string :=
  "CREATE TEMP TABLE temp_json AS SELECT '" +:+ decoded_value +:+ "' as json_str".


(** A blob from which the detector gets no column name: it is malformed,
    or the path under [covering] is absent, null or empty. *)
Definition fruitless (env : Env) (value : string) : bool :=
  match bytes_decode env value with
  | Fails _ => true
  | Ok d =>
      match eng_execute env (create_temp_json d) with
      | Some _ => true
      | None =>
          match eng_json_path env d with
          | Fails _ => true
          | Ok (Some (Some r)) => negb (PyStr.truthy r)
          | Ok _ => true
          end
      end
  end.

(** Every row keyed [geo] carries a malformed (a fruitless) blob. *)
Definition all_geo (p : string -> bool) (rows : list kv_row) : bool :=
  forallb (fun row => (negb (String.eqb (kv_key row) "geo")
                       || p (kv_value row))%bool) rows.


Definition all_fruitless (env : Env) (rows : list kv_row) : bool :=
  all_geo (fruitless env) rows.

(** *** The validation result *)

(** The connection is open and the two extensions are loaded. *)
Definition setup_ok (env : Env) : Prop :=
  eng_connect env None = None
  /\ eng_execute env "INSTALL spatial;" = None
  /\ eng_execute env "LOAD spatial;" = None
  /\ eng_execute env "INSTALL httpfs;" = None
  /\ eng_execute env "LOAD httpfs;" = None.

(** A result dictionary that names a usable bbox column. *)
Definition names_bbox (results : gmap string pyval) : bool :=
  match results !! "has_bbox", results !! "bbox_column" with
  | Some (PyBool true), Some (PyStr c) => PyStr.truthy c
  | _, _ => false
  end.

(** A successful emission on [finished] carries such a result. *)
Definition sound_success (e : event) : bool :=
  match e with
  | ValidationFinished true _ results => names_bbox results
  | _ => true
  end.

Definition is_failure (e : event) : bool :=
  match e with ValidationFinished false _ _ => true | _ => false end.

(** Every successful emission is sound, and a warning excludes any
    emission on [finished]. *)
Definition validation_invariant (t : list event) : Prop :=
  forallb sound_success t = true
  /\ (Obs.some Obs.is_bbox_warning t = true ->
      Obs.none Obs.is_validation_finished t = true).

(** The datasets of a catalogue, in the order the detector visits them,
    and whether a dataset's URL (or the fixed part of its template)
    occurs in the URL at hand. *)
Definition entries (presets : ValidationWorker.Catalogue)
    : list ValidationWorker.Preset :=
  concat (map (fun source => map snd (snd source)) presets).

Definition mentions (dataset_url : string) (d : ValidationWorker.Preset) : bool :=
  (match ValidationWorker.url d with
   | Some u => PyStr.contains u dataset_url
   | None => false
   end
   || match ValidationWorker.url_template d with
      | Some t => PyStr.contains (PyStr.first_item (PyStr.split "{" t)) dataset_url
      | None => false
      end)%bool.

(** The result emitted when the schema has a standard bbox column. *)
Definition standard_results (schema : list (string * string))
    : gmap string pyval :=
  <["bbox_column" := PyStr "bbox"]>
    (<["has_bbox" := PyBool true]>
       ({[ "schema" := PyRows schema;
           "has_bbox" := PyBool false;
           "bbox_column" := PyNone ]} : gmap string pyval)).

End Spec.


(** ** What a block may add to the trace

    Properties of a whole run that do not depend on the path taken are
    shown statement by statement rather than path by path. *)

Module Frame.
Import Py.

(** Whatever the environment answers, running [c] appends only events
    that satisfy [p], and a bound connection stays bound. *)
Definition only {R A} (p : event -> bool) (c : M R A) : Prop :=
  forall s, exists l,
    trace (fst (c s)) = (trace s ++ l)%list
    /\ forallb p l = true
    /\ (conn s = true -> conn (fst (c s)) = true).

(** A property of traces that survives appending events satisfying [p]. *)
Definition stable (p : event -> bool) (Q : list event -> Prop) : Prop :=
  forall t l, Q t -> forallb p l = true -> Q (t ++ l)%list.

Definition anything (e : event) : bool := true.

End Frame.

(** ** Situations of a download *)

Module Download.
Import Py.

(** The statements of [Worker.run] that come before its [try] block: the
    reference system of the canvas is read, the extent is normalized and
    a first connection is opened. One of them fails with [e]. *)
Definition prelude_fails (env : Env) (extent : Extent) (e : exn) : Prop :=
  host_destination_crs env = Fails e
  \/ (exists crs,
        host_destination_crs env = Ok crs
        /\ Spec.normalized env crs extent = Fails e)
  \/ (exists crs bbox,
        host_destination_crs env = Ok crs
        /\ Spec.normalized env crs extent = Ok bbox
        /\ eng_connect env None = Some e).

(** All three succeed. *)
Definition prelude_ok (env : Env) (extent : Extent) : Prop :=
  exists crs bbox,
    host_destination_crs env = Ok crs
    /\ Spec.normalized env crs extent = Ok bbox
    /\ eng_connect env None = None.

(** The extensions the dispatcher of the plugin module writes. *)
Definition plugin_formats : list string := ["duckdb"; "parquet"; "gpkg"; "fgb"].

Definition plugin_supported (ext : string) : bool :=
  existsb (String.eqb ext) plugin_formats.

(** The error signals of a trace. *)
Definition errors (t : list event) : list event := List.filter Obs.is_error t.

(** An engine that accepts every connection and statement, with a
    worker that is never killed. *)
Definition obliging (env : Env) : Prop :=
  (forall db, eng_connect env db = None)
  /\ (forall q, eng_execute env q = None)
  /\ eng_commit env = None
  /\ eng_close env = None
  /\ kill_at env = None.

(** A download of [rows] rows that meets no obstacle. *)
Definition goes_well (env : Env) (extent : Extent) (dataset_url : string)
    (rows : Z) : Prop :=
  obliging env
  /\ (exists crs bbox,
        host_destination_crs env = Ok crs
        /\ Spec.normalized env crs extent = Ok bbox)
  /\ (exists schema, eng_describe env (Sql.schema_query dataset_url) = Ok schema)
  /\ eng_count env (Sql.count_query "download_data") = Ok rows
  /\ rows <> 0.

(** The engine is obliging, but it cannot read the dataset: describing
    it fails with [e]. *)
Definition unreadable (env : Env) (extent : Extent) (dataset_url : string)
    (e : exn) : Prop :=
  obliging env
  /\ (exists crs bbox,
        host_destination_crs env = Ok crs
        /\ Spec.normalized env crs extent = Ok bbox)
  /\ eng_describe env (Sql.schema_query dataset_url) = Fails e.

(** The destination is neither a DuckDB nor a Parquet file by its
    extension, and ends in none of [suffixes] as it is written. *)
Definition falls_through (output_file : string) (suffixes : list string) : Prop :=
  String.eqb (Obs.file_extension output_file) "duckdb" = false
  /\ String.eqb (Obs.file_extension output_file) "parquet" = false
  /\ forallb (fun suffix => negb (PyStr.endswith suffix output_file)) suffixes
     = true.

(** A destination that is not written: nothing is copied or committed
    and no layer is loaded; once the dispatcher is entered, completion is
    not signalled and the run reports an unsupported format or, for a
    large GeoJSON export, raises the size warning. *)
Definition refused (t : list event) : Prop :=
  Obs.none Obs.writes_file t = true
  /\ Obs.none Obs.is_load_layer t = true
  /\ (Obs.some (Obs.is_progress_msg Obs.dispatching) t = true ->
      Obs.none Obs.is_finished t = true
      /\ (Obs.some (Obs.is_error_msg "Unsupported file format.") t
          || Obs.some Obs.is_size_warning t)%bool = true).

(** Events that leave a rejection as it is. *)
Definition indifferent (e : event) : bool :=
  negb (Obs.writes_file e || Obs.is_load_layer e || Obs.is_finished e
        || Obs.is_progress_msg Obs.dispatching e).

(** The statement that exports the table with the given options. *)
Definition copy_statement (output_file format_options : string) : event :=
  Execute (("COPY " +:+ "download_data" +:+ " TO '" +:+ output_file +:+ "'")
             +:+ format_options).

Definition drop_download_data : event :=
  Execute ("DROP TABLE IF EXISTS " +:+ "download_data").

(** The last [n] events of a trace. *)
Definition last_events (n : nat) (t : list event) : list event :=
  rev (firstn n (rev t)).

(** How often a run signalled completion. *)
Definition completions (t : list event) : nat :=
  length (List.filter Obs.is_finished t).

(** Events that neither write, nor complete, nor gate a download. *)
Definition harmless (e : event) : bool :=
  negb (Obs.writes_file e || Obs.is_size_warning e
        || Obs.is_finished e || Obs.is_load_layer e).

(** A run that raised the size warning wrote nothing and did not signal
    completion. *)
Definition gated (t : list event) : Prop :=
  Obs.some Obs.is_size_warning t = true ->
  Obs.none Obs.writes_file t = true
  /\ Obs.none Obs.is_finished t = true
  /\ Obs.none Obs.is_load_layer t = true.

End Download.

(** ** Situations of the detector *)

Module Detect.
Import Py.

(** The probe of a [geo] blob gets the column name [name] out of it. *)
Definition yields (env : Env) (value name : string) : Prop :=
  exists decoded_value,
    bytes_decode env value = Ok decoded_value
    /\ eng_execute env "INSTALL json;" = None
    /\ eng_execute env "LOAD json;" = None
    /\ eng_execute env (Spec.create_temp_json decoded_value) = None
    /\ eng_json_path env decoded_value = Ok (Some (Some name))
    /\ PyStr.truthy name = true.

Definition is_geo (row : kv_row) : bool := String.eqb (kv_key row) "geo".

Definition drop_temp_json : event := Execute "DROP TABLE IF EXISTS temp_json".

End Detect.

(** ** More Python string primitives, used by the dialog *)

Module Text.

(** [s.split(sep)] for a separator of any positive length: the pieces
    between the occurrences of [sep], found from left to right without
    overlap. [skip] counts the characters of an occurrence still to pass. *)
Fixpoint split_from (sep : string) (skip : nat) (s : string) : list string :=
  match s with
  | EmptyString => [EmptyString]
  | String c t =>
      match skip with
      | S k => split_from sep k t
      | O =>
          if String.prefix sep s
          then EmptyString :: split_from sep (String.length sep - 1) t
          else match split_from sep 0 t with
               | h :: r => String c h :: r
               | [] => [String c EmptyString]
               end
      end
  end.

Definition split (sep s : string) : list string := split_from sep 0 s.

(** [s.replace(old, new)] for a non-empty [old]. *)
Fixpoint replace_from (old new : string) (skip : nat) (s : string) : string :=
  match s with
  | EmptyString => EmptyString
  | String c t =>
      match skip with
      | S k => replace_from old new k t
      | O =>
          if String.prefix old s
          then new +:+ replace_from old new (String.length old - 1) t
          else String c (replace_from old new 0 t)
      end
  end.

Definition replace (old new s : string) : string := replace_from old new 0 s.

(** [s.strip()]: ASCII white space is removed at both ends. *)
Definition is_space (c : ascii) : bool :=
  let n := nat_of_ascii c in
  ((Nat.leb 9 n && Nat.leb n 13) || (Nat.leb 28 n && Nat.leb n 32))%bool.

Fixpoint lstrip (s : string) : string :=
  match s with
  | EmptyString => EmptyString
  | String c t => if is_space c then lstrip t else s
  end.

Fixpoint rstrip (s : string) : string :=
  match s with
  | EmptyString => EmptyString
  | String c t =>
      match rstrip t with
      | EmptyString => if is_space c then EmptyString else String c EmptyString
      | r => String c r
      end
  end.

Definition strip (s : string) : string := rstrip (lstrip s).

(** [template.format(subtype=value)], for a template whose only
    replacement field is [{subtype}]; any other brace makes [format]
    raise. *)
Definition format_subtype (template value : string) : option string :=
  let rest := replace "{subtype}" EmptyString template in
  if (PyStr.contains "{" rest || PyStr.contains "}" rest)%bool
  then None
  else Some (replace "{subtype}" value template).

End Text.

(** ** [DataSourceDialog] *)

Module Dialog.
Import Py.

(** The state of the widgets that [get_urls] and [validate_and_accept]
    read. The check boxes are keyed by theme and by subtype. *)
Record DataSourceDialog : Type := mkDialog {
  custom_radio : bool;
  overture_radio : bool;
  sourcecoop_radio : bool;
  other_radio : bool;
  url_input : string;
  theme_checked : string -> bool;
  subtype_checked : string -> bool;
  sourcecoop_combo : string;
  other_combo : string
}.

(** [PRESET_DATASETS[source]], and the fields of the catalogue that the
    workers do not read. *)
Definition source (name : string) : list (string * ValidationWorker.Preset) :=
  match find (fun s => String.eqb (fst s) name) Plugin.PRESET_DATASETS with
  | Some s => snd s
  | None => []
  end.

Definition subtypes : list string :=
  ["infrastructure"; "land"; "land_cover"; "land_use"; "water"; "bathymetry"].

Definition display_names : list (string * string) :=
  [ ("planet_eu_boundaries", "Planet EU Field Boundaries (2022)");
    ("usda_crop", "USDA Crop Sequence Boundaries");
    ("ca_crop", "California Crop Mapping");
    ("vida_buildings", "VIDA Google/Microsoft/OSM Buildings");
    ("us_structures", "US Structures from ORNL by Wherobots");
    ("fsq_places_fused", "Foursquare Open Source Places - Fused-partitioned");
    ("nhd_flowlines", "NHD Flowlines (experimental)");
    ("foursquare_places", "Foursquare Places") ].

Definition display_name (key : string) : option string :=
  option_map snd (find (fun p => String.eqb (fst p) key) display_names).

(** The keys of [overture_checkboxes], in the order [setup_overture_page]
    inserts them: every theme but [base], then [base]. *)
Definition overture_checkboxes : list string :=
  (List.filter (fun key => negb (String.eqb key "base"))
     (map fst (source "overture")) ++ ["base"])%list.

(** The loop over the subtypes of [base]; [None] when [format] raises. *)
Fixpoint base_urls (d : DataSourceDialog) (url_template : string)
    (subtypes : list string) : option (list string) :=
  match subtypes with
  | [] => Some []
  | subtype :: rest =>
      if subtype_checked d subtype then
        match Text.format_subtype url_template subtype,
              base_urls d url_template rest with
        | Some u, Some us => Some (u :: us)
        | _, _ => None
        end
      else base_urls d url_template rest
  end.

(** The URLs appended for one theme; [None] when a key is missing or
    [format] raises. *)
Definition theme_urls (d : DataSourceDialog) (theme : string)
    : option (list string) :=
  if theme_checked d theme then
    match find (fun p => String.eqb (fst p) theme) (source "overture") with
    | None => None
    | Some (_, dataset) =>
        match ValidationWorker.url_template dataset with
        | None => None
        | Some url_template =>
            if String.eqb theme "base" then base_urls d url_template subtypes
            else
              let type_str :=
                if String.eqb theme "transportation" then "segment"
                else if String.eqb theme "divisions" then "division_area"
                else if String.eqb theme "addresses" then "*"
                else PyStr.rstrip "s" theme in
              option_map (fun u => [u]) (Text.format_subtype url_template type_str)
        end
    end
  else Some [].

Fixpoint all_urls (d : DataSourceDialog) (themes : list string)
    : option (list string) :=
  match themes with
  | [] => Some []
  | theme :: rest =>
      match theme_urls d theme, all_urls d rest with
      | Some us, Some vs => Some (us ++ vs)%list
      | _, _ => None
      end
  end.

(** The dataset of a source whose display name is the selection. *)
Definition selected (src selection : string) : option ValidationWorker.Preset :=
  option_map snd
    (find (fun p => match display_name (fst p) with
                    | Some n => String.eqb n selection
                    | None => false
                    end)
          (source src)).

Definition url_of (src selection : string) : option (list string) :=
  match selected src selection with
  | Some dataset =>
      match ValidationWorker.url dataset with
      | Some u => Some [u]
      | None => None
      end
  | None => Some []
  end.

(** [DataSourceDialog.get_urls] *)
Definition get_urls (d : DataSourceDialog) : option (list string) :=
  if custom_radio d then Some [Text.strip (url_input d)]
  else if overture_radio d then all_urls d overture_checkboxes
  else if sourcecoop_radio d then url_of "source_cooperative" (sourcecoop_combo d)
  else if other_radio d then url_of "other" (other_combo d)
  else Some [].

Definition has_scheme (url : string) : bool :=
  (PyStr.startswith "http://" url || PyStr.startswith "https://" url
   || PyStr.startswith "s3://" url || PyStr.startswith "file://" url
   || PyStr.startswith "hf://" url)%bool.

(** How [validate_and_accept] ends: with a warning box, or by accepting
    the dialog with [selected_urls] set. *)
Inductive verdict : Type :=
  | Warning (message : string)
  | Accepted (selected_urls : list string).

(** [DataSourceDialog.validate_and_accept] *)
Definition validate_and_accept (d : DataSourceDialog) : option verdict :=
  match get_urls d with
  | None => None
  | Some urls =>
      Some
        (match urls with
         | [] => Warning "Please select at least one dataset"
         | _ =>
             if overture_radio d then Accepted urls
             else if (custom_radio d && negb (forallb has_scheme urls))%bool
             then Warning "URL must start with http://, https://, s3://, hf://, or file://"
             else Accepted urls
         end)
  end.

End Dialog.

(** ** [QgisPluginGeoParquet] *)

Module Main.
Import Py.

(** [l[1]] and [l[0]] on the result of a split; [None] is an
    [IndexError]. *)
Definition item (n : nat) (l : list string) : option string := nth_error l n.

(** The file name [run] proposes for one URL of the selection. *)
Definition filename (d : Dialog.DataSourceDialog) (url current_date : string)
    : option string :=
  if Dialog.overture_radio d then
    match item 1 (Text.split "theme=" url) with
    | None => None
    | Some after_theme =>
        let theme := PyStr.first_item (Text.split "/" after_theme) in
        if PyStr.contains "type=" url then
          match item 1 (Text.split "type=" url) with
          | None => None
          | Some after_type =>
              let type_str := PyStr.first_item (Text.split "/" after_type) in
              if String.eqb theme "base"
              then Some ("overture_base_" +:+ type_str +:+ "_" +:+ current_date
                           +:+ ".parquet")
              else Some ("overture_" +:+ theme +:+ "_" +:+ current_date
                           +:+ ".parquet")
          end
        else Some ("overture_" +:+ theme +:+ "_" +:+ current_date +:+ ".parquet")
    end
  else if Dialog.sourcecoop_radio d then
    let dataset_name := Dialog.sourcecoop_combo d in
    let clean_name :=
      Text.replace ")" EmptyString
        (Text.replace "(" EmptyString
           (Text.replace "/" "_"
              (Text.replace " " "_" (PyStr.lower dataset_name)))) in
    Some ("sourcecoop_" +:+ clean_name +:+ "_" +:+ current_date +:+ ".parquet")
  else if Dialog.other_radio d then
    let dataset_name := Dialog.other_combo d in
    let clean_name :=
      Text.replace "/" "_" (Text.replace " " "_" (PyStr.lower dataset_name)) in
    Some ("other_" +:+ clean_name +:+ "_" +:+ current_date +:+ ".parquet")
  else Some ("custom_download_" +:+ current_date +:+ ".parquet").

(** How the loop of [run] over the selected URLs ends. *)
Inductive collected : Type :=
  | IndexError
  | Aborted
  | Queue (download_queue : list (string * string)).

(** The loop of [run] that asks for one destination per URL.
    [save_dialog url filename] is what the user answers to the save
    dialog proposed for [url]; the empty string is a cancelled dialog.
    [clock n] is the time stamp taken for the [n]-th URL. *)
Fixpoint collect (d : Dialog.DataSourceDialog)
    (save_dialog : string -> string -> string) (clock : nat -> string)
    (n : nat) (urls : list string) (download_queue : list (string * string))
    : collected :=
  match urls with
  | [] => Queue download_queue
  | url :: rest =>
      match filename d url (clock n) with
      | None => IndexError
      | Some name =>
          let output_file := save_dialog url name in
          if PyStr.truthy output_file
          then collect d save_dialog clock (S n) rest
                 (download_queue ++ [(url, output_file)])%list
          else Aborted
      end
  end.

(** The name in a proposed file name: the theme, or [base_] and the
    subtype. *)
Definition labels : list string :=
  (List.filter (fun key => negb (String.eqb key "base")) Dialog.overture_checkboxes
   ++ map (fun subtype => "base_" +:+ subtype) Dialog.subtypes)%list.

(** The validation result [process_download_queue] gives every worker. *)
Definition queue_results : gmap string pyval :=
  {[ "has_bbox" := PyBool true; "bbox_column" := PyStr "bbox" ]}.

Definition queue_worker (url : string) (extent : Extent) (output_file : string)
    : Plugin.Worker :=
  Plugin.mkWorker url extent output_file queue_results.

(** [process_download_queue] with the slot [handle_download_complete]
    that it connects to [finished]: the worker of the first entry runs,
    and its completion signal starts the rest of the queue. The result is
    the trace of every worker that was started; [world n] is the
    environment of the [n]-th download. *)
Fixpoint process_download_queue (world : nat -> Env) (n : nat)
    (download_queue : list (string * string)) (extent : Extent)
    : list (list event) :=
  match download_queue with
  | [] => []
  | (url, output_file) :: remaining_queue =>
      let worker := queue_worker url extent output_file in
      let t := run_trace (Plugin.run (world n) worker) in
      t :: (if Obs.some Obs.is_finished t
            then process_download_queue world (S n) remaining_queue extent
            else [])
  end.

End Main.
(** * Properties *)

(** ** Strings *)

Section StringFacts.

Lemma append_assoc (a b c : string) : (a +:+ b) +:+ c = a +:+ (b +:+ c).
Proof. induction a as [|x a IH]; simpl; [reflexivity | f_equal; exact IH]. Qed.

Lemma lower_append (a b : string) :
  PyStr.lower (a +:+ b) = PyStr.lower a +:+ PyStr.lower b.
Proof. induction a as [|x a IH]; simpl; [reflexivity | f_equal; exact IH]. Qed.

Lemma endswith_refl (s : string) : PyStr.endswith s s = true.
Proof.
  destruct s as [|c s]; [reflexivity|].
  change (PyStr.endswith (String c s) (String c s))
    with (String.eqb (String c s) (String c s)
          || PyStr.endswith (String c s) s)%bool.
  now rewrite String.eqb_refl.
Qed.

Lemma endswith_append (p suf : string) : PyStr.endswith suf (p +:+ suf) = true.
Proof.
  induction p as [|x p IH]; simpl.
  - apply endswith_refl.
  - rewrite IH. apply orb_true_r.
Qed.

Lemma endswith_inv (suf s : string) :
  PyStr.endswith suf s = true -> exists p, s = p +:+ suf.
Proof.
  induction s as [|x s IH]; intros H.
  - destruct suf; [now exists EmptyString | discriminate].
  - change (String.eqb (String x s) suf || PyStr.endswith suf s = true)%bool in H.
    apply orb_true_iff in H as [H|H].
    + apply String.eqb_eq in H. exists EmptyString. now subst.
    + destruct (IH H) as [p ->]. now exists (String x p).
Qed.

Lemma endswith_lower (suf s : string) :
  PyStr.endswith suf s = true ->
  PyStr.endswith (PyStr.lower suf) (PyStr.lower s) = true.
Proof.
  intros H. destruct (endswith_inv _ _ H) as [p ->].
  rewrite lower_append. apply endswith_append.
Qed.

Lemma split_not_nil (sep : ascii) (s : string) : PyStr.split sep s <> [].
Proof.
  destruct s as [|c s]; simpl; [discriminate|].
  destruct (Ascii.eqb c sep); [discriminate|].
  destruct (PyStr.split sep s); discriminate.
Qed.

Lemma split_append (sep : ascii) (p w : string) :
  PyStr.split sep (p +:+ String sep w)
  = (PyStr.split sep p ++ PyStr.split sep w)%list.
Proof.
  induction p as [|c p IH]; simpl.
  - now rewrite Ascii.eqb_refl.
  - destruct (Ascii.eqb c sep); [now rewrite IH|].
    rewrite IH. destruct (PyStr.split sep p) as [|h r] eqn:E; [|reflexivity].
    now apply split_not_nil in E.
Qed.

Lemma last_item_app (l l' : list string) :
  l' <> [] -> PyStr.last_item (l ++ l')%list = PyStr.last_item l'.
Proof.
  intros Hne. unfold PyStr.last_item.
  induction l as [|x l IH]; simpl; [reflexivity|].
  destruct (l ++ l')%list eqn:E; [|exact IH].
  apply app_eq_nil in E as [_ E]. contradiction.
Qed.

(** A path that ends in [.ext] has the extension [ext], when [ext] has no
    dot of its own. *)
Lemma last_item_of_suffix (ext s : string) :
  PyStr.split "." ext = [ext] ->
  PyStr.endswith (String "." ext) s = true ->
  PyStr.last_item (PyStr.split "." s) = ext.
Proof.
  intros Hext H. destruct (endswith_inv _ _ H) as [p ->].
  rewrite split_append, last_item_app, Hext; [reflexivity|].
  apply split_not_nil.
Qed.

Lemma extension_of_suffix (ext s : string) :
  PyStr.split "." ext = [ext] ->
  PyStr.lower ext = ext ->
  PyStr.endswith (String "." ext) s = true ->
  Obs.file_extension s = ext.
Proof.
  intros Hext Hlow H. unfold Obs.file_extension.
  apply last_item_of_suffix; [exact Hext|].
  apply endswith_lower in H. simpl in H. now rewrite Hlow in H.
Qed.

End StringFacts.
(** ** Rules of the weakest-precondition calculus *)

Module WpRules.
Import Py Wp.

Lemma wp_mono {R A} (c : M R A) (P P' : state -> outcome R A -> Prop) (s : state) :
  (forall s' o, P s' o -> P' s' o) -> wp c P s -> wp c P' s.
Proof. unfold wp. auto. Qed.

Section Rules.
Context {R A : Type}.
Variables (env : Env) (s : state) (Post : state -> outcome R A -> Prop).

Lemma wp_bind {C} (c : M R C) (k : C -> M R A) :
  wp c (after k Post) s -> wp (bind c k) Post s.
Proof.
  unfold wp, after, bind. destruct (c s) as [s1 [a|r|e]]; simpl; auto.
Qed.

Lemma wp_ret (a : A) : Post s (Normal a) -> wp (ret a) Post s.
Proof. auto. Qed.

Lemma wp_return (r : R) : Post s (Returned r) -> wp (return_ r) Post s.
Proof. auto. Qed.

Lemma wp_raise (e : exn) : Post s (Raised e) -> wp (raise e) Post s.
Proof. auto. Qed.

Lemma wp_lift (a : answer A) :
  (forall v, a = Ok v -> Post s (Normal v)) ->
  (forall e, a = Fails e -> Post s (Raised e)) ->
  wp (lift a) Post s.
Proof. destruct a; unfold wp; simpl; auto. Qed.

Lemma wp_try_except (body : M R A) (h : exn -> M R A) :
  wp body (fun s1 o => match o with
                       | Raised e => wp (h e) Post s1
                       | _ => Post s1 o
                       end) s ->
  wp (try_except body h) Post s.
Proof.
  unfold wp, try_except. destruct (body s) as [s1 [a|r|e]]; simpl; auto.
Qed.

Lemma wp_try_finally (body : M R A) (fin : M R unit) :
  wp body (fun s1 o =>
             wp fin (fun s2 o2 => match o2 with
                                  | Normal _ => Post s2 o
                                  | Returned r => Post s2 (Returned r)
                                  | Raised e => Post s2 (Raised e)
                                  end) s1) s ->
  wp (try_finally body fin) Post s.
Proof.
  unfold wp, try_finally. destruct (body s) as [s1 o]; simpl.
  destruct (fin s1) as [s2 [a|r|e]]; simpl; auto.
Qed.

Lemma wp_describe (q : string) (QL : state -> outcome R (list (string * string)) -> Prop) :
  (forall v, eng_describe env q = Ok v -> QL (push (Execute q) s) (Normal v)) ->
  (forall e, eng_describe env q = Fails e -> QL (push (Execute q) s) (Raised e)) ->
  wp (describe env q) QL s.
Proof. unfold wp, describe, bind, emit, lift. destruct (eng_describe env q); simpl; auto. Qed.

Lemma wp_count (q : string) (QZ : state -> outcome R Z -> Prop) :
  (forall v, eng_count env q = Ok v -> QZ (push (Execute q) s) (Normal v)) ->
  (forall e, eng_count env q = Fails e -> QZ (push (Execute q) s) (Raised e)) ->
  wp (count env q) QZ s.
Proof. unfold wp, count, bind, emit, lift. destruct (eng_count env q); simpl; auto. Qed.

Lemma wp_average (q : string) (QA : state -> outcome R (option PyFloat.float) -> Prop) :
  (forall v, eng_avg env q = Ok v -> QA (push (Execute q) s) (Normal v)) ->
  (forall e, eng_avg env q = Fails e -> QA (push (Execute q) s) (Raised e)) ->
  wp (average env q) QA s.
Proof. unfold wp, average, bind, emit, lift. destruct (eng_avg env q); simpl; auto. Qed.

Lemma wp_kv_metadata (q : string) (QK : state -> outcome R (list kv_row) -> Prop) :
  (forall v, eng_kv_metadata env q = Ok v -> QK (push (Execute q) s) (Normal v)) ->
  (forall e, eng_kv_metadata env q = Fails e -> QK (push (Execute q) s) (Raised e)) ->
  wp (kv_metadata env q) QK s.
Proof. unfold wp, kv_metadata, bind, emit, lift. destruct (eng_kv_metadata env q); simpl; auto. Qed.

Lemma wp_json_path (q doc : string)
    (QJ : state -> outcome R (option (option string)) -> Prop) :
  (forall v, eng_json_path env doc = Ok v -> QJ (push (Execute q) s) (Normal v)) ->
  (forall e, eng_json_path env doc = Fails e -> QJ (push (Execute q) s) (Raised e)) ->
  wp (json_path env q doc) QJ s.
Proof. unfold wp, json_path, bind, emit, lift. destruct (eng_json_path env doc); simpl; auto. Qed.

Lemma wp_read_killed (QB : state -> outcome R bool -> Prop) :
  QB (tick s) (Normal (killed_by env s)) -> wp (read_killed env) QB s.
Proof. auto. Qed.

Lemma wp_get_table_name (QS : state -> outcome R string -> Prop) :
  match table_name s with
  | Some t => QS s (Normal t)
  | None => QS s (Raised (unbound_local "table_name"))
  end ->
  wp get_table_name QS s.
Proof. unfold wp, get_table_name. destruct (table_name s); auto. Qed.

Lemma wp_call (c : M A A) (QC : state -> outcome R A -> Prop) :
  wp c (fun s1 o => match o with
                    | Normal r => QC s1 (Normal r)
                    | Returned r => QC s1 (Normal r)
                    | Raised e => QC s1 (Raised e)
                    end) s ->
  wp (call c) QC s.
Proof. unfold wp, call. destruct (c s) as [s1 [a|r|e]]; simpl; auto. Qed.

End Rules.

Section UnitRules.
Context {R : Type}.
Variables (env : Env) (s : state) (Post : state -> outcome R unit -> Prop).

Lemma wp_emit (e : event) : Post (push e s) (Normal tt) -> wp (emit e) Post s.
Proof. auto. Qed.

Lemma wp_check (o : option exn) :
  (o = None -> Post s (Normal tt)) ->
  (forall e, o = Some e -> Post s (Raised e)) ->
  wp (check o) Post s.
Proof. destruct o; unfold wp; simpl; auto. Qed.

Lemma wp_execute (q : string) :
  (eng_execute env q = None -> Post (push (Execute q) s) (Normal tt)) ->
  (forall e, eng_execute env q = Some e -> Post (push (Execute q) s) (Raised e)) ->
  wp (execute env q) Post s.
Proof. unfold wp, execute, bind, emit, check. destruct (eng_execute env q); simpl; auto. Qed.

Lemma wp_connect (db : option string) :
  (eng_connect env db = None -> Post (bound (push (Connect db) s)) (Normal tt)) ->
  (forall e, eng_connect env db = Some e -> Post (push (Connect db) s) (Raised e)) ->
  wp (connect env db) Post s.
Proof. unfold wp, connect. destruct (eng_connect env db); simpl; auto. Qed.

Lemma wp_commit :
  (eng_commit env = None -> Post (push Commit s) (Normal tt)) ->
  (forall e, eng_commit env = Some e -> Post (push Commit s) (Raised e)) ->
  wp (commit env) Post s.
Proof. unfold wp, commit, bind, emit, check. destruct (eng_commit env); simpl; auto. Qed.

Lemma wp_close :
  (if conn s
   then (eng_close env = None -> Post (push Close s) (Normal tt))
        /\ (forall e, eng_close env = Some e -> Post (push Close s) (Raised e))
   else Post s (Raised (unbound_local "conn"))) ->
  wp (close env) Post s.
Proof.
  unfold wp, close, bind, emit, check, push. destruct s as [t c tn [|]]; simpl.
  - intros [H1 H2]. destruct (eng_close env); simpl; auto.
  - auto.
Qed.

Lemma wp_set_table_name (t : string) :
  Post (named t s) (Normal tt) -> wp (set_table_name t) Post s.
Proof. auto. Qed.

End UnitRules.

End WpRules.


Ltac wp_reduce :=
  cbv beta iota zeta
      delta [negb andb orb Z.eqb Wp.after Py.initial
             Wp.push Wp.tick Wp.bound Wp.named];
  cbn [Py.trace Py.clock Py.table_name Py.conn].

(** One statement. Answers of the environment are case-split as they are
    reached; [wp] stays folded so that only the head of the goal moves. *)
Ltac wp_step :=
  lazymatch goal with
  | |- Wp.wp (Py.bind _ _) _ _ => apply WpRules.wp_bind
  | |- Wp.wp (Py.emit _) _ _ => apply WpRules.wp_emit
  | |- Wp.wp (Py.ret _) _ _ => apply WpRules.wp_ret
  | |- Wp.wp (Py.return_ _) _ _ => apply WpRules.wp_return
  | |- Wp.wp (Py.raise _) _ _ => apply WpRules.wp_raise
  | |- Wp.wp (Py.lift _) _ _ => apply WpRules.wp_lift; intros ? ?
  | |- Wp.wp (Py.check _) _ _ => apply WpRules.wp_check; [intros ? | intros ? ?]
  | |- Wp.wp (Py.execute _ _) _ _ => apply WpRules.wp_execute; [intros ? | intros ? ?]
  | |- Wp.wp (Py.connect _ _) _ _ => apply WpRules.wp_connect; [intros ? | intros ? ?]
  | |- Wp.wp (Py.describe _ _) _ _ => apply WpRules.wp_describe; intros ? ?
  | |- Wp.wp (Py.count _ _) _ _ => apply WpRules.wp_count; intros ? ?
  | |- Wp.wp (Py.average _ _) _ _ => apply WpRules.wp_average; intros ? ?
  | |- Wp.wp (Py.kv_metadata _ _) _ _ => apply WpRules.wp_kv_metadata; intros ? ?
  | |- Wp.wp (Py.json_path _ _ _) _ _ => apply WpRules.wp_json_path; intros ? ?
  | |- Wp.wp (Py.commit _) _ _ => apply WpRules.wp_commit; [intros ? | intros ? ?]
  | |- Wp.wp (Py.close _) _ _ => apply WpRules.wp_close
  | |- Wp.wp (Py.read_killed _) _ _ => apply WpRules.wp_read_killed
  | |- Wp.wp (Py.set_table_name _) _ _ => apply WpRules.wp_set_table_name
  | |- Wp.wp Py.get_table_name _ _ => apply WpRules.wp_get_table_name
  | |- Wp.wp (Py.call _) _ _ => apply WpRules.wp_call
  | |- Wp.wp (Py.try_except _ _) _ _ => apply WpRules.wp_try_except
  | |- Wp.wp (Py.try_finally _ _) _ _ => apply WpRules.wp_try_finally
  | |- Wp.wp (if ?b then _ else _) _ _ => destruct b eqn:?
  | |- Wp.wp (match ?x with _ => _ end) _ _ => destruct x eqn:?
  | |- (_ -> _) /\ (forall _, _ -> _) => split; [intros ? | intros ? ?]
  | |- if ?b then _ else _ => destruct b eqn:?
  | |- match ?x with _ => _ end => destruct x eqn:?
  end; wp_reduce.

(** Running a method to its ends; [tac] tidies the goal after each
    statement. *)
Ltac wp_run_with tac := repeat (wp_step; tac; wp_reduce).

Ltac wp_run := wp_run_with idtac.

(** Two answers to the same call: they agree, or the path is impossible. *)
Ltac same_answer :=
  match goal with
  | H1 : ?x = _, H2 : ?x = _ |- _ =>
      rewrite H1 in H2;
      first [ discriminate H2
            | injection H2 as H2; first [subst | idtac]
            | clear H2 ]
  end.

Ltac prune :=
  try discriminate; try solve [repeat same_answer]; repeat same_answer.

(** Running under assumptions on the answers: impossible paths are closed
    as soon as they split off. *)
Ltac wp_run_given := wp_run_with prune.

(** Lookups in a dictionary built from literal keys. *)
Ltac lookups :=
  repeat match goal with
         | |- context [Py.truthy (?m !! ?k)] =>
             let v := eval vm_compute in (Py.truthy (m !! k)) in
             change (Py.truthy (m !! k)) with v
         end.

Import Py.

(** ** The export dispatcher *)

Lemma not_suffix_of_extension (ext s : string) :
  PyStr.split "." ext = [ext] ->
  PyStr.lower ext = ext ->
  String.eqb (Obs.file_extension s) ext = false ->
  PyStr.endswith (String "." ext) s = false
  /\ PyStr.endswith (String "." ext) (PyStr.lower s) = false.
Proof.
  intros Hext Hlow Hne. split.
  - destruct (PyStr.endswith (String "." ext) s) eqn:E; [|reflexivity].
    rewrite (extension_of_suffix ext s Hext Hlow E), String.eqb_refl in Hne.
    discriminate.
  - destruct (PyStr.endswith (String "." ext) (PyStr.lower s)) eqn:E; [|reflexivity].
    unfold Obs.file_extension in Hne.
    rewrite (last_item_of_suffix ext _ Hext E), String.eqb_refl in Hne.
    discriminate.
Qed.

Lemma unsupported_facts (out : string) :
  Obs.supported (Obs.file_extension out) = false -> Spec.unsupported_path out.
Proof.
  unfold Obs.supported, Obs.supported_formats. cbn [existsb].
  intros H.
  repeat (apply orb_false_iff in H as [? H]).
  split; try assumption;
    match goal with
    | |- PyStr.endswith (String "." ?e) (PyStr.lower _) = false =>
        apply (not_suffix_of_extension e); [reflexivity | reflexivity | assumption]
    | |- PyStr.endswith (String "." ?e) _ = false =>
        apply (not_suffix_of_extension e); [reflexivity | reflexivity | assumption]
    end.
Qed.

(** A premise about the trace that the computed trace contradicts. *)
Ltac refute_premise :=
  match goal with
  | |- ?a = true -> _ =>
      let H := fresh in
      assert (H : a = false) by reflexivity; rewrite H; discriminate
  end.

Ltac absurd_message :=
  match goal with
  | H : PyStr.contains _ (str_exn (unbound_local _)) = true |- _ =>
      vm_compute in H; discriminate H
  end.

Ltac rejects_leaf :=
  first
    [ absurd_message
    | split;
      [ reflexivity
      | first [ refute_premise | intros _; repeat split; reflexivity ] ] ].

Lemma utils_rejects (env : Env) (w : Utils.Worker) :
  Obs.supported (Obs.file_extension (Utils.output_file w)) = false ->
  Spec.rejects_format (run_trace (Utils.run env w)).
Proof.
  intros H. apply unsupported_facts in H. destruct H.
  unfold Obs.file_extension in *.
  change (Wp.wp (Utils.run env w)
            (fun s _ => Spec.rejects_format (trace s)) initial).
  unfold Utils.run, Utils.run_cleanup, Utils.run_body.
  unfold Sql.transform_bbox_to_4326.
  rewrite up_duckdb_l, up_geojson_l, up_gpkg, up_fgb, up_geojson, up_duckdb,
    up_parquet.
  wp_run; rejects_leaf.
Qed.

Lemma plugin_rejects (env : Env) (w : Plugin.Worker) :
  Obs.supported (Obs.file_extension (Plugin.output_file w)) = false ->
  Spec.rejects_format (run_trace (Plugin.run env w)).
Proof.
  intros H. apply unsupported_facts in H. destruct H.
  unfold Obs.file_extension in *.
  change (Wp.wp (Plugin.run env w)
            (fun s _ => Spec.rejects_format (trace s)) initial).
  unfold Plugin.run, Plugin.run_cleanup, Plugin.run_body, Plugin.run_handler.
  unfold Sql.transform_bbox_to_4326.
  rewrite up_duckdb_l, up_gpkg, up_fgb, up_duckdb, up_parquet.
  wp_run; rejects_leaf.
Qed.

(** C4: for every destination whose extension is none of duckdb, parquet,
    gpkg, fgb, geojson, both dispatchers write nothing (no COPY, no
    commit) on any path, and once the dispatcher is entered they report
    "Unsupported file format." and end the download without loading a
    layer or signalling completion. *)
Theorem unsupported_format_is_rejected
    (env : Env) (wu : Utils.Worker) (wp : Plugin.Worker) :
  Obs.supported (Obs.file_extension (Utils.output_file wu)) = false ->
  Obs.supported (Obs.file_extension (Plugin.output_file wp)) = false ->
  Spec.rejects_format (run_trace (Utils.run env wu))
  /\ Spec.rejects_format (run_trace (Plugin.run env wp)).
Proof.
  intros Hu Hp. split; [now apply utils_rejects | now apply plugin_rejects].
Qed.

Lemma unsupported_format_is_rejected_witness :
  let env := Sample.engine Sample.plain_schema [] None 5 None None in
  let wu := Sample.utils_worker Sample.custom_url "out.xyz" in
  let wp := Sample.plugin_worker Sample.custom_url "out.xyz" in
  Obs.supported (Obs.file_extension "out.xyz") = false
  /\ Obs.some (Obs.is_progress_msg Obs.dispatching)
       (run_trace (Utils.run env wu)) = true
  /\ Obs.some (Obs.is_progress_msg Obs.dispatching)
       (run_trace (Plugin.run env wp)) = true
  /\ Spec.rejects_format (run_trace (Utils.run env wu))
  /\ Spec.rejects_format (run_trace (Plugin.run env wp)).
Proof.
  intros env wu wp.
  split; [reflexivity|]. split; [reflexivity|]. split; [reflexivity|].
  apply (unsupported_format_is_rejected env wu wp); reflexivity.
Defined.

(** ** The empty result *)

(** In the plugin module an empty result is an information signal followed
    by the completion signal; nothing is written. *)
Lemma plugin_empty_result_is_info (env : Env) (w : Plugin.Worker) :
  eng_count env (Sql.count_query "download_data") = Ok 0 ->
  let t := run_trace (Plugin.run env w) in
  Obs.none Obs.writes_file t = true
  /\ (Obs.some (Obs.is_execute (Sql.count_query "download_data")) t = true ->
      Obs.some (Obs.is_info_msg Plugin.no_data) t = true
      /\ Obs.some Obs.is_finished t = true).
Proof.
  intros Hc.
  change (Wp.wp (Plugin.run env w)
            (fun s _ =>
               Obs.none Obs.writes_file (trace s) = true
               /\ (Obs.some (Obs.is_execute (Sql.count_query "download_data"))
                     (trace s) = true ->
                   Obs.some (Obs.is_info_msg Plugin.no_data) (trace s) = true
                   /\ Obs.some Obs.is_finished (trace s) = true))
            initial).
  unfold Plugin.run, Plugin.run_cleanup, Plugin.run_body, Plugin.run_handler.
  unfold Sql.transform_bbox_to_4326.
  wp_run_given.
  all: (split; [reflexivity
            | first [ refute_premise | intros _; repeat split; reflexivity ]]).
Qed.

(** In [utils.py] the same situation goes out on the error signal. *)
Lemma utils_empty_result_is_error (env : Env) (w : Utils.Worker) :
  eng_count env (Sql.count_query "download_data") = Ok 0 ->
  let t := run_trace (Utils.run env w) in
  Obs.none Obs.writes_file t = true
  /\ Obs.none Obs.is_info t = true
  /\ (Obs.some (Obs.is_execute (Sql.count_query "download_data")) t = true ->
      Obs.some (Obs.is_error_msg Utils.no_data) t = true).
Proof.
  intros Hc.
  change (Wp.wp (Utils.run env w)
            (fun s _ =>
               Obs.none Obs.writes_file (trace s) = true
               /\ Obs.none Obs.is_info (trace s) = true
               /\ (Obs.some (Obs.is_execute (Sql.count_query "download_data"))
                     (trace s) = true ->
                   Obs.some (Obs.is_error_msg Utils.no_data) (trace s) = true))
            initial).
  unfold Utils.run, Utils.run_cleanup, Utils.run_body.
  unfold Sql.transform_bbox_to_4326.
  wp_run_given.
  all: (split; [reflexivity | split; [reflexivity |
       first [ refute_premise | intros _; reflexivity ]]]).
Qed.

(** C1, at the failing input: a download from the places dataset into
    [out.gpkg] whose result table is empty. [utils.py] reports it on the
    error signal and emits no information signal. *)
Theorem utils_empty_result_emits_error :
  let env := Sample.engine Sample.places_schema [] None 0 None None in
  let t := run_trace (Utils.run env
                        (Sample.utils_worker Sample.overture_places "out.gpkg")) in
  Obs.some (Obs.is_error_msg Utils.no_data) t = true
  /\ Obs.none Obs.is_info t = true
  /\ Obs.none Obs.is_finished t = true
  /\ Obs.none Obs.writes_file t = true.
Proof. vm_compute. repeat split; reflexivity. Qed.

(** ** Cancellation *)

(** C9, at the failing input: a worker killed before it starts, whose
    result table is empty. The flag is set when the row count is checked,
    yet [utils.py] emits the error signal and the plugin module the
    information signal (and the completion signal); both still run their
    cleanup. *)
Theorem killed_worker_still_reports_empty_result :
  let env := Sample.engine Sample.places_schema [] None 0 None (Some 0%nat) in
  let tu := run_trace (Utils.run env
                         (Sample.utils_worker Sample.overture_places "out.gpkg")) in
  let tp := run_trace (Plugin.run env
                         (Sample.plugin_worker Sample.overture_places "out.gpkg")) in
  Wp.killed_by env initial = true
  /\ Obs.some (Obs.is_error_msg Utils.no_data) tu = true
  /\ Obs.some (Obs.is_info_msg Plugin.no_data) tp = true
  /\ Obs.some Obs.is_finished tp = true
  /\ Obs.some Obs.is_close tu = true
  /\ Obs.some Obs.is_close tp = true.
Proof. vm_compute. repeat split; reflexivity. Qed.

(** The same worker on a destination it cannot write: the report of the
    unsupported format is not guarded by the flag either. *)
Lemma killed_worker_still_reports_unsupported_format :
  let env := Sample.engine Sample.places_schema [] None 5 None (Some 0%nat) in
  let tu := run_trace (Utils.run env
                         (Sample.utils_worker Sample.overture_places "out.xyz")) in
  let tp := run_trace (Plugin.run env
                         (Sample.plugin_worker Sample.overture_places "out.xyz")) in
  Obs.some (Obs.is_error_msg "Unsupported file format.") tu = true
  /\ Obs.some (Obs.is_error_msg "Unsupported file format.") tp = true.
Proof. vm_compute. split; reflexivity. Qed.

(** Where the guard is present it works: a killed worker whose engine
    fails emits nothing from the exception handler. *)
Lemma killed_worker_silent_on_exception :
  let env :=
    {| host_destination_crs := Ok "EPSG:4326";
       host_transform_bbox := fun _ e => Ok e;
       float_str := Sample.show_float;
       bytes_decode := fun b => Ok b;
       eng_connect := fun _ => None;
       eng_execute := fun _ => None;
       eng_describe := fun _ => Fails (PyExc "IOException" "HTTP 403");
       eng_count := fun _ => Ok 5;
       eng_avg := fun _ => Ok None;
       eng_kv_metadata := fun _ => Ok [];
       eng_json_path := fun _ => Ok None;
       eng_commit := None;
       eng_close := None;
       kill_at := Some 0%nat |} in
  Obs.none Obs.is_error_or_info
    (run_trace (Utils.run env
                  (Sample.utils_worker Sample.overture_places "out.gpkg"))) = true
  /\ Obs.none Obs.is_error_or_info
       (run_trace (Plugin.run env
                     (Sample.plugin_worker Sample.overture_places "out.gpkg"))) = true.
Proof. vm_compute. split; reflexivity. Qed.

(** ** The query builder *)

Lemma append_length (a b : string) :
  String.length (a +:+ b) = (String.length a + String.length b)%nat.
Proof. induction a as [|x a IH]; simpl; [reflexivity | now rewrite IH]. Qed.

Lemma append_cancel_l (a b c : string) : a +:+ b = a +:+ c -> b = c.
Proof. induction a as [|x a IH]; simpl; intros H; [exact H | injection H; auto]. Qed.

Lemma truthy_nonempty (c : string) : c <> EmptyString -> PyStr.truthy c = true.
Proof. destruct c; [congruence | reflexivity]. Qed.

(** C2: with a detected bbox column [c] the WHERE clause is the text of the
    range filter "c.xmin between the extent's min and max X and c.ymin
    between its min and max Y", which reads the two minima only; without
    one it is the text of an intersection test against the closed
    five-point ring of the extent's corners. *)
Theorem where_clause_is_range_or_intersection
    (env : Env) (ind : nat) (bbox_column : option pyval) (bbox : Extent) :
  (forall c, bbox_column = Some (PyStr c) -> c <> EmptyString ->
     Sql.where_clause env ind bbox_column bbox
     = Spec.where_text env ind (Spec.range_filter c bbox)
     /\ Spec.fields (Spec.range_filter c bbox) = ["xmin"; "ymin"])
  /\ (truthy bbox_column = false ->
      Sql.where_clause env ind bbox_column bbox
      = Spec.where_text env ind (Spec.Intersects (Spec.ring_of bbox))
      /\ List.length (Spec.ring_of bbox) = 5%nat
      /\ List.hd_error (Spec.ring_of bbox)
         = Some (List.last (Spec.ring_of bbox) (0, 0)%Q)).
Proof.
  split.
  - intros c -> Hc. split; [|reflexivity].
    unfold Sql.where_clause, Spec.where_text, Spec.range_filter.
    cbn [truthy format Spec.render]. rewrite (truthy_nonempty c Hc).
    rewrite !append_assoc. reflexivity.
  - intros Hf. split; [|split; reflexivity].
    unfold Sql.where_clause, Spec.where_text, Spec.ring_of.
    rewrite Hf. cbn [Spec.render map fst snd PyStr.join String.concat].
    rewrite !append_assoc. reflexivity.
Qed.

(** The range filter never looks at the maxima of a row's box. *)
Lemma range_filter_reads_minima (touches : list (Q * Q) -> bool)
    (c : string) (e : Extent) (b b' : Spec.Box) :
  Spec.box_xmin b = Spec.box_xmin b' ->
  Spec.box_ymin b = Spec.box_ymin b' ->
  Spec.accepts touches (Spec.range_filter c e) b
  = Spec.accepts touches (Spec.range_filter c e) b'.
Proof. intros Hx Hy. simpl. unfold Spec.field_of. simpl. now rewrite Hx, Hy. Qed.

Lemma range_filter_accepts (touches : list (Q * Q) -> bool)
    (c : string) (e : Extent) (b : Spec.Box) :
  Spec.accepts touches (Spec.range_filter c e) b = true
  <-> (xMinimum e <= Spec.box_xmin b <= xMaximum e
       /\ yMinimum e <= Spec.box_ymin b <= yMaximum e)%Q.
Proof.
  simpl. unfold Spec.field_of. simpl.
  rewrite !andb_true_iff, !Qle_bool_iff. tauto.
Qed.

Lemma where_clause_is_range_or_intersection_witness :
  let env := Sample.engine Sample.plain_schema [] None 5 None None in
  Sql.where_clause env 16 (Some (PyStr "bbox")) Sample.square
  = PyStr.nl +:+ PyStr.spaces 16
      +:+ "WHERE " +:+ dq +:+ "bbox" +:+ dq +:+ ".xmin BETWEEN 0.0 AND 10.0"
      +:+ PyStr.nl +:+ PyStr.spaces 16
      +:+ "AND " +:+ dq +:+ "bbox" +:+ dq +:+ ".ymin BETWEEN 0.0 AND 10.0"
      +:+ PyStr.nl +:+ PyStr.spaces 16
  /\ Sql.where_clause env 16 (Some (PyStr "bbox")) Sample.square
     = Spec.where_text env 16
         (Spec.Both (Spec.Between "bbox" "xmin" (0 # 1) (10 # 1))
                    (Spec.Between "bbox" "ymin" (0 # 1) (10 # 1)))
  /\ truthy None = false
  /\ Sql.where_clause env 16 None Sample.square
     = Spec.where_text env 16
         (Spec.Intersects [ (0 # 1, 0 # 1); (10 # 1, 0 # 1); (10 # 1, 10 # 1);
                            (0 # 1, 10 # 1); (0 # 1, 0 # 1) ]%Q).
Proof.
  intros env.
  split; [reflexivity|].
  split.
  - apply (proj1 (where_clause_is_range_or_intersection
                    env 16 (Some (PyStr "bbox")) Sample.square)
             "bbox" eq_refl).
    discriminate.
  - split; [reflexivity|].
    apply (proj2 (where_clause_is_range_or_intersection
                    env 16 None Sample.square) eq_refl).
Defined.

(** ** The SELECT list *)

Lemma select_entry_coerce (row : string * string) :
  Sql.select_entry row = Spec.coerce (Spec.classify (snd row)) (fst row).
Proof.
  unfold Sql.select_entry, Spec.classify, Spec.coerce, Spec.quoted.
  destruct (PyStr.contains "STRUCT" (PyStr.upper (snd row))
            || PyStr.contains "MAP" (PyStr.upper (snd row)))%bool;
    [reflexivity|].
  destruct (PyStr.contains "[]" (snd row)); [reflexivity|].
  destruct (String.eqb (PyStr.upper (snd row)) "UTINYINT"); reflexivity.
Qed.

Lemma with_name_not_without (columns : list string) :
  Spec.with_name columns <> Spec.without_name columns.
Proof.
  unfold Spec.with_name, Spec.without_name. intros H.
  apply append_cancel_l in H.
  apply (f_equal String.length) in H. rewrite append_length in H.
  change (String.length Sql.name_column) with 26%nat in H. lia.
Qed.

Lemma with_name_not_star (columns : list string) :
  Spec.with_name columns <> "SELECT *".
Proof. unfold Spec.with_name. intros H. vm_compute in H. discriminate H. Qed.

Lemma plugin_select_not_parquet (w : Plugin.Worker) (schema : list (string * string)) :
  PyStr.endswith ".parquet" (Plugin.output_file w) = false ->
  Plugin.select_query w schema
  = if (Spec.is_overture (Plugin.dataset_url w) && Spec.has_names schema)%bool
    then Spec.with_name (map Sql.select_entry schema)
    else Spec.without_name (map Sql.select_entry schema).
Proof. intros H. unfold Plugin.select_query. rewrite H. reflexivity. Qed.

Lemma utils_select_not_parquet (w : Utils.Worker) (schema : list (string * string)) :
  PyStr.endswith ".parquet" (Utils.output_file w) = false ->
  Utils.select_query w schema
  = if Spec.is_overture (Utils.dataset_url w)
    then Spec.with_name (Utils.process_schema_columns schema)
    else Spec.without_name (Utils.process_schema_columns schema).
Proof. intros H. unfold Utils.select_query. rewrite H. reflexivity. Qed.

(** A destination ending in [.parquet] as it is written keeps [SELECT *]
    in both modules; for any other destination the SELECT list has one entry per
    schema column, in schema order, each the column name quoted unless the
    type is structured or a map (TO_JSON), a list (array_to_string) or
    UTINYINT (CAST to INTEGER); the entries are joined after [SELECT],
    behind the synthetic name column when there is one. *)
Lemma select_list_follows_schema
    (wu : Utils.Worker) (wp : Plugin.Worker) (schema : list (string * string)) :
  (PyStr.endswith ".parquet" (Utils.output_file wu) = true ->
   Utils.select_query wu schema = "SELECT *")
  /\ (PyStr.endswith ".parquet" (Plugin.output_file wp) = true ->
      Plugin.select_query wp schema = "SELECT *")
  /\ List.length (Utils.process_schema_columns schema) = List.length schema
  /\ (forall i row, nth_error schema i = Some row ->
        nth_error (Utils.process_schema_columns schema) i
        = Some (Spec.coerce (Spec.classify (snd row)) (fst row)))
  /\ (forall name type, Spec.classify type = Spec.Plain ->
        Sql.select_entry (name, type) = dq +:+ name +:+ dq)
  /\ (PyStr.endswith ".parquet" (Utils.output_file wu) = false ->
      Utils.select_query wu schema
      = Spec.with_name (Utils.process_schema_columns schema)
      \/ Utils.select_query wu schema
         = Spec.without_name (Utils.process_schema_columns schema))
  /\ (PyStr.endswith ".parquet" (Plugin.output_file wp) = false ->
      Plugin.select_query wp schema
      = Spec.with_name (Utils.process_schema_columns schema)
      \/ Plugin.select_query wp schema
         = Spec.without_name (Utils.process_schema_columns schema)).
Proof.
  repeat split.
  - intros H. unfold Utils.select_query. now rewrite H.
  - intros H. unfold Plugin.select_query. now rewrite H.
  - unfold Utils.process_schema_columns. apply length_map.
  - intros i row H. unfold Utils.process_schema_columns.
    rewrite nth_error_map, H. simpl. now rewrite select_entry_coerce.
  - intros name type H. rewrite select_entry_coerce. simpl. now rewrite H.
  - intros H. rewrite (utils_select_not_parquet wu schema H).
    destruct (Spec.is_overture (Utils.dataset_url wu)); [now left | now right].
  - intros H. rewrite (plugin_select_not_parquet wp schema H).
    unfold Utils.process_schema_columns.
    destruct (Spec.is_overture (Plugin.dataset_url wp) && Spec.has_names schema)%bool;
      [now left | now right].
Qed.

(** The synthetic column of the Overture special case, in the plugin
    module on a destination that is not [.parquet]: present exactly when
    the URL mentions overture and a column name mentions names. *)
Lemma plugin_name_column_iff (w : Plugin.Worker) (schema : list (string * string)) :
  PyStr.endswith ".parquet" (Plugin.output_file w) = false ->
  (Plugin.select_query w schema = Spec.with_name (map Sql.select_entry schema)
   <-> (Spec.is_overture (Plugin.dataset_url w) && Spec.has_names schema)%bool = true).
Proof.
  intros H. rewrite (plugin_select_not_parquet w schema H).
  destruct (Spec.is_overture (Plugin.dataset_url w) && Spec.has_names schema)%bool.
  - tauto.
  - split; [|discriminate].
    intros E. symmetry in E. now apply with_name_not_without in E.
Qed.

(** In [utils.py], on a destination that is not [.parquet], the synthetic
    column is present exactly when the URL mentions overture, whatever
    the schema. *)
Lemma utils_name_column_iff (w : Utils.Worker) (schema : list (string * string)) :
  PyStr.endswith ".parquet" (Utils.output_file w) = false ->
  (Utils.select_query w schema
   = Spec.with_name (Utils.process_schema_columns schema)
   <-> Spec.is_overture (Utils.dataset_url w) = true).
Proof.
  intros H. rewrite (utils_select_not_parquet w schema H).
  destruct (Spec.is_overture (Utils.dataset_url w)).
  - tauto.
  - split; [|discriminate].
    intros E. symmetry in E. now apply with_name_not_without in E.
Qed.

(** C5: an Overture dataset without a [names] column. The claim says
    that no synthetic column is added; [utils.py] tests the URL only and
    selects ["names"."primary"] all the same, in the statement it sends
    to the engine, while the plugin module on the same request does not.
    The plugin module in turn looks for the word in the column names, so
    a column called [nicknames] is enough for it to add the column. *)
Theorem overture_without_names_selects_primary_name :
  let env := Sample.engine Sample.address_schema [] None 5 None None in
  let wu := Sample.utils_worker Sample.overture_addresses "addresses.gpkg" in
  let wp := Sample.plugin_worker Sample.overture_addresses "addresses.gpkg" in
  let wn := Sample.plugin_worker Sample.overture_places "places.gpkg" in
  Spec.is_overture Sample.overture_addresses = true
  /\ Spec.names_column Sample.address_schema = false
  /\ Utils.select_query wu Sample.address_schema
     = Spec.with_name (map Sql.select_entry Sample.address_schema)
  /\ Obs.some
       (Obs.is_execute
          (Sql.base_query 12 "download_data"
             (Spec.with_name (map Sql.select_entry Sample.address_schema))
             Sample.overture_addresses
             (Sql.where_clause env 16 (Some (PyStr "bbox")) Sample.square)))
       (run_trace (Utils.run env wu)) = true
  /\ Plugin.select_query wp Sample.address_schema
     = Spec.without_name (map Sql.select_entry Sample.address_schema)
  /\ Spec.names_column Sample.nickname_schema = false
  /\ Plugin.select_query wn Sample.nickname_schema
     = Spec.with_name (map Sql.select_entry Sample.nickname_schema).
Proof. vm_compute. repeat split; reflexivity. Qed.

(** C8: a destination written [out.PARQUET]. Its extension, which the
    dispatcher compares in lower case, is [parquet], and the file is
    written by the Parquet COPY; but the test that keeps [SELECT *]
    compares the path as it is written, so the SELECT list is the
    coerced one. The same request written [out.parquet] keeps
    [SELECT *]. *)
Theorem uppercase_parquet_select_is_coerced :
  let env := Sample.engine Sample.places_schema [] None 5 None None in
  let wu := Sample.utils_worker Sample.custom_url "out.PARQUET" in
  let wp := Sample.plugin_worker Sample.custom_url "out.PARQUET" in
  let coerced :=
    "SELECT " +:+ dq +:+ "id" +:+ dq +:+ ", " +:+ dq +:+ "geometry" +:+ dq
      +:+ ", TO_JSON(" +:+ dq +:+ "bbox" +:+ dq +:+ ") AS " +:+ dq +:+ "bbox" +:+ dq
      +:+ ", TO_JSON(" +:+ dq +:+ "names" +:+ dq +:+ ") AS " +:+ dq +:+ "names" +:+ dq
      +:+ ", array_to_string(" +:+ dq +:+ "websites" +:+ dq +:+ ", ', ') AS "
      +:+ dq +:+ "websites" +:+ dq
      +:+ ", CAST(" +:+ dq +:+ "level" +:+ dq +:+ " AS INTEGER) AS "
      +:+ dq +:+ "level" +:+ dq in
  Obs.file_extension "out.PARQUET" = "parquet"
  /\ Utils.select_query wu Sample.places_schema = coerced
  /\ Plugin.select_query wp Sample.places_schema = coerced
  /\ List.filter Obs.writes_file (run_trace (Utils.run env wu))
     = [ Download.copy_statement "out.PARQUET"
           "(FORMAT 'parquet', COMPRESSION 'ZSTD');" ]
  /\ List.filter Obs.writes_file (run_trace (Plugin.run env wp))
     = [ Download.copy_statement "out.PARQUET"
           "(FORMAT 'parquet', COMPRESSION 'ZSTD');" ]
  /\ Utils.select_query (Sample.utils_worker Sample.custom_url "out.parquet")
       Sample.places_schema = "SELECT *".
Proof. vm_compute. repeat split; reflexivity. Qed.
(** ** The size estimator *)

Lemma estimate_mb_rounded (N : Z) (A n k : PyFloat.float) :
  PyFloat.of_int N = Some n ->
  PyFloat.of_int (N - 1) = Some k ->
  Utils.estimate_mb N A = Ok (Spec.rounded_mb n A k).
Proof.
  intros Hn Hk.
  unfold Utils.estimate_mb, int_mul_float, float_add_int, float_div_int, to_float.
  rewrite Hn, Hk.
  change (PyFloat.of_int 50) with (Some Spec.fifty).
  change (PyFloat.of_int (1024 * 1024)) with (Some Spec.mebi).
  reflexivity.
Qed.

(** C7 as stated fails. For 101 rows and a sample of 100 features whose
    lengths sum to 10001, the engine returns the double nearest to
    100.01; the estimator multiplies and adds in doubles, and what it
    returns is neither [(101 * A + 50 + 100) / 1048576] for the number
    [A] that double stands for, nor that quotient for 100.01 itself.
    The same happens for 3 rows and the double nearest to 0.1. *)
Lemma estimate_is_exact_counterexample :
  let env :=
    Sample.engine Sample.plain_schema [] None 101
      (Some Sample.average_100_01) None in
  let mb := SpecFloat.S754_finite false 5635552345724027 (-59) in
  let env' := Sample.engine Sample.plain_schema [] None 3 (Some Sample.tenth) None in
  let mb' := SpecFloat.S754_finite false 7360570640983654 (-67) in
  (PyFloat.of_int 10001 = Some Sample.sum_10001
   /\ PyFloat.of_int 100 = Some Sample.rows_100
   /\ PyFloat.div Sample.sum_10001 Sample.rows_100 = Sample.average_100_01)
  /\ (run_outcome (call (R' := unit)
                     (Utils.estimate_file_size env "download_data"))
      = Normal mb
      /\ Spec.is_exact 101 Sample.average_100_01 mb = false
      /\ Spec.stands_for 101 (10001 # 100) mb = false)
  /\ (run_outcome (call (R' := unit)
                     (Utils.estimate_file_size env' "download_data"))
      = Normal mb'
      /\ Spec.is_exact 3 Sample.tenth mb' = false).
Proof. vm_compute. repeat split; reflexivity. Qed.

(** C7, amended: for a result of [N > 0] rows whose sample of
    [min(100, N)] rows averages a non-zero [A], the estimator returns
    [(N * A + 50 + (N - 1)) / 1048576] as double precision arithmetic
    computes it: the row count and [N - 1] converted to doubles, and the
    product, the two sums and the quotient each rounded to nearest. For
    10000 rows of 200 bytes nothing is rounded: the result stands for
    2010049 / 1048576, about 1.92, which does not exceed the warning
    threshold. *)
Theorem estimate_is_rounded_rows_times_average
    (env : Env) (table : string) (N : Z) (A n k : PyFloat.float)
    (cols : list (string * string)) :
  0 < N ->
  PyFloat.truthy A = true ->
  PyFloat.of_int N = Some n ->
  PyFloat.of_int (N - 1) = Some k ->
  eng_count env (Sql.count_query table) = Ok N ->
  eng_describe env ("DESCRIBE " +:+ table) = Ok cols ->
  eng_avg env (Utils.sample_query table (Z.min 100 N) cols) = Ok (Some A) ->
  run_outcome (call (R' := unit) (Utils.estimate_file_size env table))
  = Normal (PyFloat.div
              (PyFloat.add (PyFloat.add (PyFloat.mul n A) Spec.fifty) k)
              Spec.mebi)
  /\ PyFloat.of_int 50 = Some Spec.fifty
  /\ PyFloat.of_int 1048576 = Some Spec.mebi
  /\ (exists mb v,
        Utils.estimate_mb 10000 Sample.bytes_200 = Ok mb
        /\ PyFloat.value mb = Some v
        /\ (v == 2010049 # 1048576)%Q
        /\ (1915 # 1000 < v < 1925 # 1000)%Q
        /\ Spec.is_exact 10000 Sample.bytes_200 mb = true
        /\ PyFloat.gt_int mb Utils.size_threshold = false).
Proof.
  intros HN HA Hn Hk Hcount Hdesc Havg.
  split; [|split; [reflexivity | split; [reflexivity|]]].
  - change (Wp.wp (call (R' := unit) (Utils.estimate_file_size env table))
              (fun _ o => o = Normal (Spec.rounded_mb n A k)) initial).
    unfold Utils.estimate_file_size.
    assert (Hs : (0 <? Z.min 100 N) = true) by (apply Z.ltb_lt; lia).
    pose proof (estimate_mb_rounded N A n k Hn Hk) as Hmb.
    wp_run_given; reflexivity.
  - exists (SpecFloat.S754_finite false 8633094718357504 (-52)).
    eexists. split; [reflexivity|]. split; [reflexivity|].
    vm_compute. repeat split; reflexivity || discriminate.
Qed.

Lemma estimate_is_rounded_rows_times_average_witness :
  let env :=
    Sample.engine Sample.plain_schema [] None 10000 (Some Sample.bytes_200) None in
  run_outcome (call (R' := unit) (Utils.estimate_file_size env "download_data"))
  = Normal (SpecFloat.S754_finite false 8633094718357504 (-52)).
Proof.
  intros env.
  exact (proj1 (estimate_is_rounded_rows_times_average env "download_data" 10000
                  Sample.bytes_200
                  (SpecFloat.S754_finite false 5497558138880000 (-39))
                  (SpecFloat.S754_finite false 5497008383066112 (-39))
                  Sample.plain_schema
                  eq_refl eq_refl eq_refl eq_refl eq_refl eq_refl eq_refl)).
Defined.

(** Rounding can decide whether the warning is raised: for 11 rows
    averaging 6550690275572271 / 2^24 bytes the exact quotient exceeds
    4096, the double the estimator returns is 4096.0, and no warning is
    raised. *)
Lemma rounding_decides_the_warning :
  let A := SpecFloat.S754_finite false 6550690275572271 (-24) in
  let env := Sample.engine Sample.plain_schema [] None 11 (Some A) None in
  let t := run_trace (Utils.run env
                        (Sample.utils_worker Sample.custom_url "out.geojson")) in
  Utils.estimate_mb 11 A = Ok (SpecFloat.S754_finite false 4503599627370496 (-40))
  /\ (match PyFloat.value A with
      | Some a => negb (Qle_bool (Spec.exact_mb 11 a) (4096 # 1))
      | None => false
      end) = true
  /\ Obs.none Obs.is_size_warning t = true.
Proof. vm_compute. repeat split; reflexivity. Qed.

(** The scenario end to end: a GeoJSON export of 10000 rows averaging 200
    bytes raises no size warning and goes on to the COPY. *)
Lemma small_geojson_export_is_not_gated :
  let env :=
    Sample.engine Sample.plain_schema [] None 10000 (Some Sample.bytes_200) None in
  let t := run_trace (Utils.run env
                        (Sample.utils_worker Sample.custom_url "out.geojson")) in
  Obs.none Obs.is_size_warning t = true
  /\ Obs.some Obs.is_copy t = true
  /\ Obs.some Obs.is_finished t = true.
Proof. vm_compute. repeat split; reflexivity. Qed.

(** A large one is gated: the warning is emitted and nothing is written. *)
Lemma large_geojson_export_is_gated :
  let env :=
    Sample.engine Sample.plain_schema [] None 30000000 (Some Sample.bytes_200) None in
  let t := run_trace (Utils.run env
                        (Sample.utils_worker Sample.custom_url "out.geojson")) in
  Obs.some Obs.is_size_warning t = true
  /\ Obs.none Obs.writes_file t = true.
Proof. vm_compute. split; reflexivity. Qed.
(** ** The bbox-capability detector *)

Lemma extended_refl (s : state) : Wp.extended s s.
Proof.
  exists []. rewrite app_nil_r. repeat split; reflexivity.
Qed.

Lemma extended_trans (s1 s2 s3 : state) :
  Wp.extended s1 s2 -> Wp.extended s2 s3 -> Wp.extended s1 s3.
Proof.
  intros (l1 & E1 & Q1 & T1 & C1) (l2 & E2 & Q2 & T2 & C2).
  exists (l1 ++ l2)%list. rewrite E2, E1, <- app_assoc, forallb_app, Q1, Q2.
  repeat split; congruence.
Qed.

Lemma extended_execute (s s' : state) (q : string) :
  Wp.extended s s' -> Wp.extended s (Wp.push (Execute q) s').
Proof.
  intros H. apply (extended_trans s s'); [exact H|].
  exists [Execute q]. repeat split; reflexivity.
Qed.

Ltac extended_leaf :=
  repeat match goal with
         | |- Wp.extended ?s (mkState (?t ++ [Execute ?q])%list (S ?c) ?tn ?cn) =>
             apply (extended_execute s (mkState t c tn cn) q)
         end;
  apply extended_refl.

Lemma all_fruitless_tail (env : Env) (row : kv_row) (rest : list kv_row) :
  Spec.all_fruitless env (row :: rest) = true ->
  Spec.all_fruitless env rest = true.
Proof.
  unfold Spec.all_fruitless, Spec.all_geo. cbn [forallb]. intros H.
  now apply andb_true_iff in H as [_ H].
Qed.

Lemma all_fruitless_head (env : Env) (row : kv_row) (rest : list kv_row) :
  Spec.all_fruitless env (row :: rest) = true ->
  String.eqb (kv_key row) "geo" = true ->
  Spec.fruitless env (kv_value row) = true.
Proof.
  unfold Spec.all_fruitless, Spec.all_geo. cbn [forallb]. intros H K.
  apply andb_true_iff in H as [H _]. now rewrite K in H.
Qed.



(** Scanning the metadata rows only executes statements; when no [geo]
    blob yields a column name and the temporary table can be dropped, the
    scan falls through to the end of the loop. *)
Lemma scan_metadata_spec (env : Env) (rows : list kv_row) :
  forall s,
    Wp.wp (ValidationWorker.scan_metadata env rows)
      (fun s' o =>
         Wp.extended s s'
         /\ (Spec.all_fruitless env rows = true ->
             eng_execute env "DROP TABLE IF EXISTS temp_json" = None ->
             o = Normal tt))
      s.
Proof.
  induction rows as [|row rest IH]; intros [t c tn cn].
  - simpl. wp_run. split; [apply extended_refl | reflexivity].
  - cbn [ValidationWorker.scan_metadata]. unfold ValidationWorker.probe_geo.
    wp_run.
    all: lazymatch goal with
         | |- Wp.wp _ _ _ =>
             eapply WpRules.wp_mono; [|apply IH]; cbv beta;
             intros s' o' [Hext Hout]; split;
             [ eapply extended_trans; [|exact Hext]; extended_leaf
             | intros Hm Hd; apply Hout;
               [exact (all_fruitless_tail env _ rest Hm) | exact Hd] ]
         | |- _ /\ _ => split; [extended_leaf | intros Hm Hd; try congruence]
         end.
    exfalso.
    pose proof (all_fruitless_head env _ rest Hm Heqb) as Hbad.
    unfold Spec.fruitless, Spec.create_temp_json in Hbad.
    match goal with E : bytes_decode _ _ = Ok _ |- _ => rewrite E in Hbad end.
    cbv beta iota in Hbad.
    match goal with
    | E : eng_execute _ (String.append _ _) = None |- _ => rewrite E in Hbad
    end.
    match goal with E : eng_json_path _ _ = Ok _ |- _ => rewrite E in Hbad end.
    match goal with E : PyStr.truthy _ = true |- _ => rewrite E in Hbad end.
    discriminate Hbad.
Qed.

(** [check_bbox_metadata] only executes statements; on fruitless metadata
    it returns [None] rather than raising. *)
Lemma check_bbox_metadata_spec (env : Env) (dataset_url : string) (s : state) :
  Wp.wp (ValidationWorker.check_bbox_metadata env dataset_url)
    (fun s' o =>
       Wp.extended s s'
       /\ (forall rows,
             eng_kv_metadata env (Sql.metadata_query dataset_url) = Ok rows ->
             Spec.all_fruitless env rows = true ->
             eng_execute env "DROP TABLE IF EXISTS temp_json" = None ->
             o = Returned None))
    s.
Proof.
  destruct s as [t c tn cn].
  unfold ValidationWorker.check_bbox_metadata.
  wp_step. wp_step.
  - wp_step. eapply WpRules.wp_mono; [|apply scan_metadata_spec]. cbv beta.
    intros s' o [Hext Hout].
    assert (Hext' : Wp.extended (mkState t c tn cn) s').
    { eapply extended_trans; [|exact Hext]. extended_leaf. }
    destruct o as [[]|r|e]; unfold Wp.after.
    + wp_step. split; [exact Hext' | reflexivity].
    + split; [exact Hext'|].
      intros rows Hr Hm Hd. rewrite Hr in H. injection H as <-.
      specialize (Hout Hm Hd). discriminate Hout.
    + split; [exact Hext'|].
      intros rows Hr Hm Hd. rewrite Hr in H. injection H as <-.
      specialize (Hout Hm Hd). discriminate Hout.
  - split; [extended_leaf | congruence].
Qed.

Lemma quiet_is_not (p : event -> bool) (l : list event) :
  (forall q, p (Execute q) = false) ->
  forallb Wp.quiet l = true -> Obs.none p l = true /\ Obs.some p l = false.
Proof.
  intros Hp. induction l as [|e l IH]; simpl; [auto|].
  intros H. apply andb_true_iff in H as [He Hl]. destruct (IH Hl) as [IH1 IH2].
  destruct e; try discriminate He. now rewrite Hp, IH1, IH2.
Qed.

Lemma quiet_sound (l : list event) :
  forallb Wp.quiet l = true -> forallb Spec.sound_success l = true.
Proof.
  induction l as [|e l IH]; simpl; [auto|].
  intros H. apply andb_true_iff in H as [He Hl].
  destruct e; try discriminate He. simpl. auto.
Qed.


(** ** The validation worker *)

Lemma names_bbox_found (c : string) (m : gmap string pyval) :
  PyStr.truthy c = true ->
  Spec.names_bbox (<["bbox_column" := PyStr c]> (<["has_bbox" := PyBool true]> m))
  = true.
Proof.
  intros H. unfold Spec.names_bbox.
  rewrite lookup_insert_ne by discriminate.
  rewrite !lookup_insert_eq. exact H.
Qed.

Lemma some_app (p : event -> bool) (a b : list event) :
  Obs.some p (a ++ b)%list = (Obs.some p a || Obs.some p b)%bool.
Proof. apply existsb_app. Qed.

Lemma none_app (p : event -> bool) (a b : list event) :
  Obs.none p (a ++ b)%list = (Obs.none p a && Obs.none p b)%bool.
Proof. apply forallb_app. Qed.

(** What a probe of the metadata leaves in the trace. *)
Lemma quiet_facts (l : list event) :
  forallb Wp.quiet l = true ->
  forallb Spec.sound_success l = true
  /\ Obs.some Obs.is_bbox_warning l = false
  /\ Obs.none Obs.is_validation_finished l = true
  /\ Obs.some Spec.is_failure l = false
  /\ Obs.none Spec.is_failure l = true.
Proof.
  intros H. split; [now apply quiet_sound|].
  split; [now apply (quiet_is_not Obs.is_bbox_warning)|].
  split; [now apply (quiet_is_not Obs.is_validation_finished)|].
  split; now apply (quiet_is_not Spec.is_failure).
Qed.

Ltac trace_leaf :=
  rewrite ?forallb_app, ?some_app, ?none_app;
  cbn [forallb Spec.sound_success];
  repeat match goal with
         | H : forallb Wp.quiet ?l = true |- _ =>
             destruct (quiet_facts l H) as (? & ? & ? & ? & ?); clear H
         end;
  repeat match goal with
         | H : _ ?l = _ |- context [?l] => rewrite H
         end;
  rewrite ?names_bbox_found by (assumption || reflexivity).

Lemma validation_run_invariant
    (presets : ValidationWorker.Catalogue) (env : Env) (dataset_url : string) :
  Wp.wp (ValidationWorker.run presets env dataset_url)
    (fun s _ => Spec.validation_invariant (trace s)) initial.
Proof.
  unfold ValidationWorker.run, ValidationWorker.run_body.
  wp_run_with lookups.
  all: try (eapply WpRules.wp_mono; [|apply check_bbox_metadata_spec]; cbv beta;
            intros [t' c' tn' cn'] o [(l & E & Ql & T & C) _];
            cbn [trace table_name conn] in E, T, C; subst t' tn' cn';
            wp_run_with lookups).
  all: unfold Spec.validation_invariant; trace_leaf.
  all: (vm_compute; split; [reflexivity
               | let W := fresh "W" in
                 intros W; first [reflexivity | discriminate W]]).
Qed.

(** Without a standard bbox column and with metadata that names none, the
    worker raises the warning and emits nothing on [finished]. *)
Lemma no_bbox_raises_warning
    (presets : ValidationWorker.Catalogue) (env : Env) (dataset_url : string)
    (schema : list (string * string)) (rows : list kv_row) :
  ValidationWorker.needs_validation presets dataset_url = true ->
  Spec.setup_ok env ->
  eng_describe env (Sql.schema_query dataset_url) = Ok schema ->
  ValidationWorker.has_standard_bbox schema = false ->
  eng_kv_metadata env (Sql.metadata_query dataset_url) = Ok rows ->
  Spec.all_fruitless env rows = true ->
  eng_execute env "DROP TABLE IF EXISTS temp_json" = None ->
  let t := run_trace (ValidationWorker.run presets env dataset_url) in
  Obs.some Obs.is_bbox_warning t = true
  /\ Obs.none Obs.is_validation_finished t = true.
Proof.
  intros Hnv (Hc & H1 & H2 & H3 & H4) Hdesc Hstd Hkv Hfr Hdrop.
  change (Wp.wp (ValidationWorker.run presets env dataset_url)
            (fun s _ =>
               Obs.some Obs.is_bbox_warning (trace s) = true
               /\ Obs.none Obs.is_validation_finished (trace s) = true)
            initial).
  unfold ValidationWorker.run, ValidationWorker.run_body.
  rewrite Hnv.
  wp_run_with ltac:(prune; lookups).
  eapply WpRules.wp_mono; [|apply check_bbox_metadata_spec]; cbv beta.
  intros [t' c' tn' cn'] o [(l & E & Ql & T & C) Hout].
  cbn [trace table_name conn] in E, T, C; subst t' tn' cn'.
  rewrite (Hout rows Hkv Hfr Hdrop).
  wp_run_with ltac:(prune; lookups).
  all: trace_leaf; vm_compute; split; reflexivity.
Qed.

Lemma names_bbox_inv (results : gmap string pyval) :
  Spec.names_bbox results = true ->
  results !! "has_bbox" = Some (PyBool true)
  /\ exists c, results !! "bbox_column" = Some (PyStr c) /\ c <> EmptyString.
Proof.
  unfold Spec.names_bbox.
  destruct (results !! "has_bbox") as [[| [|] | |]|]; try discriminate.
  destruct (results !! "bbox_column") as [[| | c |]|]; try discriminate.
  intros H. split; [reflexivity|]. exists c. split; [reflexivity|].
  intros ->. discriminate H.
Qed.

(** C10: every result emitted on [finished] with success has
    [has_bbox = True] and a non-empty [bbox_column]; a run that raises
    the bbox warning emits nothing on [finished]; and a dataset with
    neither a standard bbox column nor metadata naming one raises the
    warning. *)
Theorem successful_validation_names_a_bbox
    (presets : ValidationWorker.Catalogue) (env : Env) (dataset_url : string) :
  let t := run_trace (ValidationWorker.run presets env dataset_url) in
  (forall msg results,
     In (ValidationFinished true msg results) t ->
     results !! "has_bbox" = Some (PyBool true)
     /\ exists c, results !! "bbox_column" = Some (PyStr c) /\ c <> EmptyString)
  /\ (In NeedsBboxWarning t ->
      forall ok msg results, ~ In (ValidationFinished ok msg results) t)
  /\ (forall schema rows,
        ValidationWorker.needs_validation presets dataset_url = true ->
        Spec.setup_ok env ->
        eng_describe env (Sql.schema_query dataset_url) = Ok schema ->
        ValidationWorker.has_standard_bbox schema = false ->
        eng_kv_metadata env (Sql.metadata_query dataset_url) = Ok rows ->
        Spec.all_fruitless env rows = true ->
        eng_execute env "DROP TABLE IF EXISTS temp_json" = None ->
        In NeedsBboxWarning t).
Proof.
  intros t.
  pose proof (validation_run_invariant presets env dataset_url) as [Hs Hw].
  fold (run_trace (ValidationWorker.run presets env dataset_url)) in Hs, Hw.
  fold t in Hs, Hw.
  split; [|split].
  - intros msg results Hin.
    rewrite forallb_forall in Hs. specialize (Hs _ Hin).
    now apply names_bbox_inv.
  - intros Hin ok msg results Hf.
    assert (Hsome : Obs.some Obs.is_bbox_warning t = true).
    { apply existsb_exists. exists NeedsBboxWarning. now split. }
    specialize (Hw Hsome). unfold Obs.none in Hw.
    rewrite forallb_forall in Hw. specialize (Hw _ Hf). discriminate Hw.
  - intros schema rows Hnv Hok Hdesc Hstd Hkv Hfr Hdrop.
    destruct (no_bbox_raises_warning presets env dataset_url schema rows
                Hnv Hok Hdesc Hstd Hkv Hfr Hdrop) as [Hsome _].
    fold t in Hsome. apply existsb_exists in Hsome as [e [Hin He]].
    destruct e; try discriminate He. exact Hin.
Qed.

Lemma successful_validation_names_a_bbox_witness :
  let env := Sample.engine Sample.plain_schema [mkKv "geo" "{}"]
               (Some None) 5 None None in
  let env' := Sample.engine Sample.plain_schema [mkKv "geo" "{}"]
               (Some (Some "geom_bbox")) 5 None None in
  In NeedsBboxWarning
    (run_trace (ValidationWorker.run Plugin.PRESET_DATASETS env Sample.custom_url))
  /\ (forall ok msg results,
        ~ In (ValidationFinished ok msg results)
            (run_trace (ValidationWorker.run Plugin.PRESET_DATASETS env
                          Sample.custom_url)))
  /\ exists results,
       In (ValidationFinished true "Validation successful" results)
         (run_trace (ValidationWorker.run Plugin.PRESET_DATASETS env'
                       Sample.custom_url))
       /\ results !! "has_bbox" = Some (PyBool true)
       /\ exists c, results !! "bbox_column" = Some (PyStr c) /\ c <> EmptyString.
Proof.
  intros env env'.
  pose proof (successful_validation_names_a_bbox Plugin.PRESET_DATASETS env
                Sample.custom_url) as (_ & Hno & Hwarn).
  pose proof (successful_validation_names_a_bbox Plugin.PRESET_DATASETS env'
                Sample.custom_url) as (Hyes & _ & _).
  assert (Hin : In NeedsBboxWarning
                  (run_trace (ValidationWorker.run Plugin.PRESET_DATASETS env
                                Sample.custom_url))).
  { apply (Hwarn Sample.plain_schema [mkKv "geo" "{}"]);
      first [reflexivity | repeat split; reflexivity]. }
  split; [exact Hin|]. split; [exact (Hno Hin)|].
  assert (Hin' : exists results,
             In (ValidationFinished true "Validation successful" results)
               (run_trace (ValidationWorker.run Plugin.PRESET_DATASETS env'
                             Sample.custom_url))).
  { vm_compute. eexists. do 14 right. left. reflexivity. }
  destruct Hin' as [results Hin'].
  exists results. split; [exact Hin'|].
  exact (Hyes "Validation successful" results Hin').
Defined.

(** ** The decision order of the detector *)

Lemma match_dataset_mentions (dataset_url : string) (d : ValidationWorker.Preset) :
  ValidationWorker.match_dataset dataset_url d
  = if Spec.mentions dataset_url d
    then Some (ValidationWorker.get_needs_validation d)
    else None.
Proof.
  unfold ValidationWorker.match_dataset, Spec.mentions.
  destruct (match ValidationWorker.url d with
            | Some u => PyStr.contains u dataset_url
            | None => false
            end); [reflexivity|].
  destruct (match ValidationWorker.url_template d with
            | Some t => PyStr.contains (PyStr.first_item (PyStr.split "{" t)) dataset_url
            | None => false
            end); reflexivity.
Qed.

Lemma find_append {A} (p : A -> bool) (l l' : list A) :
  find p (l ++ l')%list
  = match find p l with Some x => Some x | None => find p l' end.
Proof.
  induction l as [|x l IH]; simpl; [reflexivity|].
  destruct (p x); [reflexivity | exact IH].
Qed.

Lemma scan_datasets_find (dataset_url : string)
    (datasets : list (string * ValidationWorker.Preset)) :
  ValidationWorker.scan_datasets dataset_url datasets
  = option_map ValidationWorker.get_needs_validation
      (find (Spec.mentions dataset_url) (map snd datasets)).
Proof.
  induction datasets as [|[name d] rest IH]; simpl; [reflexivity|].
  rewrite match_dataset_mentions.
  destruct (Spec.mentions dataset_url d); [reflexivity | exact IH].
Qed.

Lemma scan_sources_find (dataset_url : string)
    (presets : ValidationWorker.Catalogue) :
  ValidationWorker.scan_sources dataset_url presets
  = option_map ValidationWorker.get_needs_validation
      (find (Spec.mentions dataset_url) (Spec.entries presets)).
Proof.
  induction presets as [|[name datasets] rest IH]; simpl; [reflexivity|].
  unfold Spec.entries. simpl. rewrite find_append, scan_datasets_find.
  destruct (find (Spec.mentions dataset_url) (map snd datasets));
    [reflexivity | exact IH].
Qed.

(** The first dataset of the catalogue that the URL mentions decides;
    a URL that mentions none needs validation. *)
Lemma needs_validation_first_match (presets : ValidationWorker.Catalogue)
    (dataset_url : string) :
  ValidationWorker.needs_validation presets dataset_url
  = match find (Spec.mentions dataset_url) (Spec.entries presets) with
    | Some d => ValidationWorker.get_needs_validation d
    | None => true
    end.
Proof.
  unfold ValidationWorker.needs_validation. rewrite scan_sources_find.
  destruct (find (Spec.mentions dataset_url) (Spec.entries presets)); reflexivity.
Qed.

Lemma has_standard_bbox_literal (schema : list (string * string)) (type : string) :
  In ("bbox", type) schema ->
  PyStr.contains "struct" (PyStr.lower type) = true ->
  ValidationWorker.has_standard_bbox schema = true.
Proof.
  intros Hin Hs. unfold ValidationWorker.has_standard_bbox.
  apply existsb_exists. exists ("bbox", type). split; [exact Hin|].
  simpl. exact Hs.
Qed.

(** C3: on an engine that opens and loads its extensions, a URL whose
    first matching catalogue entry is marked as not needing validation
    gets the result [has_bbox = True, bbox_column = bbox] without any
    statement on the dataset; a URL that needs validation and whose schema
    has a column named [bbox] of a struct type gets that column after the
    schema probe alone, the metadata is not queried. *)
Theorem detector_decision_order
    (presets : ValidationWorker.Catalogue) (env : Env) (dataset_url : string) :
  Spec.setup_ok env ->
  let t := run_trace (ValidationWorker.run presets env dataset_url) in
  (forall d,
     find (Spec.mentions dataset_url) (Spec.entries presets) = Some d ->
     ValidationWorker.needs_validation_flag d = Some false ->
     t = [ Progress "Connecting to data source..."; Connect None;
           Execute "INSTALL spatial;"; Execute "LOAD spatial;";
           Execute "INSTALL httpfs;"; Execute "LOAD httpfs;";
           ValidationFinished true "Validation successful"
             ValidationWorker.preset_results;
           Close ]
     /\ ValidationWorker.preset_results !! "has_bbox" = Some (PyBool true)
     /\ ValidationWorker.preset_results !! "bbox_column" = Some (PyStr "bbox"))
  /\ (forall schema type,
        ValidationWorker.needs_validation presets dataset_url = true ->
        eng_describe env (Sql.schema_query dataset_url) = Ok schema ->
        In ("bbox", type) schema ->
        PyStr.contains "struct" (PyStr.lower type) = true ->
        t = [ Progress "Connecting to data source..."; Connect None;
              Execute "INSTALL spatial;"; Execute "LOAD spatial;";
              Execute "INSTALL httpfs;"; Execute "LOAD httpfs;";
              Progress "Checking data format...";
              Execute (Sql.schema_query dataset_url);
              ValidationFinished true "Validation successful"
                (Spec.standard_results schema);
              Close ]
        /\ Spec.standard_results schema !! "bbox_column" = Some (PyStr "bbox")
        /\ Obs.none (Obs.is_execute (Sql.metadata_query dataset_url)) t = true).
Proof.
  intros (Hc & H1 & H2 & H3 & H4) t. split.
  - intros d Hfind Hflag.
    assert (Hnv : ValidationWorker.needs_validation presets dataset_url = false).
    { rewrite needs_validation_first_match, Hfind.
      unfold ValidationWorker.get_needs_validation. now rewrite Hflag. }
    split; [|split; reflexivity].
    subst t.
    change (Wp.wp (ValidationWorker.run presets env dataset_url)
              (fun s _ =>
                 trace s
                 = [ Progress "Connecting to data source..."; Connect None;
                     Execute "INSTALL spatial;"; Execute "LOAD spatial;";
                     Execute "INSTALL httpfs;"; Execute "LOAD httpfs;";
                     ValidationFinished true "Validation successful"
                       ValidationWorker.preset_results;
                     Close ])
              initial).
    unfold ValidationWorker.run, ValidationWorker.run_body.
    rewrite Hnv.
    wp_run_given; reflexivity.
  - intros schema type Hnv Hdesc Hin Hstruct.
    pose proof (has_standard_bbox_literal schema type Hin Hstruct) as Hstd.
    assert (Ht : t = [ Progress "Connecting to data source..."; Connect None;
              Execute "INSTALL spatial;"; Execute "LOAD spatial;";
              Execute "INSTALL httpfs;"; Execute "LOAD httpfs;";
              Progress "Checking data format...";
              Execute (Sql.schema_query dataset_url);
              ValidationFinished true "Validation successful"
                (Spec.standard_results schema);
              Close ]).
    { subst t.
      change (Wp.wp (ValidationWorker.run presets env dataset_url)
                (fun s _ =>
                   trace s
                   = [ Progress "Connecting to data source..."; Connect None;
                       Execute "INSTALL spatial;"; Execute "LOAD spatial;";
                       Execute "INSTALL httpfs;"; Execute "LOAD httpfs;";
                       Progress "Checking data format...";
                       Execute (Sql.schema_query dataset_url);
                       ValidationFinished true "Validation successful"
                         (Spec.standard_results schema);
                       Close ])
                initial).
      unfold ValidationWorker.run, ValidationWorker.run_body.
      rewrite Hnv.
      wp_run_with ltac:(prune; lookups); reflexivity. }
    split; [exact Ht|]. split; [reflexivity|].
    rewrite Ht. reflexivity.
Qed.

Lemma detector_decision_order_witness :
  let env := Sample.engine Sample.places_schema [] None 5 None None in
  ValidationWorker.needs_validation Plugin.PRESET_DATASETS Sample.overture_places
  = false
  /\ Obs.none (Obs.is_execute (Sql.schema_query Sample.overture_places))
       (run_trace (ValidationWorker.run Plugin.PRESET_DATASETS env
                     Sample.overture_places)) = true
  /\ ValidationWorker.needs_validation Plugin.PRESET_DATASETS Sample.custom_url
     = true
  /\ Obs.none (Obs.is_execute (Sql.metadata_query Sample.custom_url))
       (run_trace (ValidationWorker.run Plugin.PRESET_DATASETS env
                     Sample.custom_url)) = true.
Proof.
  intros env.
  assert (Hok : Spec.setup_ok env) by (repeat split; reflexivity).
  pose proof (detector_decision_order Plugin.PRESET_DATASETS env
                Sample.overture_places Hok) as [Hpre _].
  pose proof (detector_decision_order Plugin.PRESET_DATASETS env
                Sample.custom_url Hok) as [_ Hstd].
  split; [reflexivity|]. split.
  - destruct (Hpre (Plugin.templated Sample.overture_places false)
                eq_refl eq_refl) as [Ht _].
    rewrite Ht. reflexivity.
  - split; [reflexivity|].
    destruct (Hstd Sample.places_schema
                "STRUCT(xmin FLOAT, xmax FLOAT, ymin FLOAT, ymax FLOAT)"
                eq_refl eq_refl) as (_ & _ & Hn).
    + simpl. tauto.
    + reflexivity.
    + exact Hn.
Defined.
(** ** Rules for what a block may add to the trace *)

Module FrameRules.
Import Wp Frame.

Section Closure.
Context {R A : Type}.
Variables (env : Env) (p : event -> bool).

Lemma only_silent (c : M R A) :
  (forall s, trace (fst (c s)) = trace s /\ conn (fst (c s)) = conn s) ->
  only p c.
Proof.
  intros H s. exists []. destruct (H s) as [Ht Hc].
  rewrite app_nil_r, Hc. auto.
Qed.

Lemma only_ret (a : A) : only p (ret (R := R) a).
Proof. apply only_silent. intros s. split; reflexivity. Qed.

Lemma only_return (r : R) : only p (return_ (A := A) r).
Proof. apply only_silent. intros s. split; reflexivity. Qed.

Lemma only_raise (e : exn) : only p (raise (R := R) (A := A) e).
Proof. apply only_silent. intros s. split; reflexivity. Qed.

Lemma only_lift (a : answer A) : only p (lift (R := R) a).
Proof. destruct a; [apply only_ret | apply only_raise]. Qed.

Lemma only_bind {C} (c : M R C) (k : C -> M R A) :
  only p c -> (forall a, only p (k a)) -> only p (bind c k).
Proof.
  intros Hc Hk s. unfold bind. destruct (Hc s) as (l1 & E1 & P1 & C1).
  destruct (c s) as [s1 [a|r|e]]; cbn [fst] in *.
  - destruct (Hk a s1) as (l2 & E2 & P2 & C2).
    exists (l1 ++ l2)%list. rewrite E2, E1, app_assoc, forallb_app, P1, P2. auto.
  - exists l1. auto.
  - exists l1. auto.
Qed.

Lemma only_try_except (body : M R A) (h : exn -> M R A) :
  only p body -> (forall e, only p (h e)) -> only p (try_except body h).
Proof.
  intros Hb Hh s. unfold try_except. destruct (Hb s) as (l1 & E1 & P1 & C1).
  destruct (body s) as [s1 [a|r|e]]; cbn [fst] in *.
  - exists l1. auto.
  - exists l1. auto.
  - destruct (Hh e s1) as (l2 & E2 & P2 & C2).
    exists (l1 ++ l2)%list. rewrite E2, E1, app_assoc, forallb_app, P1, P2. auto.
Qed.

Lemma only_try_finally (body : M R A) (fin : M R unit) :
  only p body -> only p fin -> only p (try_finally body fin).
Proof.
  intros Hb Hf s. unfold try_finally. destruct (Hb s) as (l1 & E1 & P1 & C1).
  destruct (body s) as [s1 o]; cbn [fst] in *.
  destruct (Hf s1) as (l2 & E2 & P2 & C2).
  assert (exists l, trace (fst (fin s1)) = (trace s ++ l)%list
                    /\ forallb p l = true
                    /\ (conn s = true -> conn (fst (fin s1)) = true)) as H.
  { exists (l1 ++ l2)%list. rewrite E2, E1, app_assoc, forallb_app, P1, P2. auto. }
  destruct (fin s1) as [s2 [a|r|e]]; exact H.
Qed.

Lemma only_call (c : M A A) : only p c -> only p (call (R' := R) c).
Proof.
  intros Hc s. unfold call. destruct (Hc s) as (l1 & E1 & P1 & C1).
  destruct (c s) as [s1 [a|r|e]]; exists l1; auto.
Qed.

End Closure.

Section Primitives.
Context {R : Type}.
Variables (env : Env) (p : event -> bool).

Lemma only_emit (e : event) : p e = true -> only p (emit (R := R) e).
Proof.
  intros H s. exists [e]. cbn. rewrite H. auto.
Qed.

Lemma only_check (o : option exn) : only p (check (R := R) o).
Proof. destruct o; [apply only_raise | apply only_ret]. Qed.

Lemma only_asked {A} (q : string) (a : answer A) :
  p (Execute q) = true ->
  only p (bind (emit (R := R) (Execute q)) (fun _ => lift a)).
Proof.
  intros H. apply only_bind; [now apply only_emit | intros _; apply only_lift].
Qed.

Lemma only_execute (q : string) :
  p (Execute q) = true -> only p (execute (R := R) env q).
Proof.
  intros H. apply only_bind; [now apply only_emit | intros _; apply only_check].
Qed.

Lemma only_describe (q : string) :
  p (Execute q) = true -> only p (describe (R := R) env q).
Proof. apply only_asked. Qed.

Lemma only_count (q : string) :
  p (Execute q) = true -> only p (count (R := R) env q).
Proof. apply only_asked. Qed.

Lemma only_average (q : string) :
  p (Execute q) = true -> only p (average (R := R) env q).
Proof. apply only_asked. Qed.

Lemma only_kv_metadata (q : string) :
  p (Execute q) = true -> only p (kv_metadata (R := R) env q).
Proof. apply only_asked. Qed.

Lemma only_json_path (q doc : string) :
  p (Execute q) = true -> only p (json_path (R := R) env q doc).
Proof. apply only_asked. Qed.

Lemma only_commit : p Commit = true -> only p (commit (R := R) env).
Proof.
  intros H. apply only_bind; [now apply only_emit | intros _; apply only_check].
Qed.

Lemma only_connect (db : option string) :
  p (Connect db) = true -> only p (connect (R := R) env db).
Proof.
  intros H s. exists [Connect db]. unfold connect.
  destruct (eng_connect env db); cbn; rewrite H; auto.
Qed.

Lemma only_close : p Close = true -> only p (close (R := R) env).
Proof.
  intros H s. unfold close. destruct (conn s) eqn:E.
  - assert (Hb : only p (bind (emit (R := R) Close)
                           (fun _ => check (eng_close env)))).
    { apply only_bind; [now apply only_emit | intros _; apply only_check]. }
    destruct (Hb s) as (l & E1 & P1 & C1). exists l.
    split; [exact E1 | split; [exact P1 | intros _; apply C1, E]].
  - exists []. rewrite app_nil_r. cbn. split; [reflexivity|].
    split; [reflexivity | discriminate].
Qed.

Lemma only_read_killed : only p (read_killed (R := R) env).
Proof. apply only_silent. intros s. split; reflexivity. Qed.

Lemma only_set_table_name (t : string) : only p (set_table_name (R := R) t).
Proof. apply only_silent. intros s. split; reflexivity. Qed.

Lemma only_get_table_name : only p (get_table_name (R := R)).
Proof.
  apply only_silent. intros s. unfold get_table_name.
  destruct (table_name s); split; reflexivity.
Qed.

(** A worker killed before it starts reads the flag as set. *)
Lemma only_killed {A} (k : bool -> M R A) :
  kill_at env = Some 0%nat ->
  only p (k true) -> only p (bind (read_killed env) k).
Proof.
  intros Hk H s. unfold bind, read_killed. rewrite Hk. cbn [Nat.leb].
  destruct (H (mkState (trace s) (S (clock s)) (table_name s) (conn s)))
    as (l & E & P & C).
  exists l. auto.
Qed.

End Primitives.

(** From the events a block may emit to its runs. *)
Lemma only_run {R A} (p : event -> bool) (c : M R A) :
  only p c -> forallb p (run_trace c) = true.
Proof.
  intros H. destruct (H initial) as (l & E & P & _).
  unfold run_trace. now rewrite E.
Qed.

Lemma wp_only {R A} (p : event -> bool) (c : M R A)
    (Post : state -> outcome R A -> Prop) (s : state) :
  only p c ->
  (forall s' o,
     (exists l, trace s' = (trace s ++ l)%list /\ forallb p l = true) ->
     (conn s = true -> conn s' = true) ->
     Post s' o) ->
  wp c Post s.
Proof.
  intros H HP. unfold wp. destruct (H s) as (l & E & P & C).
  apply HP; [exists l; auto | exact C].
Qed.

Lemma wp_only_stable {R A} (p : event -> bool) (Q : list event -> Prop)
    (c : M R A) (s : state) :
  stable p Q -> only p c -> Q (trace s) ->
  wp c (fun s' _ => Q (trace s')) s.
Proof.
  intros HQ Hc Hs. apply (wp_only p c); [exact Hc|].
  intros s' o (l & E & P) _. rewrite E. now apply HQ.
Qed.

Lemma wp_try_finally_stable {R A} (p : event -> bool) (Q : list event -> Prop)
    (body : M R A) (fin : M R unit) (s : state) :
  stable p Q -> only p fin ->
  wp body (fun s1 _ => Q (trace s1)) s ->
  wp (try_finally body fin) (fun s2 _ => Q (trace s2)) s.
Proof.
  intros HQ Hf. unfold wp, try_finally. destruct (body s) as [s1 o]. cbn [fst].
  intros H1. destruct (Hf s1) as (l & E & P & _).
  assert (H2 : Q (trace (fst (fin s1)))) by (rewrite E; now apply HQ).
  destruct (fin s1) as [s2 [a|r|e]]; exact H2.
Qed.

Lemma wp_try_except_stable {R A} (p : event -> bool) (Q : list event -> Prop)
    (body : M R A) (h : exn -> M R A) (s : state) :
  stable p Q -> (forall e, only p (h e)) ->
  wp body (fun s1 _ => Q (trace s1)) s ->
  wp (try_except body h) (fun s2 _ => Q (trace s2)) s.
Proof.
  intros HQ Hh. unfold wp, try_except. destruct (body s) as [s1 [a|r|e]];
    cbn [fst]; auto.
  intros H1. destruct (Hh e s1) as (l & E & P & _). rewrite E. now apply HQ.
Qed.

(** The normalizer answers as the host does, or with the extent itself. *)
Lemma wp_transform {R} (env : Env) (extent : Extent) (crs : string)
    (Post : state -> outcome R Extent -> Prop) (s : state) :
  (forall v, Spec.normalized env crs extent = Ok v -> Post s (Normal v)) ->
  (forall e, Spec.normalized env crs extent = Fails e -> Post s (Raised e)) ->
  wp (Sql.transform_bbox_to_4326 env extent crs) Post s.
Proof.
  unfold Sql.transform_bbox_to_4326, Spec.normalized.
  destruct (String.eqb crs "EPSG:4326"); cbn [negb].
  - intros H _. apply WpRules.wp_ret. now apply H.
  - intros H1 H2. now apply WpRules.wp_lift.
Qed.

(** Once an event is in the trace it stays there. *)
Lemma stable_in (p : event -> bool) (e : event) : stable p (fun t => In e t).
Proof. intros t l H _. apply in_or_app. now left. Qed.

End FrameRules.

(** The side condition of a rule: the event is allowed. *)
Ltac allowed := first [ reflexivity | assumption ].

(** A test whose result is assumed is not split. *)
Ltac only_known :=
  lazymatch goal with
  | |- Frame.only _ (if ?b then _ else _) =>
      match goal with
      | H : b = _ |- _ => rewrite H
      | H : ?b' = _ |- _ =>
          lazymatch b with context [b'] => rewrite H end
      end
  end.

Ltac only_reduce := cbv beta iota zeta delta [negb andb orb].

Ltac only_step :=
  lazymatch goal with
  | |- Frame.only _ (Py.bind (Py.read_killed _) _) =>
      first [ apply FrameRules.only_killed; [assumption|]
            | apply FrameRules.only_bind;
              [apply FrameRules.only_read_killed | intros ?] ]
  | |- Frame.only _ (Py.bind _ _) => apply FrameRules.only_bind; [|intros ?]
  | |- Frame.only _ (Py.emit _) => apply FrameRules.only_emit; allowed
  | |- Frame.only _ (Py.ret _) => apply FrameRules.only_ret
  | |- Frame.only _ (Py.return_ _) => apply FrameRules.only_return
  | |- Frame.only _ (Py.raise _) => apply FrameRules.only_raise
  | |- Frame.only _ (Py.lift _) => apply FrameRules.only_lift
  | |- Frame.only _ (Py.check _) => apply FrameRules.only_check
  | |- Frame.only _ (Py.execute _ _) => apply FrameRules.only_execute; allowed
  | |- Frame.only _ (Py.connect _ _) => apply FrameRules.only_connect; allowed
  | |- Frame.only _ (Py.describe _ _) => apply FrameRules.only_describe; allowed
  | |- Frame.only _ (Py.count _ _) => apply FrameRules.only_count; allowed
  | |- Frame.only _ (Py.average _ _) => apply FrameRules.only_average; allowed
  | |- Frame.only _ (Py.kv_metadata _ _) => apply FrameRules.only_kv_metadata; allowed
  | |- Frame.only _ (Py.json_path _ _ _) => apply FrameRules.only_json_path; allowed
  | |- Frame.only _ (Py.commit _) => apply FrameRules.only_commit; allowed
  | |- Frame.only _ (Py.close _) => apply FrameRules.only_close; allowed
  | |- Frame.only _ (Py.read_killed _) => apply FrameRules.only_read_killed
  | |- Frame.only _ (Py.set_table_name _) => apply FrameRules.only_set_table_name
  | |- Frame.only _ Py.get_table_name => apply FrameRules.only_get_table_name
  | |- Frame.only _ (Py.call _) => apply FrameRules.only_call
  | |- Frame.only _ (Py.try_except _ _) =>
      apply FrameRules.only_try_except; [|intros ?]
  | |- Frame.only _ (Py.try_finally _ _) => apply FrameRules.only_try_finally
  | |- Frame.only _ (if ?b then _ else _) => first [ only_known | destruct b ]
  | |- Frame.only _ (match ?x with _ => _ end) => destruct x
  end; only_reduce.

Ltac only_run := repeat only_step.

(** No event of a run satisfies [q], statement by statement. *)
Ltac never q :=
  lazymatch goal with
  | |- Obs.none q (run_trace ?c) = true =>
      apply (FrameRules.only_run (fun e => negb (q e)) c)
  end.

(** ** Running a method under assumed answers *)

(** The answer just met agrees with the one assumed for the same call, or
    the path is impossible. *)
Ltac newest_agrees :=
  try lazymatch goal with
      | H2 : ?x = _ |- _ =>
          match goal with
          | H1 : x = _ |- _ =>
              tryif constr_eq H1 H2 then fail
              else (rewrite H1 in H2;
                    first [ discriminate H2
                          | injection H2 as H2; try subst
                          | clear H2 ])
          end
      end.

Ltac wp_known :=
  lazymatch goal with
  | |- Wp.wp (if ?b then _ else _) _ _ =>
      match goal with
      | H : b = _ |- _ => rewrite H
      | H : ?b' = _ |- _ => lazymatch b with context [b'] => rewrite H end
      end
  | |- Wp.wp (match ?x with _ => _ end) _ _ =>
      match goal with H : x = _ |- _ => rewrite H end
  | |- if ?b then _ else _ =>
      match goal with H : b = _ |- _ => rewrite H end
  end; wp_reduce.

Ltac wp_next :=
  first
    [ wp_known
    | lazymatch goal with
      | |- Wp.wp (Sql.transform_bbox_to_4326 _ _ _) _ _ =>
          apply FrameRules.wp_transform; intros ? ?
      | _ => wp_step
      end; newest_agrees; wp_reduce ].

Ltac wp_go_with tac := repeat (wp_next; tac; wp_reduce).

Ltac wp_go := wp_go_with idtac.

(** A worker that is never killed reads the flag as unset. *)
Ltac never_killed H :=
  unfold Wp.killed_by; rewrite ?H.

(** Statements up to the first one of a given kind. *)
Ltac wp_until_try :=
  repeat lazymatch goal with
         | |- Wp.wp (Py.try_finally _ _) _ _ => fail
         | |- Wp.wp (Py.try_except _ _) _ _ => fail
         | _ => wp_next
         end.

Ltac wp_until_count :=
  repeat lazymatch goal with
         | |- Wp.wp (Py.bind (Py.count _ _) _) _ _ => fail
         | _ => wp_next
         end.

(** The event is looked for from the end of the trace. *)
Ltac in_trace :=
  repeat (apply in_or_app;
          first [ solve [right; left; exact eq_refl] | left ]).

(** The cases of an assumption on the setup of a download. *)
Ltac split_setup H :=
  let Hc0 := fresh "Hc0" in
  let Hc := fresh "Hc" in
  let Hduck := fresh "Hduck" in
  unfold Spec.download_setup_ok, Spec.database_of in H;
  match type of H with
  | context [PyStr.endswith ".duckdb" ?o] =>
      destruct (PyStr.endswith ".duckdb" o) eqn:Hduck
  end;
  destruct H as (Hc0 & Hc & ? & ? & ? & ?).

Ltac split_normalized H :=
  let Hw := fresh "Hw" in
  unfold Spec.normalized in H;
  match type of H with
  | context [String.eqb ?c "EPSG:4326"] =>
      destruct (String.eqb c "EPSG:4326") eqn:Hw
  end;
  [injection H as <- |].

(** ** What a download never does *)

Ltac unfold_utils :=
  unfold Utils.run, Utils.run_body, Utils.run_cleanup,
    Utils.estimate_file_size, Sql.transform_bbox_to_4326.

Ltac unfold_plugin :=
  unfold Plugin.run, Plugin.run_body, Plugin.run_handler, Plugin.run_cleanup,
    Sql.transform_bbox_to_4326.

Lemma duckdb_extension (out : string) :
  PyStr.endswith ".duckdb" (PyStr.lower out) = true ->
  String.eqb (PyStr.last_item (PyStr.split "." (PyStr.lower out))) "duckdb" = true.
Proof.
  intros H. rewrite (last_item_of_suffix "duckdb" _ eq_refl H). reflexivity.
Qed.

(** X1: a destination ending in [.duckdb] (in any letter case) is written
    by the connection itself. Neither module copies the table out, drops
    it, or asks the host to load the file; [utils.py] raises no size
    warning for it. *)
Theorem duckdb_destination_keeps_table
    (env : Env) (wu : Utils.Worker) (wp : Plugin.Worker) :
  PyStr.endswith ".duckdb" (PyStr.lower (Utils.output_file wu)) = true ->
  PyStr.endswith ".duckdb" (PyStr.lower (Plugin.output_file wp)) = true ->
  let tu := run_trace (Utils.run env wu) in
  let tp := run_trace (Plugin.run env wp) in
  (Obs.none Obs.is_copy tu = true
   /\ Obs.none (Obs.is_execute "DROP TABLE IF EXISTS download_data") tu = true
   /\ Obs.none Obs.is_load_layer tu = true
   /\ Obs.none Obs.is_size_warning tu = true)
  /\ (Obs.none Obs.is_copy tp = true
      /\ Obs.none (Obs.is_execute "DROP TABLE IF EXISTS download_data") tp = true
      /\ Obs.none Obs.is_load_layer tp = true).
Proof.
  intros Hu Hp tu tp. subst tu tp.
  pose proof (duckdb_extension _ Hu) as Hxu.
  pose proof (duckdb_extension _ Hp) as Hxp.
  repeat split.
  1-4: lazymatch goal with |- Obs.none ?q _ = true => never q end;
       unfold_utils; only_run.
  all: lazymatch goal with |- Obs.none ?q _ = true => never q end;
       unfold_plugin; only_run.
Qed.

Lemma duckdb_destination_keeps_table_witness :
  let env := Sample.engine Sample.places_schema [] None 5 None None in
  let tu := run_trace (Utils.run env
                         (Sample.utils_worker Sample.overture_places "Out.DuckDB")) in
  Obs.some Obs.is_finished tu = true
  /\ Obs.none Obs.is_copy tu = true
  /\ Obs.none (Obs.is_execute "DROP TABLE IF EXISTS download_data") tu = true.
Proof.
  intros env tu. split; [reflexivity|].
  destruct (duckdb_destination_keeps_table env
              (Sample.utils_worker Sample.overture_places "Out.DuckDB")
              (Sample.plugin_worker Sample.overture_places "Out.DuckDB"))
    as [(H1 & H2 & _) _]; [reflexivity | reflexivity |].
  split; [exact H1 | exact H2].
Defined.

(** X2: a worker cancelled before it starts never asks the host to load a
    layer; in [utils.py] it also emits neither [info] nor [finished]. *)
Theorem cancelled_worker_loads_no_layer
    (env : Env) (wu : Utils.Worker) (wp : Plugin.Worker) :
  kill_at env = Some 0%nat ->
  let tu := run_trace (Utils.run env wu) in
  let tp := run_trace (Plugin.run env wp) in
  Obs.none Obs.is_load_layer tu = true
  /\ Obs.none Obs.is_info tu = true
  /\ Obs.none Obs.is_finished tu = true
  /\ Obs.none Obs.is_load_layer tp = true.
Proof.
  intros Hk tu tp. subst tu tp.
  repeat split.
  1-3: lazymatch goal with |- Obs.none ?q _ = true => never q end;
       unfold_utils; only_run.
  lazymatch goal with |- Obs.none ?q _ = true => never q end;
    unfold_plugin; only_run.
Qed.

Lemma cancelled_worker_loads_no_layer_witness :
  let env := Sample.engine Sample.places_schema [] None 5 None (Some 0%nat) in
  let tu := run_trace (Utils.run env
                         (Sample.utils_worker Sample.overture_places "out.gpkg")) in
  Obs.some Obs.is_copy tu = true
  /\ Obs.none Obs.is_load_layer tu = true
  /\ Obs.none Obs.is_finished tu = true.
Proof.
  intros env tu. split; [reflexivity|].
  destruct (cancelled_worker_loads_no_layer env
              (Sample.utils_worker Sample.overture_places "out.gpkg")
              (Sample.plugin_worker Sample.overture_places "out.gpkg"))
    as (H1 & _ & H3 & _); [reflexivity|].
  split; [exact H1 | exact H3].
Defined.
(** ** How a run ends *)

(** X3: [Worker.run] of the plugin module never lets an exception out:
    its outermost handler catches whatever the body, the inner handler or
    the cleanup raise, and only emits. *)
Theorem plugin_run_never_raises (env : Env) (w : Plugin.Worker) (e : exn) :
  run_outcome (Plugin.run env w) <> Raised e.
Proof.
  unfold run_outcome, Plugin.run, try_except.
  match goal with
  | |- context [match ?b initial with _ => _ end] =>
      destruct (b initial) as [s [a|r|e']]
  end; cbn [snd]; try discriminate.
  unfold bind, read_killed.
  destruct (kill_at env) as [n|]; cbn; [destruct (Nat.leb n (clock s))|];
    cbn; discriminate.
Qed.

(** X4: when a statement that precedes the [try] block fails (reading
    the reference system, normalizing the extent, or opening the first
    connection), [Worker.run] of [utils.py] raises that exception: it
    emits no error signal and closes nothing. The plugin module wraps the
    same statements, so a worker that is not killed reports the failure
    on the error signal and ends normally. *)
Theorem failure_before_try_escapes_utils
    (env : Env) (wu : Utils.Worker) (wp : Plugin.Worker) (e : exn) :
  Download.prelude_fails env (Utils.extent wu) e ->
  Download.prelude_fails env (Plugin.extent wp) e ->
  kill_at env = None ->
  (run_outcome (Utils.run env wu) = Raised e
   /\ Obs.none Obs.is_error (run_trace (Utils.run env wu)) = true
   /\ Obs.none Obs.is_close (run_trace (Utils.run env wu)) = true)
  /\ (run_outcome (Plugin.run env wp) = Normal tt
      /\ exists t, run_trace (Plugin.run env wp)
                   = (t ++ [Error (str_exn e)])%list).
Proof.
  intros Hu Hp Hk. split.
  - change (Wp.wp (Utils.run env wu)
              (fun s o => o = Raised e
                          /\ Obs.none Obs.is_error (trace s) = true
                          /\ Obs.none Obs.is_close (trace s) = true)
              initial).
    unfold Utils.run, Sql.transform_bbox_to_4326.
    destruct Hu as [H1 | [(crs & H1 & H2) | (crs & bbox & H1 & H2 & H3)]];
      try (unfold Spec.normalized in H2;
           destruct (String.eqb crs "EPSG:4326") eqn:Hw; try discriminate H2);
      wp_go; repeat split; reflexivity.
  - change (Wp.wp (Plugin.run env wp)
              (fun s o => o = Normal tt
                          /\ exists t, trace s = (t ++ [Error (str_exn e)])%list)
              initial).
    unfold Plugin.run, Sql.transform_bbox_to_4326.
    destruct Hp as [H1 | [(crs & H1 & H2) | (crs & bbox & H1 & H2 & H3)]];
      try (unfold Spec.normalized in H2;
           destruct (String.eqb crs "EPSG:4326") eqn:Hw; try discriminate H2);
      wp_go_with ltac:(never_killed Hk);
      (split; [reflexivity | eexists; reflexivity]).
Qed.

Lemma failure_before_try_escapes_utils_witness :
  let e := PyExc "IOException" "Cannot open database" in
  let env :=
    {| host_destination_crs := Ok "EPSG:3857";
       host_transform_bbox := fun _ x => Ok x;
       float_str := Sample.show_float;
       bytes_decode := fun b => Ok b;
       eng_connect := fun _ => Some e;
       eng_execute := fun _ => None;
       eng_describe := fun _ => Ok Sample.plain_schema;
       eng_count := fun _ => Ok 5;
       eng_avg := fun _ => Ok None;
       eng_kv_metadata := fun _ => Ok [];
       eng_json_path := fun _ => Ok None;
       eng_commit := None;
       eng_close := None;
       kill_at := None |} in
  run_outcome (Utils.run env (Sample.utils_worker Sample.custom_url "out.gpkg"))
  = Raised e
  /\ run_outcome (Plugin.run env (Sample.plugin_worker Sample.custom_url "out.gpkg"))
     = Normal tt.
Proof.
  intros e env.
  destruct (failure_before_try_escapes_utils env
              (Sample.utils_worker Sample.custom_url "out.gpkg")
              (Sample.plugin_worker Sample.custom_url "out.gpkg") e)
    as [(H1 & _) (H2 & _)].
  - right. right. exists "EPSG:3857", Sample.square. repeat split; reflexivity.
  - right. right. exists "EPSG:3857", Sample.square. repeat split; reflexivity.
  - reflexivity.
  - split; [exact H1 | exact H2].
Defined.
(** ** The statement a download executes *)

Lemma utils_materializes
    (env : Env) (w : Utils.Worker) (crs : string) (bbox : Extent)
    (schema : list (string * string)) :
  host_destination_crs env = Ok crs ->
  Spec.normalized env crs (Utils.extent w) = Ok bbox ->
  Spec.download_setup_ok env (Spec.database_of (Utils.output_file w)) ->
  eng_describe env (Sql.schema_query (Utils.dataset_url w)) = Ok schema ->
  In (Execute
        (Sql.base_query 12 "download_data" (Utils.select_query w schema)
           (Utils.dataset_url w)
           (Sql.where_clause env 16
              (Utils.validation_results w !! "bbox_column") bbox)))
     (run_trace (Utils.run env w)).
Proof.
  intros Hcrs Hn Hs Hd.
  rewrite <- (lookup_insert_ne (Utils.validation_results w)
                "schema" "bbox_column" (PyRows schema)) by discriminate.
  match goal with
  | |- In ?e _ =>
      change (Wp.wp (Utils.run env w) (fun s _ => In e (trace s)) initial)
  end.
  split_setup Hs.
  all: unfold Utils.run; wp_until_try.
  all: apply (FrameRules.wp_try_finally_stable Frame.anything);
    [ apply FrameRules.stable_in
    | unfold Utils.run_cleanup; only_run | ].
  all: apply (FrameRules.wp_try_except_stable Frame.anything);
    [ apply FrameRules.stable_in
    | intros e0; only_run | ].
  all: unfold Utils.run_body; wp_until_count.
  all: first
    [ apply (FrameRules.wp_only_stable Frame.anything);
      [ apply FrameRules.stable_in
      | unfold Utils.estimate_file_size; only_run
      | cbn [trace]; in_trace ]
    | in_trace ].
Qed.

Lemma plugin_materializes
    (env : Env) (w : Plugin.Worker) (crs : string) (bbox : Extent)
    (schema : list (string * string)) :
  host_destination_crs env = Ok crs ->
  Spec.normalized env crs (Plugin.extent w) = Ok bbox ->
  Spec.download_setup_ok env (Spec.database_of (Plugin.output_file w)) ->
  eng_describe env (Sql.schema_query (Plugin.dataset_url w)) = Ok schema ->
  In (Execute
        (Sql.base_query 16 "download_data" (Plugin.select_query w schema)
           (Plugin.dataset_url w)
           (Sql.where_clause env 20
              (Plugin.validation_results w !! "bbox_column") bbox)))
     (run_trace (Plugin.run env w)).
Proof.
  intros Hcrs Hn Hs Hd.
  rewrite <- (lookup_insert_ne (Plugin.validation_results w)
                "schema" "bbox_column" (PyRows schema)) by discriminate.
  match goal with
  | |- In ?e _ =>
      change (Wp.wp (Plugin.run env w) (fun s _ => In e (trace s)) initial)
  end.
  split_setup Hs.
  all: unfold Plugin.run.
  all: apply (FrameRules.wp_try_except_stable Frame.anything);
    [ apply FrameRules.stable_in
    | intros e0; only_run | ].
  all: wp_until_try.
  all: apply (FrameRules.wp_try_finally_stable Frame.anything);
    [ apply FrameRules.stable_in
    | unfold Plugin.run_cleanup; only_run | ].
  all: apply (FrameRules.wp_try_except_stable Frame.anything);
    [ apply FrameRules.stable_in
    | intros e0; unfold Plugin.run_handler; only_run | ].
  all: unfold Plugin.run_body; wp_until_count.
  all: first
    [ apply (FrameRules.wp_only_stable Frame.anything);
      [ apply FrameRules.stable_in
      | only_run
      | cbn [trace]; in_trace ]
    | in_trace ].
Qed.

(** X5: once the engine is set up and has described the dataset,
    [Worker.run] materializes the result with one statement, built from
    the SELECT list of the query builder and from its WHERE clause over
    the normalized extent and the [bbox_column] entry of the validation
    result. This holds on every path the rest of the run may take. *)
Theorem run_materializes_built_query
    (env : Env) (wu : Utils.Worker) (wp : Plugin.Worker)
    (crs : string) (bu bp : Extent) (su sp : list (string * string)) :
  host_destination_crs env = Ok crs ->
  Spec.normalized env crs (Utils.extent wu) = Ok bu ->
  Spec.normalized env crs (Plugin.extent wp) = Ok bp ->
  Spec.download_setup_ok env (Spec.database_of (Utils.output_file wu)) ->
  Spec.download_setup_ok env (Spec.database_of (Plugin.output_file wp)) ->
  eng_describe env (Sql.schema_query (Utils.dataset_url wu)) = Ok su ->
  eng_describe env (Sql.schema_query (Plugin.dataset_url wp)) = Ok sp ->
  In (Execute
        (Sql.base_query 12 "download_data" (Utils.select_query wu su)
           (Utils.dataset_url wu)
           (Sql.where_clause env 16
              (Utils.validation_results wu !! "bbox_column") bu)))
     (run_trace (Utils.run env wu))
  /\ In (Execute
           (Sql.base_query 16 "download_data" (Plugin.select_query wp sp)
              (Plugin.dataset_url wp)
              (Sql.where_clause env 20
                 (Plugin.validation_results wp !! "bbox_column") bp)))
        (run_trace (Plugin.run env wp)).
Proof.
  intros Hcrs Hnu Hnp Hsu Hsp Hdu Hdp. split.
  - exact (utils_materializes env wu crs bu su Hcrs Hnu Hsu Hdu).
  - exact (plugin_materializes env wp crs bp sp Hcrs Hnp Hsp Hdp).
Qed.

Lemma run_materializes_built_query_witness :
  let env := Sample.engine Sample.places_schema [] None 5 None None in
  let wu := Sample.utils_worker Sample.overture_places "out.gpkg" in
  let wp := Sample.plugin_worker Sample.overture_places "out.gpkg" in
  In (Execute
        (Sql.base_query 12 "download_data"
           (Utils.select_query wu Sample.places_schema) Sample.overture_places
           (Sql.where_clause env 16 (Some (PyStr "bbox")) Sample.square)))
     (run_trace (Utils.run env wu))
  /\ In (Execute
           (Sql.base_query 16 "download_data"
              (Plugin.select_query wp Sample.places_schema) Sample.overture_places
              (Sql.where_clause env 20 (Some (PyStr "bbox")) Sample.square)))
        (run_trace (Plugin.run env wp)).
Proof.
  intros env wu wp.
  apply (run_materializes_built_query env wu wp "EPSG:4326"
           Sample.square Sample.square Sample.places_schema Sample.places_schema);
    first [ reflexivity | repeat split; reflexivity ].
Defined.
(** ** The cleanup of a download *)

Lemma none_of_only (q : event -> bool) (l : list event) :
  forallb (fun e => negb (q e)) l = true -> Obs.none q l = true.
Proof. auto. Qed.

(** X6: once the statements before the [try] block have succeeded, the
    connection is closed on every path, whatever the engine answers
    afterwards and whether or not the worker is killed. In [utils.py]
    closing is the last thing a run does, and it is done once; in the
    plugin module only error signals can follow it. *)
Theorem connection_is_always_closed
    (env : Env) (wu : Utils.Worker) (wp : Plugin.Worker) :
  Download.prelude_ok env (Utils.extent wu) ->
  Download.prelude_ok env (Plugin.extent wp) ->
  (exists t, run_trace (Utils.run env wu) = (t ++ [Close])%list
             /\ Obs.none Obs.is_close t = true)
  /\ (exists t l, run_trace (Plugin.run env wp) = (t ++ Close :: l)%list
                  /\ Obs.none Obs.is_close t = true
                  /\ forallb Obs.is_error l = true).
Proof.
  intros (cu & bu & Hcu & Hnu & Hconn) (cp & bp & Hcp & Hnp & _). split.
  - change (Wp.wp (Utils.run env wu)
              (fun s _ => exists t, trace s = (t ++ [Close])%list
                                    /\ Obs.none Obs.is_close t = true)
              initial).
    split_normalized Hnu.
    all: unfold Utils.run, Sql.transform_bbox_to_4326; wp_until_try.
    all: apply WpRules.wp_try_finally.
    all: apply (FrameRules.wp_only (fun e => negb (Obs.is_close e)));
      [ unfold Utils.run_body, Utils.estimate_file_size; only_run |].
    all: intros [t c tn cn] o (l & E & P) C; cbn [trace conn] in E, C;
      rewrite (C eq_refl) in *; subst t; apply none_of_only in P;
      unfold Utils.run_cleanup; wp_go.
    all: eexists; (split; [reflexivity|]).
    all: rewrite ?none_app.
    all: rewrite P; reflexivity.
  - change (Wp.wp (Plugin.run env wp)
              (fun s _ => exists t l, trace s = (t ++ Close :: l)%list
                                      /\ Obs.none Obs.is_close t = true
                                      /\ forallb Obs.is_error l = true)
              initial).
    split_normalized Hnp.
    all: unfold Plugin.run, Sql.transform_bbox_to_4326.
    all: apply WpRules.wp_try_except; wp_until_try.
    all: apply WpRules.wp_try_finally.
    all: apply (FrameRules.wp_only (fun e => negb (Obs.is_close e)));
      [ unfold Plugin.run_body, Plugin.run_handler; only_run |].
    all: intros [t c tn cn] o (l & E & P) C; cbn [trace conn] in E, C;
      rewrite (C eq_refl) in *; subst t; apply none_of_only in P;
      unfold Plugin.run_cleanup; wp_go.
    all: try (destruct o; wp_go).
    all: first
      [ eexists _, []; split; [reflexivity|]
      | eexists _, [_]; split; [rewrite <- app_assoc; reflexivity|] ];
      (split; [rewrite ?none_app, P; reflexivity | reflexivity]).
Qed.

Lemma connection_is_always_closed_witness :
  let env :=
    {| host_destination_crs := Ok "EPSG:4326";
       host_transform_bbox := fun _ x => Ok x;
       float_str := Sample.show_float;
       bytes_decode := fun b => Ok b;
       eng_connect := fun _ => None;
       eng_execute := fun _ => None;
       eng_describe := fun _ => Fails (PyExc "IOException" "HTTP 403");
       eng_count := fun _ => Ok 5;
       eng_avg := fun _ => Ok None;
       eng_kv_metadata := fun _ => Ok [];
       eng_json_path := fun _ => Ok None;
       eng_commit := None;
       eng_close := None;
       kill_at := None |} in
  exists t,
    run_trace (Utils.run env (Sample.utils_worker Sample.custom_url "out.gpkg"))
    = (t ++ [Close])%list
    /\ Obs.none Obs.is_close t = true.
Proof.
  intros env.
  apply (connection_is_always_closed env
           (Sample.utils_worker Sample.custom_url "out.gpkg")
           (Sample.plugin_worker Sample.custom_url "out.gpkg"));
    exists "EPSG:4326", Sample.square; repeat split; reflexivity.
Defined.
(** ** The size estimator, on every answer of the engine *)



(** The estimator as one step of its caller: it adds statements that
    write nothing, and gives 0 or the estimate. *)
Lemma wp_estimate {R} (env : Env) (table : string)
    (Post : state -> outcome R PyFloat.float -> Prop) (s : state) :
  (forall l c mb,
     forallb Download.harmless l = true ->
     (mb = PyFloat.zero
      \/ exists N cols A,
           eng_count env (Sql.count_query table) = Ok N
           /\ eng_describe env ("DESCRIBE " +:+ table) = Ok cols
           /\ eng_avg env (Utils.sample_query table (Z.min 100 N) cols)
              = Ok (Some A)
           /\ Utils.estimate_mb N A = Ok mb) ->
     Post (mkState (trace s ++ l) c (table_name s) (conn s)) (Normal mb)) ->
  Wp.wp (call (Utils.estimate_file_size env table)) Post s.
Proof.
  intros H. destruct s as [t c tn cn]. cbn [trace table_name conn] in H.
  unfold Utils.estimate_file_size.
  wp_run.
  all: rewrite <- ?app_assoc; cbn [app].
  all: apply H; [reflexivity|].
  all: first
    [ left; reflexivity
    | right;
      match goal with
      | Hc : eng_count _ _ = Ok ?N, Hd : eng_describe _ _ = Ok ?cols,
        Ha : eng_avg _ _ = Ok (Some ?A) |- _ =>
          exists N, cols, A; repeat split; assumption
      end ].
Qed.
(** ** The formats of the dispatcher *)

Lemma indifferent_facts (l : list event) :
  forallb Download.indifferent l = true ->
  Obs.none Obs.writes_file l = true
  /\ Obs.none Obs.is_load_layer l = true
  /\ Obs.none Obs.is_finished l = true
  /\ Obs.some (Obs.is_progress_msg Obs.dispatching) l = false.
Proof.
  induction l as [|e l IH]; cbn [forallb]; [repeat split|].
  intros H. apply andb_true_iff in H as [He Hl].
  destruct (IH Hl) as (I1 & I2 & I3 & I4).
  unfold Obs.some, Obs.none in *. cbn [existsb forallb].
  rewrite I1, I2, I3, I4.
  unfold Download.indifferent in He. apply negb_true_iff in He.
  repeat (apply orb_false_iff in He as [He ?]).
  repeat match goal with H : _ = false |- _ => rewrite H; clear H end.
  repeat split.
Qed.

Lemma rejects_stable : Frame.stable Download.indifferent Spec.rejects_format.
Proof.
  intros t l [H1 H2] P. destruct (indifferent_facts l P) as (F1 & F2 & F3 & F4).
  unfold Spec.rejects_format.
  rewrite !some_app, !none_app, F1, F2, F3, F4, orb_false_r, !andb_true_r.
  split; [exact H1|]. intros D. destruct (H2 D) as (E & L & F).
  rewrite E. auto.
Qed.

Lemma falls_through_facts (out : string) (suffixes : list string) :
  Download.falls_through out suffixes ->
  String.eqb (Obs.file_extension out) "duckdb" = false
  /\ String.eqb (Obs.file_extension out) "parquet" = false
  /\ PyStr.endswith ".duckdb" (PyStr.lower out) = false
  /\ forall suffix, In suffix suffixes -> PyStr.endswith suffix out = false.
Proof.
  intros (H1 & H2 & H3). repeat split; try assumption.
  - apply (not_suffix_of_extension "duckdb"); [reflexivity | reflexivity | assumption].
  - intros suffix Hin. rewrite forallb_forall in H3.
    apply negb_true_iff. now apply H3.
Qed.

Lemma refused_stable : Frame.stable Download.indifferent Download.refused.
Proof.
  intros t l (H1 & H2 & H3) P.
  destruct (indifferent_facts l P) as (F1 & F2 & F3 & F4).
  unfold Download.refused.
  rewrite !some_app, !none_app, F1, F2, F3, F4, orb_false_r, !andb_true_r.
  repeat split; try assumption; destruct (H3 H) as [Hf Hr]; [exact Hf|].
  apply orb_true_iff in Hr as [E|E]; rewrite E; cbn;
    [reflexivity | apply orb_true_r].
Qed.

Ltac refused_leaf :=
  unfold Download.refused;
  split; [reflexivity|]; split; [reflexivity|];
  first [ refute_premise | intros _; split; reflexivity ].

(** A destination that falls through the tests of the dispatcher. *)
Lemma utils_falls_through_refused (env : Env) (w : Utils.Worker) :
  Download.falls_through (Utils.output_file w) [".gpkg"; ".fgb"; ".geojson"] ->
  Download.refused (run_trace (Utils.run env w)).
Proof.
  intros H. apply falls_through_facts in H as (F1 & F2 & F3 & F).
  pose proof (F ".gpkg" (or_introl eq_refl)) as F4.
  pose proof (F ".fgb" (or_intror (or_introl eq_refl))) as F5.
  pose proof (F ".geojson" (or_intror (or_intror (or_introl eq_refl)))) as F6.
  clear F. unfold Obs.file_extension in *.
  change (Wp.wp (Utils.run env w)
            (fun s _ => Download.refused (trace s)) initial).
  unfold Utils.run. wp_until_try.
  all: try solve [refused_leaf].
  all: apply (FrameRules.wp_try_finally_stable Download.indifferent);
    [ exact refused_stable | unfold Utils.run_cleanup; only_run |].
  all: apply (FrameRules.wp_try_except_stable Download.indifferent);
    [ exact refused_stable | intros e0; only_run |].
  all: unfold Utils.run_body, Utils.estimate_file_size.
  all: wp_go.
  all: refused_leaf.
Qed.

Lemma plugin_falls_through_refused (env : Env) (w : Plugin.Worker) :
  Download.falls_through (Plugin.output_file w) [".gpkg"; ".fgb"] ->
  Download.refused (run_trace (Plugin.run env w)).
Proof.
  intros H. apply falls_through_facts in H as (F1 & F2 & F3 & F).
  pose proof (F ".gpkg" (or_introl eq_refl)) as F4.
  pose proof (F ".fgb" (or_intror (or_introl eq_refl))) as F5.
  clear F. unfold Obs.file_extension in *.
  change (Wp.wp (Plugin.run env w)
            (fun s _ => Download.refused (trace s)) initial).
  unfold Plugin.run.
  apply (FrameRules.wp_try_except_stable Download.indifferent);
    [ exact refused_stable | intros e0; only_run |].
  wp_until_try.
  all: try solve [refused_leaf].
  all: apply (FrameRules.wp_try_finally_stable Download.indifferent);
    [ exact refused_stable | unfold Plugin.run_cleanup; only_run |].
  all: unfold Plugin.run_body, Plugin.run_handler.
  all: apply WpRules.wp_try_except.
  all: wp_go.
  all: first [ absurd_message | refused_leaf ].
Qed.

Lemma plugin_unsupported_falls_through (out : string) :
  Download.plugin_supported (Obs.file_extension out) = false ->
  Download.falls_through out [".gpkg"; ".fgb"].
Proof.
  unfold Download.plugin_supported, Download.plugin_formats. cbn [existsb].
  intros H.
  repeat (apply orb_false_iff in H as [? H]).
  repeat split; try assumption. cbn [forallb].
  rewrite (proj1 (not_suffix_of_extension "gpkg" out eq_refl eq_refl
                    ltac:(assumption))).
  rewrite (proj1 (not_suffix_of_extension "fgb" out eq_refl eq_refl
                    ltac:(assumption))).
  reflexivity.
Qed.

(** X8: the dispatcher of the plugin module writes four formats only:
    duckdb, parquet, gpkg and fgb. Any other destination, [.geojson]
    included, is rejected as an unsupported format and nothing is written.
    The rejection does not end the method: the statement that follows
    reads a variable that was never assigned, so a worker that is not
    killed emits a second error signal for the same download. *)
Theorem plugin_writes_four_formats (env : Env) (w : Plugin.Worker) :
  Download.plugin_supported (Obs.file_extension (Plugin.output_file w)) = false ->
  let t := run_trace (Plugin.run env w) in
  Spec.rejects_format t
  /\ (kill_at env = None ->
      Obs.some (Obs.is_progress_msg Obs.dispatching) t = true ->
      (2 <= length (Download.errors t))%nat).
Proof.
  intros H t. subst t.
  apply plugin_unsupported_falls_through in H.
  apply falls_through_facts in H as (F1 & F2 & F3 & F).
  pose proof (F ".gpkg" (or_introl eq_refl)) as F4.
  pose proof (F ".fgb" (or_intror (or_introl eq_refl))) as F5.
  clear F. unfold Obs.file_extension in *.
  split.
  - change (Wp.wp (Plugin.run env w)
              (fun s _ => Spec.rejects_format (trace s)) initial).
    unfold Plugin.run.
    apply (FrameRules.wp_try_except_stable Download.indifferent);
      [ exact rejects_stable | intros e0; only_run |].
    wp_until_try.
    all: try solve [rejects_leaf].
    all: apply (FrameRules.wp_try_finally_stable Download.indifferent);
      [ exact rejects_stable | unfold Plugin.run_cleanup; only_run |].
    all: unfold Plugin.run_body, Plugin.run_handler.
    all: apply WpRules.wp_try_except.
    all: wp_go.
    all: rejects_leaf.
  - intros Hk.
    change (Wp.wp (Plugin.run env w)
              (fun s _ =>
                 Obs.some (Obs.is_progress_msg Obs.dispatching) (trace s) = true ->
                 (2 <= length (Download.errors (trace s)))%nat)
              initial).
    unfold_plugin. rewrite F1, F2, F3, F4, F5.
    wp_run_with ltac:(never_killed Hk).
    all: first
      [ absurd_message
      | refute_premise
      | intros _; cbn [Download.errors List.filter app Obs.is_error length]; lia ].
Qed.

Lemma plugin_writes_four_formats_witness :
  let env := Sample.engine Sample.places_schema [] None 5 None None in
  let t := run_trace (Plugin.run env
                        (Sample.plugin_worker Sample.overture_places "out.geojson")) in
  Obs.supported (Obs.file_extension "out.geojson") = true
  /\ Spec.rejects_format t
  /\ (2 <= length (Download.errors t))%nat.
Proof.
  intros env t. split; [reflexivity|].
  destruct (plugin_writes_four_formats env
              (Sample.plugin_worker Sample.overture_places "out.geojson"))
    as [H1 H2]; [reflexivity|].
  split; [exact H1 | apply H2; reflexivity].
Defined.

(** X9: the extension is matched without regard to letter case for
    DuckDB and Parquet only. A destination written [.GPKG] or [.FGB] (in
    [utils.py] also [.GeoJSON]) has a supported extension, yet it falls
    through the tests that choose the GDAL driver: nothing is written, no
    layer is loaded and completion is not signalled; the run ends on the
    report of an unsupported format, or for a large [.GeoJSON] on the
    size warning. *)
Theorem extension_case_matters
    (env : Env) (wu : Utils.Worker) (wp : Plugin.Worker) :
  Download.falls_through (Utils.output_file wu) [".gpkg"; ".fgb"; ".geojson"] ->
  Download.falls_through (Plugin.output_file wp) [".gpkg"; ".fgb"] ->
  Download.refused (run_trace (Utils.run env wu))
  /\ Download.refused (run_trace (Plugin.run env wp)).
Proof.
  intros Hu Hp. split.
  - now apply utils_falls_through_refused.
  - now apply plugin_falls_through_refused.
Qed.

Lemma extension_case_matters_witness :
  let env := Sample.engine Sample.places_schema [] None 5 None None in
  let tu := run_trace (Utils.run env
                         (Sample.utils_worker Sample.overture_places "out.GPKG")) in
  Obs.supported (Obs.file_extension "out.GPKG") = true
  /\ Obs.some (Obs.is_error_msg "Unsupported file format.") tu = true
  /\ Download.refused tu.
Proof.
  intros env tu. split; [reflexivity|]. split; [reflexivity|].
  apply (extension_case_matters env
           (Sample.utils_worker Sample.overture_places "out.GPKG")
           (Sample.plugin_worker Sample.overture_places "out.GPKG"));
    repeat split; reflexivity.
Defined.
(** ** The size warning of a GeoJSON export *)

Lemma harmless_facts (l : list event) :
  forallb Download.harmless l = true ->
  Obs.some Obs.is_size_warning l = false
  /\ Obs.none Obs.writes_file l = true
  /\ Obs.none Obs.is_finished l = true
  /\ Obs.none Obs.is_load_layer l = true.
Proof.
  induction l as [|e l IH]; cbn [forallb]; [repeat split|].
  intros H. apply andb_true_iff in H as [He Hl].
  destruct (IH Hl) as (I1 & I2 & I3 & I4).
  unfold Obs.some, Obs.none in *. cbn [existsb forallb].
  rewrite I1, I2, I3, I4.
  unfold Download.harmless in He. apply negb_true_iff in He.
  repeat (apply orb_false_iff in He as [He ?]).
  repeat match goal with H : _ = false |- _ => rewrite H; clear H end.
  repeat split.
Qed.

Lemma gated_stable : Frame.stable Download.harmless Download.gated.
Proof.
  intros t l H P. destruct (harmless_facts l P) as (F1 & F2 & F3 & F4).
  unfold Download.gated in *.
  rewrite some_app, !none_app, F1, F2, F3, F4, orb_false_r, !andb_true_r.
  exact H.
Qed.

(** The end of a path. *)
Ltac gate_leaf :=
  unfold Download.gated;
  first [ refute_premise | intros _; repeat split; reflexivity ].

Lemma geojson_extension (out : string) :
  PyStr.endswith ".geojson" (PyStr.lower out) = true ->
  PyStr.endswith ".duckdb" (PyStr.lower out) = false
  /\ String.eqb (PyStr.last_item (PyStr.split "." (PyStr.lower out))) "duckdb"
     = false
  /\ String.eqb (PyStr.last_item (PyStr.split "." (PyStr.lower out))) "parquet"
     = false.
Proof.
  intros H.
  pose proof (last_item_of_suffix "geojson" _ eq_refl H) as E.
  split; [|rewrite E; split; reflexivity].
  destruct (PyStr.endswith ".duckdb" (PyStr.lower out)) eqn:D; [|reflexivity].
  rewrite (last_item_of_suffix "duckdb" _ eq_refl D) in E. discriminate E.
Qed.

(** X10: when [Worker.run] of [utils.py] raises the size warning, the
    export does not take place: on every path that emits
    [file_size_warning], nothing is copied or committed, no layer is
    loaded and [finished] is not emitted. *)
Theorem size_warning_stops_export (env : Env) (w : Utils.Worker) :
  Download.gated (run_trace (Utils.run env w)).
Proof.
  destruct (PyStr.endswith ".geojson" (PyStr.lower (Utils.output_file w)))
    eqn:Hg.
  - destruct (geojson_extension _ Hg) as (Hd & Hx1 & Hx2).
    change (Wp.wp (Utils.run env w)
              (fun s _ => Download.gated (trace s)) initial).
    unfold Utils.run. wp_until_try.
    all: try solve [gate_leaf].
    all: apply (FrameRules.wp_try_finally_stable Download.harmless);
      [ exact gated_stable | unfold Utils.run_cleanup; only_run |].
    all: apply (FrameRules.wp_try_except_stable Download.harmless);
      [ exact gated_stable | intros e0; only_run |].
    all: unfold Utils.run_body, Utils.estimate_file_size.
    all: wp_go.
    all: gate_leaf.
  - assert (H : Obs.none Obs.is_size_warning (run_trace (Utils.run env w)) = true).
    { never Obs.is_size_warning. unfold_utils. only_run. }
    intros W. unfold Obs.none in H. unfold Obs.some in W.
    exfalso. clear Hg.
    induction (run_trace (Utils.run env w)) as [|e t IH]; [discriminate W|].
    cbn [existsb forallb] in *.
    apply andb_true_iff in H as [He Ht].
    apply orb_true_iff in W as [W|W]; [rewrite W in He; discriminate He|].
    exact (IH Ht W).
Qed.

Lemma size_warning_stops_export_witness :
  let env := Sample.engine Sample.plain_schema [] None 30000000
               (Some Sample.bytes_200) None in
  let t := run_trace (Utils.run env
                        (Sample.utils_worker Sample.custom_url "out.geojson")) in
  Obs.some Obs.is_size_warning t = true
  /\ Obs.none Obs.writes_file t = true
  /\ Obs.none Obs.is_finished t = true.
Proof.
  intros env t.
  assert (W : Obs.some Obs.is_size_warning t = true) by reflexivity.
  destruct (size_warning_stops_export env
              (Sample.utils_worker Sample.custom_url "out.geojson") W)
    as (H1 & H2 & _).
  repeat split; assumption.
Defined.
(** ** The detector, beyond malformed metadata *)

Lemma scan_metadata_app (env : Env) (l1 l2 : list kv_row) (s : state) :
  ValidationWorker.scan_metadata env (l1 ++ l2) s
  = bind (ValidationWorker.scan_metadata env l1)
         (fun _ => ValidationWorker.scan_metadata env l2) s.
Proof.
  revert s. induction l1 as [|row l1 IH]; intros s; [reflexivity|].
  cbn [app ValidationWorker.scan_metadata].
  match goal with |- bind ?h _ s = _ => generalize h end.
  intros head. unfold bind.
  destruct (head s) as [s1 [a|r|e]]; [|reflexivity..].
  rewrite IH. reflexivity.
Qed.

Lemma wp_scan_metadata_app (env : Env) (l1 l2 : list kv_row)
    (Post : state -> outcome (option string) unit -> Prop) (s : state) :
  Wp.wp (bind (ValidationWorker.scan_metadata env l1)
              (fun _ => ValidationWorker.scan_metadata env l2)) Post s ->
  Wp.wp (ValidationWorker.scan_metadata env (l1 ++ l2)) Post s.
Proof. unfold Wp.wp. now rewrite scan_metadata_app. Qed.

Lemma scan_metadata_only (p : event -> bool) (env : Env) (rows : list kv_row) :
  (forall q, p (Execute q) = true) ->
  Frame.only p (ValidationWorker.scan_metadata env rows).
Proof.
  intros Hp. induction rows as [|row rows IH];
    cbn [ValidationWorker.scan_metadata]; [apply FrameRules.only_ret|].
  unfold ValidationWorker.probe_geo.
  apply FrameRules.only_bind; [|intros _; exact IH].
  repeat lazymatch goal with
         | |- Frame.only _ (Py.execute _ _) =>
             apply FrameRules.only_execute; apply Hp
         | |- Frame.only _ (Py.json_path _ _ _) =>
             apply FrameRules.only_json_path; apply Hp
         | _ => only_step
         end.
Qed.

(** The probe that finds a name, from any state. *)
Lemma check_bbox_metadata_finds
    (env : Env) (dataset_url : string) (pre post : list kv_row) (row : kv_row)
    (name : string) (s : state) :
  eng_kv_metadata env (Sql.metadata_query dataset_url)
  = Ok (pre ++ row :: post)%list ->
  Spec.all_fruitless env pre = true ->
  kv_key row = "geo" ->
  Detect.yields env (kv_value row) name ->
  eng_execute env "DROP TABLE IF EXISTS temp_json" = None ->
  Wp.wp (ValidationWorker.check_bbox_metadata env dataset_url)
    (fun s' o =>
       Wp.extended s s'
       /\ o = Returned (Some (PyStr.strip (ascii_of_nat 34) name)))
    s.
Proof.
  intros Hkv Hpre Hkey (d & Hdec & Hi & Hl & Hc & Hj & Ht) Hdrop.
  unfold Spec.create_temp_json in Hc.
  destruct s as [t c tn cn].
  unfold ValidationWorker.check_bbox_metadata.
  wp_next. wp_next. wp_next.
  apply wp_scan_metadata_app. wp_next.
  eapply WpRules.wp_mono; [|apply scan_metadata_spec]. cbv beta.
  intros s' o [Hext Hout]. rewrite (Hout Hpre Hdrop). unfold Wp.after.
  assert (Hext' : Wp.extended (mkState t c tn cn) s').
  { eapply extended_trans; [|exact Hext]. extended_leaf. }
  clear Hext. destruct s' as [t' c' tn' cn'].
  cbn [ValidationWorker.scan_metadata]. rewrite Hkey, String.eqb_refl.
  unfold ValidationWorker.probe_geo.
  wp_go. split; [|reflexivity].
  eapply extended_trans; [exact Hext'|]. extended_leaf.
Qed.

(** X11: the first [geo] blob that yields a column name decides. When the
    blobs before it yield none, [check_bbox_metadata] returns the name
    found under [covering], stripped of its double quotes; the rows after
    it are not examined. *)
Theorem detector_reads_covering_column
    (env : Env) (dataset_url : string) (pre post : list kv_row) (row : kv_row)
    (name : string) :
  eng_kv_metadata env (Sql.metadata_query dataset_url)
  = Ok (pre ++ row :: post)%list ->
  Spec.all_fruitless env pre = true ->
  kv_key row = "geo" ->
  Detect.yields env (kv_value row) name ->
  eng_execute env "DROP TABLE IF EXISTS temp_json" = None ->
  run_outcome (call (R' := unit)
                 (ValidationWorker.check_bbox_metadata env dataset_url))
  = Normal (Some (PyStr.strip (ascii_of_nat 34) name)).
Proof.
  intros Hkv Hpre Hkey Hy Hdrop.
  pose proof (check_bbox_metadata_finds env dataset_url pre post row name
                initial Hkv Hpre Hkey Hy Hdrop) as H.
  unfold Wp.wp in H. destruct H as [_ H].
  unfold run_outcome, call.
  destruct (ValidationWorker.check_bbox_metadata env dataset_url initial)
    as [s1 o]. cbn [snd] in *. now subst o.
Qed.

Lemma detector_reads_covering_column_witness :
  let rows := [mkKv "ARROW:schema" "x"; mkKv "geo" "{}"; mkKv "geo" "{...}"] in
  let env :=
    {| host_destination_crs := Ok "EPSG:4326";
       host_transform_bbox := fun _ x => Ok x;
       float_str := Sample.show_float;
       bytes_decode := fun b => Ok b;
       eng_connect := fun _ => None;
       eng_execute := fun _ => None;
       eng_describe := fun _ => Ok Sample.plain_schema;
       eng_count := fun _ => Ok 5;
       eng_avg := fun _ => Ok None;
       eng_kv_metadata := fun _ => Ok rows;
       eng_json_path := fun doc =>
         if String.eqb doc "{}" then Ok (Some None)
         else Ok (Some (Some (dq +:+ "geometry_bbox" +:+ dq)));
       eng_commit := None;
       eng_close := None;
       kill_at := None |} in
  run_outcome (call (R' := unit)
                 (ValidationWorker.check_bbox_metadata env Sample.custom_url))
  = Normal (Some "geometry_bbox").
Proof.
  intros rows env.
  apply (detector_reads_covering_column env Sample.custom_url
           [mkKv "ARROW:schema" "x"; mkKv "geo" "{}"] [] (mkKv "geo" "{...}")
           (dq +:+ "geometry_bbox" +:+ dq)).
  - reflexivity.
  - reflexivity.
  - reflexivity.
  - exists "{...}". repeat split; reflexivity.
  - reflexivity.
Defined.

(** X12: the third step of the detector, end to end. For a dataset that
    needs validation and whose schema has no standard bbox column, a name
    found in the metadata is reported on [finished] with success, as
    [bbox_column] of a result whose [has_bbox] is true; no warning is
    raised. *)
Theorem validation_reports_metadata_column
    (presets : ValidationWorker.Catalogue) (env : Env) (dataset_url : string)
    (schema : list (string * string)) (pre post : list kv_row) (row : kv_row)
    (name : string) :
  ValidationWorker.needs_validation presets dataset_url = true ->
  Spec.setup_ok env ->
  eng_describe env (Sql.schema_query dataset_url) = Ok schema ->
  ValidationWorker.has_standard_bbox schema = false ->
  eng_kv_metadata env (Sql.metadata_query dataset_url)
  = Ok (pre ++ row :: post)%list ->
  Spec.all_fruitless env pre = true ->
  kv_key row = "geo" ->
  Detect.yields env (kv_value row) name ->
  eng_execute env "DROP TABLE IF EXISTS temp_json" = None ->
  PyStr.truthy (PyStr.strip (ascii_of_nat 34) name) = true ->
  let t := run_trace (ValidationWorker.run presets env dataset_url) in
  In (ValidationFinished true "Validation successful"
        (<["bbox_column" := PyStr (PyStr.strip (ascii_of_nat 34) name)]>
           (<["has_bbox" := PyBool true]>
              ({[ "schema" := PyRows schema;
                  "has_bbox" := PyBool false;
                  "bbox_column" := PyNone ]} : gmap string pyval)))) t
  /\ Obs.none Obs.is_bbox_warning t = true.
Proof.
  intros Hnv (Hc & H1 & H2 & H3 & H4) Hdesc Hstd Hkv Hpre Hkey Hy Hdrop Hname t.
  subst t.
  match goal with
  | |- In ?e _ /\ _ =>
      change (Wp.wp (ValidationWorker.run presets env dataset_url)
                (fun s _ => In e (trace s)
                            /\ Obs.none Obs.is_bbox_warning (trace s) = true)
                initial)
  end.
  unfold ValidationWorker.run, ValidationWorker.run_body.
  rewrite Hnv.
  wp_go_with lookups.
  eapply WpRules.wp_mono;
    [|apply (check_bbox_metadata_finds env dataset_url pre post row name);
      assumption]; cbv beta.
  intros [t' c' tn' cn'] o [(l & E & Ql & T & C) ->].
  cbn [trace table_name conn] in E, T, C; subst t' tn' cn'.
  wp_go_with lookups.
  all: destruct (quiet_is_not Obs.is_bbox_warning l (fun _ => eq_refl) Ql)
         as [Hw _].
  all: (split; [in_trace|]).
  all: rewrite ?none_app, Hw; reflexivity.
Qed.

Lemma validation_reports_metadata_column_witness :
  let rows := [mkKv "ARROW:schema" "x"; mkKv "geo" "{...}"] in
  let env :=
    Sample.engine Sample.plain_schema rows
      (Some (Some (dq +:+ "geometry_bbox" +:+ dq))) 5 None None in
  let t := run_trace (ValidationWorker.run Plugin.PRESET_DATASETS env
                        Sample.custom_url) in
  exists results,
    In (ValidationFinished true "Validation successful" results) t
    /\ results !! "bbox_column" = Some (PyStr "geometry_bbox").
Proof.
  intros rows env t.
  destruct (validation_reports_metadata_column Plugin.PRESET_DATASETS env
              Sample.custom_url Sample.plain_schema
              [mkKv "ARROW:schema" "x"] [] (mkKv "geo" "{...}")
              (dq +:+ "geometry_bbox" +:+ dq)) as [H _];
    try reflexivity.
  - repeat split; reflexivity.
  - exists "{...}". repeat split; reflexivity.
  - eexists. split; [exact H | reflexivity].
Defined.
(** ** The validation worker at its edges *)

(** X13: when the connection cannot be opened, [ValidationWorker.run]
    reports the failure on [finished] and then raises: its [finally]
    block closes a connection that was never bound. *)
Theorem validation_without_connection_raises
    (presets : ValidationWorker.Catalogue) (env : Env) (dataset_url : string)
    (e : exn) :
  eng_connect env None = Some e ->
  run_trace (ValidationWorker.run presets env dataset_url)
  = [ Progress "Connecting to data source..."; Connect None;
      ValidationFinished false ("Error validating source: " +:+ str_exn e) ∅ ]
  /\ exists msg,
       run_outcome (ValidationWorker.run presets env dataset_url)
       = Raised (PyExc "UnboundLocalError" msg).
Proof.
  intros Hc.
  change (Wp.wp (ValidationWorker.run presets env dataset_url)
            (fun s o =>
               trace s
               = [ Progress "Connecting to data source..."; Connect None;
                   ValidationFinished false
                     ("Error validating source: " +:+ str_exn e) ∅ ]
               /\ exists msg, o = Raised (PyExc "UnboundLocalError" msg))
            initial).
  unfold ValidationWorker.run, ValidationWorker.run_body.
  wp_go. split; [reflexivity | eexists; reflexivity].
Qed.

Lemma validation_without_connection_raises_witness :
  let e := PyExc "IOException" "Cannot open database" in
  let env :=
    {| host_destination_crs := Ok "EPSG:4326";
       host_transform_bbox := fun _ x => Ok x;
       float_str := Sample.show_float;
       bytes_decode := fun b => Ok b;
       eng_connect := fun _ => Some e;
       eng_execute := fun _ => None;
       eng_describe := fun _ => Ok Sample.plain_schema;
       eng_count := fun _ => Ok 5;
       eng_avg := fun _ => Ok None;
       eng_kv_metadata := fun _ => Ok [];
       eng_json_path := fun _ => Ok None;
       eng_commit := None;
       eng_close := None;
       kill_at := None |} in
  Obs.some Spec.is_failure
    (run_trace (ValidationWorker.run Plugin.PRESET_DATASETS env Sample.custom_url))
  = true
  /\ exists msg,
       run_outcome (ValidationWorker.run Plugin.PRESET_DATASETS env
                      Sample.custom_url)
       = Raised (PyExc "UnboundLocalError" msg).
Proof.
  intros e env.
  destruct (validation_without_connection_raises Plugin.PRESET_DATASETS env
              Sample.custom_url e) as [H1 H2]; [reflexivity|].
  split; [rewrite H1; reflexivity | exact H2].
Defined.

(** X14: once the connection is open, [ValidationWorker.run] closes it on
    every path: after the short-circuit for a preset, after the warning,
    after a success and after a failure alike. Closing is the last thing
    the run does, and it is done once. *)
Theorem validation_closes_connection
    (presets : ValidationWorker.Catalogue) (env : Env) (dataset_url : string) :
  eng_connect env None = None ->
  exists t,
    run_trace (ValidationWorker.run presets env dataset_url)
    = (t ++ [Close])%list
    /\ Obs.none Obs.is_close t = true.
Proof.
  intros Hc.
  change (Wp.wp (ValidationWorker.run presets env dataset_url)
            (fun s _ => exists t, trace s = (t ++ [Close])%list
                                  /\ Obs.none Obs.is_close t = true)
            initial).
  unfold ValidationWorker.run.
  apply WpRules.wp_try_finally, WpRules.wp_try_except.
  unfold ValidationWorker.run_body.
  wp_next. wp_next. wp_next. wp_next.
  apply (FrameRules.wp_only (fun e => negb (Obs.is_close e))).
  { unfold ValidationWorker.check_bbox_metadata. only_run.
    apply scan_metadata_only. reflexivity. }
  intros [t c tn cn] o (l & E & P) C; cbn [trace conn] in E, C.
  rewrite (C eq_refl) in *; subst t; apply none_of_only in P.
  destruct o; wp_go.
  all: eexists; (split; [reflexivity|]); rewrite ?none_app, P; reflexivity.
Qed.

Lemma validation_closes_connection_witness :
  let env := Sample.engine_bad_geo Sample.plain_schema [mkKv "geo" "{"] in
  exists t,
    run_trace (ValidationWorker.run Plugin.PRESET_DATASETS env Sample.custom_url)
    = (t ++ [Close])%list
    /\ Obs.some Obs.is_bbox_warning t = true.
Proof.
  intros env.
  destruct (validation_closes_connection Plugin.PRESET_DATASETS env
              Sample.custom_url) as (t & H1 & H2); [reflexivity|].
  exists t. split; [exact H1|].
  assert (E : t = removelast (run_trace (ValidationWorker.run
                                           Plugin.PRESET_DATASETS env
                                           Sample.custom_url))).
  { rewrite H1. symmetry. apply removelast_last. }
  rewrite E. reflexivity.
Defined.

(** X15: the detector does not leave its temporary table behind. From
    any state, if scanning the metadata rows executed anything at all,
    the last statement it executed is the one that drops [temp_json]:
    the [finally] of every probe runs also when the probe returns a name
    or fails. *)
Theorem probe_always_drops_temp_table
    (env : Env) (rows : list kv_row) (s : state) :
  let s' := fst (ValidationWorker.scan_metadata env rows s) in
  (existsb Detect.is_geo rows = false /\ trace s' = trace s)
  \/ (existsb Detect.is_geo rows = true
      /\ exists l, trace s' = ((trace s ++ l) ++ [Detect.drop_temp_json])%list).
Proof.
  cbv zeta.
  change (Wp.wp (ValidationWorker.scan_metadata env rows)
            (fun s' _ =>
               (existsb Detect.is_geo rows = false /\ trace s' = trace s)
               \/ (existsb Detect.is_geo rows = true
                   /\ exists l,
                        trace s' = ((trace s ++ l) ++ [Detect.drop_temp_json])%list))
            s).
  revert s. induction rows as [|row rows IH]; intros s.
  - left. split; reflexivity.
  - cbn [ValidationWorker.scan_metadata existsb]. unfold Detect.is_geo at 1 3.
    destruct (String.eqb (kv_key row) "geo"); cbn [orb].
    + apply WpRules.wp_bind, WpRules.wp_try_finally.
      apply (FrameRules.wp_only Frame.anything).
      { unfold ValidationWorker.probe_geo. only_run. }
      intros [t c tn cn] o (l & E & _) _. cbn [trace] in E. subst t.
      destruct s as [t0 c0 tn0 cn0]. cbn [trace].
      wp_step.
      * destruct o as [[]|r|e]; unfold Wp.after.
        -- eapply WpRules.wp_mono; [|apply IH]. cbv beta. cbn [trace].
           intros s2 _ [[_ H2]|[_ (l2 & H2)]]; right; (split; [reflexivity|]).
           ++ exists l. exact H2.
           ++ exists ((l ++ [Detect.drop_temp_json]) ++ l2)%list.
              rewrite H2. unfold Detect.drop_temp_json.
              now rewrite !app_assoc.
        -- right. split; [reflexivity|]. exists l. reflexivity.
        -- right. split; [reflexivity|]. exists l. reflexivity.
      * right. split; [reflexivity|]. exists l. reflexivity.
    + apply WpRules.wp_bind, WpRules.wp_ret. unfold Wp.after. apply IH.
Qed.
(** ** The dialog *)

Lemma base_urls_in (d : Dialog.DataSourceDialog) (template : string)
    (subtypes urls : list string) (u : string) :
  Dialog.base_urls d template subtypes = Some urls -> In u urls ->
  exists subtype, In subtype subtypes
                  /\ Text.format_subtype template subtype = Some u.
Proof.
  revert urls. induction subtypes as [|st rest IH]; intros urls; simpl.
  - intros [= <-] [].
  - destruct (Dialog.subtype_checked d st).
    + destruct (Text.format_subtype template st) as [v|] eqn:F; [|discriminate].
      destruct (Dialog.base_urls d template rest) as [vs|]; [|discriminate].
      intros [= <-] [<-|Hin].
      * exists st. auto.
      * destruct (IH vs eq_refl Hin) as (x & Hx & Fx). exists x. auto.
    + intros H Hin. destruct (IH urls H Hin) as (x & Hx & Fx). exists x. auto.
Qed.

Lemma base_urls_total (d : Dialog.DataSourceDialog) (template : string)
    (subtypes : list string) :
  (forall subtype, In subtype subtypes ->
     Text.format_subtype template subtype <> None) ->
  Dialog.base_urls d template subtypes <> None.
Proof.
  induction subtypes as [|st rest IH]; simpl; [discriminate|].
  intros H. specialize (IH (fun x Hx => H x (or_intror Hx))).
  destruct (Dialog.subtype_checked d st); [|exact IH].
  pose proof (H st (or_introl eq_refl)).
  destruct (Text.format_subtype template st); [|contradiction].
  destruct (Dialog.base_urls d template rest); [discriminate | contradiction].
Qed.

Lemma all_urls_in (d : Dialog.DataSourceDialog) (themes urls : list string)
    (u : string) :
  Dialog.all_urls d themes = Some urls -> In u urls ->
  exists theme us, In theme themes
                   /\ Dialog.theme_urls d theme = Some us /\ In u us.
Proof.
  revert urls. induction themes as [|th rest IH]; intros urls; simpl.
  - intros [= <-] [].
  - destruct (Dialog.theme_urls d th) as [us|] eqn:T; [|discriminate].
    destruct (Dialog.all_urls d rest) as [vs|]; [|discriminate].
    intros [= <-] Hin. apply in_app_or in Hin as [Hin|Hin].
    + exists th, us. auto.
    + destruct (IH vs eq_refl Hin) as (x & xs & Hx & Tx & Ix).
      exists x, xs. auto.
Qed.

Lemma all_urls_total (d : Dialog.DataSourceDialog) (themes : list string) :
  (forall theme, In theme themes -> Dialog.theme_urls d theme <> None) ->
  Dialog.all_urls d themes <> None.
Proof.
  induction themes as [|th rest IH]; simpl; [discriminate|].
  intros H. specialize (IH (fun x Hx => H x (or_intror Hx))).
  pose proof (H th (or_introl eq_refl)).
  destruct (Dialog.theme_urls d th); [|contradiction].
  destruct (Dialog.all_urls d rest); [discriminate | contradiction].
Qed.

(** What is shown for each URL of an Overture selection. *)
Ltac pick_label :=
  let rec go l :=
    lazymatch l with
    | ?x :: ?r =>
        first [ exists x; split; [vm_compute; tauto | reflexivity] | go r ]
    end in
  let ls := eval vm_compute in Main.labels in
  go ls.

Ltac ready_url Ho :=
  split; [vm_compute; reflexivity|];
  intros current_date; unfold Main.filename; rewrite Ho;
  pick_label.

(** X16: an Overture selection is ready to download. Whatever boxes are
    checked, [get_urls] does not fail on the catalogue, and every URL it
    returns is recognized by [needs_validation] as a preset that needs
    none, and gets a proposed file name [overture_<theme>_<date>.parquet]
    (for a subtype of base, [overture_base_<subtype>_<date>.parquet]):
    parsing the theme and the type back out of the URL never fails. *)
Theorem overture_selection_is_ready (d : Dialog.DataSourceDialog) :
  Dialog.custom_radio d = false ->
  Dialog.overture_radio d = true ->
  Dialog.get_urls d <> None
  /\ forall urls u,
       Dialog.get_urls d = Some urls -> In u urls ->
       ValidationWorker.needs_validation Plugin.PRESET_DATASETS u = false
       /\ forall current_date,
            exists label,
              In label Main.labels
              /\ Main.filename d u current_date
                 = Some ("overture_" +:+ label +:+ "_" +:+ current_date
                           +:+ ".parquet").
Proof.
  intros Hc Ho. unfold Dialog.get_urls. rewrite Hc, Ho. split.
  - apply all_urls_total. intros theme Hin. unfold Dialog.theme_urls.
    destruct (Dialog.theme_checked d theme); [|discriminate].
    vm_compute in Hin.
    repeat (destruct Hin as [<-|Hin]; [try (vm_compute; discriminate)|]);
      [|contradiction].
    apply base_urls_total. intros st Hst.
    vm_compute in Hst.
    repeat (destruct Hst as [<-|Hst]; [vm_compute; discriminate|]).
    contradiction.
  - intros urls u Hall Hin.
    destruct (all_urls_in d _ _ u Hall Hin) as (theme & us & Hth & Hus & Hu).
    unfold Dialog.theme_urls in Hus.
    destruct (Dialog.theme_checked d theme);
      [|injection Hus as <-; contradiction].
    vm_compute in Hth.
    repeat (destruct Hth as [<-|Hth];
            [try (vm_compute in Hus; injection Hus as <-;
                  destruct Hu as [<-|[]]; ready_url Ho)|]);
      [|contradiction].
    change (Dialog.base_urls d
              "s3://overturemaps-us-west-2/release/2025-01-22.0/theme=base/type={subtype}/*"
              Dialog.subtypes = Some us) in Hus.
    destruct (base_urls_in d _ _ _ u Hus Hu) as (st & Hst & Hf).
    vm_compute in Hst.
    repeat (destruct Hst as [<-|Hst];
            [vm_compute in Hf; injection Hf as <-; ready_url Ho|]).
    contradiction.
Qed.

Lemma overture_selection_is_ready_witness :
  let d :=
    Dialog.mkDialog false true false false EmptyString
      (fun theme => (String.eqb theme "places" || String.eqb theme "base")%bool)
      (fun subtype => String.eqb subtype "water")
      EmptyString EmptyString in
  let water :=
    "s3://overturemaps-us-west-2/release/2025-01-22.0/theme=base/type=water/*" in
  Dialog.get_urls d = Some [Sample.overture_places; water]
  /\ ValidationWorker.needs_validation Plugin.PRESET_DATASETS water = false
  /\ exists label,
       In label Main.labels
       /\ Main.filename d water "20250301_120000"
          = Some ("overture_" +:+ label +:+ "_" +:+ "20250301_120000"
                    +:+ ".parquet").
Proof.
  intros d water. split; [reflexivity|].
  destruct (overture_selection_is_ready d eq_refl eq_refl) as [_ H].
  destruct (H [Sample.overture_places; water] water eq_refl
              (or_intror (or_introl eq_refl))) as [H1 H2].
  split; [exact H1 | exact (H2 "20250301_120000")].
Defined.

(** X17: the destinations are collected all or nothing. When the loop of
    [run] hands a queue to [process_download_queue], the queue has one
    entry per selected URL, in the order of the selection, each with the
    non-empty destination the user chose for it; if the user cancels the
    save dialog of any URL, the loop ends without a queue, also for the
    URLs whose destination was already chosen. *)
Theorem destinations_are_all_or_nothing
    (d : Dialog.DataSourceDialog) (save_dialog : string -> string -> string)
    (clock : nat -> string) (urls : list string) :
  (forall download_queue,
     Main.collect d save_dialog clock 0 urls [] = Main.Queue download_queue ->
     map fst download_queue = urls
     /\ forallb (fun entry => PyStr.truthy (snd entry)) download_queue = true)
  /\ (forall n url name,
        nth_error urls n = Some url ->
        Main.filename d url (clock n) = Some name ->
        save_dialog url name = EmptyString ->
        forall download_queue,
          Main.collect d save_dialog clock 0 urls [] <> Main.Queue download_queue).
Proof.
  assert (G1 : forall urls n q0 q,
             Main.collect d save_dialog clock n urls q0 = Main.Queue q ->
             map fst q = (map fst q0 ++ urls)%list
             /\ (forallb (fun entry => PyStr.truthy (snd entry)) q0 = true ->
                 forallb (fun entry => PyStr.truthy (snd entry)) q = true)).
  { clear urls. induction urls as [|url rest IH]; intros n q0 q; simpl.
    - intros [= <-]. rewrite app_nil_r. auto.
    - destruct (Main.filename d url (clock n)) as [name|]; [|discriminate].
      destruct (PyStr.truthy (save_dialog url name)) eqn:T; [|discriminate].
      intros H. destruct (IH _ _ _ H) as [H1 H2]. split.
      + rewrite H1, map_app, <- app_assoc. reflexivity.
      + intros Hq. apply H2. rewrite forallb_app, Hq. simpl. now rewrite T. }
  assert (G2 : forall urls k n q0 url name,
             nth_error urls k = Some url ->
             Main.filename d url (clock (n + k)%nat) = Some name ->
             save_dialog url name = EmptyString ->
             forall q, Main.collect d save_dialog clock n urls q0
                       <> Main.Queue q).
  { clear urls. induction urls as [|u rest IH]; intros k n q0 url name Hk Hf Hs q.
    - destruct k; discriminate Hk.
    - destruct k as [|k]; simpl in *.
      + injection Hk as ->. rewrite Nat.add_0_r in Hf. rewrite Hf, Hs.
        discriminate.
      + destruct (Main.filename d u (clock n)) as [nm|]; [|discriminate].
        destruct (PyStr.truthy (save_dialog u nm)); [|discriminate].
        apply (IH k (S n) _ url name Hk); [|exact Hs].
        now rewrite Nat.add_succ_comm. }
  split.
  - intros q H. destruct (G1 urls 0%nat [] q H) as [H1 H2].
    split; [exact H1 | now apply H2].
  - intros n url name Hn Hf Hs q. now apply (G2 urls n 0%nat [] url name).
Qed.

Lemma destinations_are_all_or_nothing_witness :
  let d :=
    Dialog.mkDialog false true false false EmptyString
      (fun _ => true) (fun _ => false) EmptyString EmptyString in
  let accepts := fun (url name : string) => "/tmp/" +:+ name in
  let cancels := fun (url name : string) =>
    if PyStr.contains "theme=places" url then EmptyString else "/tmp/" +:+ name in
  let stamp := fun _ : nat => "20250301_120000" in
  let urls := [Sample.overture_addresses; Sample.overture_places] in
  let full :=
    [ (Sample.overture_addresses,
       "/tmp/overture_addresses_20250301_120000.parquet");
      (Sample.overture_places,
       "/tmp/overture_places_20250301_120000.parquet") ] in
  Main.collect d accepts stamp 0 urls [] = Main.Queue full
  /\ map fst full = urls
  /\ Main.collect d cancels stamp 0 urls [] = Main.Aborted
  /\ Main.collect d cancels stamp 0 urls [] <> Main.Queue full.
Proof.
  intros d accepts cancels stamp urls full.
  split; [reflexivity|]. split; [|split; [reflexivity|]].
  - destruct (destinations_are_all_or_nothing d accepts stamp urls) as [H _].
    exact (proj1 (H full eq_refl)).
  - destruct (destinations_are_all_or_nothing d cancels stamp urls) as [_ H].
    apply (H 1%nat Sample.overture_places
             "overture_places_20250301_120000.parquet");
      reflexivity.
Defined.

(** The search of a list of the catalogue for a display name. *)
Ltac by_display_name src selection :=
  unfold Dialog.url_of, Dialog.selected;
  let l := eval vm_compute in (Dialog.source src) in
  change (Dialog.source src) with l;
  cbn [find fst snd];
  repeat match goal with
         | |- context [Dialog.display_name ?k] =>
             let v := eval vm_compute in (Dialog.display_name k) in
             change (Dialog.display_name k) with v
         end;
  cbv beta iota;
  repeat match goal with
         | |- context [String.eqb ?n selection] =>
             destruct (String.eqb n selection)
         end;
  cbn [option_map snd ValidationWorker.url];
  (split; [discriminate|]);
  let urls := fresh "urls" in
  intros urls [= <-];
  first
    [ now left
    | right;
      lazymatch goal with
      | |- exists dataset u', [?u] = [u'] /\ _ =>
          first
            [ exists (Plugin.located u false), u; split; [reflexivity|];
              split; [vm_compute; tauto|]; split; vm_compute; reflexivity
            | exists (Plugin.located u true), u; split; [reflexivity|];
              split; [vm_compute; tauto|]; split; vm_compute; reflexivity ]
      end ].

Lemma url_of_resolves (src selection : string) :
  In src ["source_cooperative"; "other"] ->
  Dialog.url_of src selection <> None
  /\ forall urls,
       Dialog.url_of src selection = Some urls ->
       urls = []
       \/ exists dataset u,
            urls = [u]
            /\ In dataset (Spec.entries Plugin.PRESET_DATASETS)
            /\ ValidationWorker.url dataset = Some u
            /\ ValidationWorker.needs_validation Plugin.PRESET_DATASETS u
               = ValidationWorker.get_needs_validation dataset.
Proof.
  intros [<-|[<-|[]]].
  - by_display_name "source_cooperative" selection.
  - by_display_name "other" selection.
Qed.

(** X18: a dataset picked from a list resolves to its own catalogue
    entry. For the Source Cooperative and Hugging Face lists, [get_urls]
    does not fail; it returns nothing when the text of the combo box
    names no dataset, and otherwise the one URL of the dataset with that
    display name, for which [needs_validation] answers with the flag of
    that very entry: no earlier entry of the catalogue captures it. *)
Theorem listed_selection_resolves (d : Dialog.DataSourceDialog) :
  Dialog.custom_radio d = false ->
  Dialog.overture_radio d = false ->
  Dialog.get_urls d <> None
  /\ forall urls,
       Dialog.get_urls d = Some urls ->
       urls = []
       \/ exists dataset u,
            urls = [u]
            /\ In dataset (Spec.entries Plugin.PRESET_DATASETS)
            /\ ValidationWorker.url dataset = Some u
            /\ ValidationWorker.needs_validation Plugin.PRESET_DATASETS u
               = ValidationWorker.get_needs_validation dataset.
Proof.
  intros Hc Ho. unfold Dialog.get_urls. rewrite Hc, Ho.
  destruct (Dialog.sourcecoop_radio d).
  - apply url_of_resolves. now left.
  - destruct (Dialog.other_radio d).
    + apply url_of_resolves. right. now left.
    + split; [discriminate|]. intros urls [= <-]. now left.
Qed.

Lemma listed_selection_resolves_witness :
  let d :=
    Dialog.mkDialog false false true false EmptyString
      (fun _ => false) (fun _ => false)
      "NHD Flowlines (experimental)" EmptyString in
  let nhd := "https://data.source.coop/cholmes/nhd/NHDFlowline.parquet" in
  Dialog.get_urls d = Some [nhd]
  /\ ValidationWorker.needs_validation Plugin.PRESET_DATASETS nhd = true
  /\ Dialog.get_urls d <> None.
Proof.
  intros d nhd. split; [reflexivity|]. split; [reflexivity|].
  apply (listed_selection_resolves d); reflexivity.
Defined.
(** ** The download queue *)

(** X19: the queue is processed one download at a time, in order, and it
    advances on [finished] only. The [i]-th worker started is the one of
    the [i]-th entry; a worker is started only if the one before it
    emitted [finished], and if a worker emits [finished] while entries
    remain, the next one is started. A download that ends on the error
    signal alone therefore leaves the rest of the queue unprocessed. *)
Theorem queue_advances_on_finished
    (world : nat -> Env) (extent : Extent)
    (download_queue : list (string * string)) (n : nat) :
  let ts := Main.process_download_queue world n download_queue extent in
  (forall i t,
     nth_error ts i = Some t ->
     exists url output_file,
       nth_error download_queue i = Some (url, output_file)
       /\ t = run_trace (Plugin.run (world (n + i)%nat)
                           (Main.queue_worker url extent output_file)))
  /\ (forall i t,
        nth_error ts i = Some t -> (S i < length ts)%nat ->
        Obs.some Obs.is_finished t = true)
  /\ (forall i t,
        nth_error ts i = Some t -> Obs.some Obs.is_finished t = true ->
        (S i < length download_queue)%nat -> (S i < length ts)%nat).
Proof.
  cbv zeta. revert n.
  induction download_queue as [|[url out] rest IH]; intros n.
  - repeat split; intros i t H; destruct i; discriminate H.
  - cbn [Main.process_download_queue].
    set (t0 := run_trace (Plugin.run (world n)
                            (Main.queue_worker url extent out))).
    destruct (IH (S n)) as (IH1 & IH2 & IH3).
    destruct (Obs.some Obs.is_finished t0) eqn:F.
    + repeat split.
      * intros [|i] t H; cbn [nth_error] in *.
        -- injection H as <-. exists url, out. rewrite Nat.add_0_r. auto.
        -- destruct (IH1 i t H) as (u & o & Hq & Ht). exists u, o.
           rewrite <- Nat.add_succ_comm. auto.
      * intros [|i] t H L; cbn [nth_error length] in *.
        -- now injection H as <-.
        -- apply (IH2 i t H). lia.
      * intros [|i] t H Hf L; cbn [nth_error length] in *.
        -- destruct rest as [|[u o] rest']; cbn [length] in L; [lia|].
           cbn [Main.process_download_queue length]. lia.
        -- pose proof (IH3 i t H Hf). lia.
    + repeat split.
      * intros [|i] t H; cbn [nth_error] in *.
        -- injection H as <-. exists url, out. rewrite Nat.add_0_r. auto.
        -- destruct i; discriminate H.
      * intros [|i] t H L; cbn [nth_error length] in *; [lia|].
        destruct i; discriminate H.
      * intros [|i] t H Hf L; cbn [nth_error length] in *.
        -- injection H as <-. congruence.
        -- destruct i; discriminate H.
Qed.

Lemma queue_advances_on_finished_witness :
  let failing :=
    {| host_destination_crs := Ok "EPSG:4326";
       host_transform_bbox := fun _ x => Ok x;
       float_str := Sample.show_float;
       bytes_decode := fun b => Ok b;
       eng_connect := fun _ => None;
       eng_execute := fun _ => None;
       eng_describe := fun _ => Fails (PyExc "IOException" "HTTP 403");
       eng_count := fun _ => Ok 5;
       eng_avg := fun _ => Ok None;
       eng_kv_metadata := fun _ => Ok [];
       eng_json_path := fun _ => Ok None;
       eng_commit := None;
       eng_close := None;
       kill_at := None |} in
  let ok := Sample.engine Sample.places_schema [] None 5 None None in
  let world := fun n => match n with 1%nat => failing | _ => ok end in
  let download_queue :=
    [ (Sample.overture_places, "a.parquet");
      (Sample.overture_addresses, "b.parquet");
      (Sample.custom_url, "c.parquet") ] in
  let ts := Main.process_download_queue world 0 download_queue Sample.square in
  length ts = 2%nat
  /\ exists t, nth_error ts 0 = Some t /\ Obs.some Obs.is_finished t = true.
Proof.
  intros failing ok world download_queue ts.
  assert (L : length ts = 2%nat) by reflexivity.
  split; [exact L|].
  destruct (nth_error ts 0) as [t|] eqn:E; [|discriminate E].
  exists t. split; [reflexivity|].
  destruct (queue_advances_on_finished world Sample.square download_queue 0)
    as (_ & H & _).
  apply (H 0%nat t E). fold ts. rewrite L. lia.
Defined.

(** X20: whatever the dataset, a download started from the queue filters
    on the column named [bbox]. [process_download_queue] gives every
    worker the same validation result, so once the engine is set up and
    has described the dataset, the statement that materializes the result
    has the range filter on ["bbox".xmin] and ["bbox".ymin] as its WHERE
    clause, also for a custom URL and for a preset that needs
    validation. *)
Theorem queued_download_filters_on_bbox
    (env : Env) (url output_file crs : string) (extent bbox : Extent)
    (schema : list (string * string)) :
  host_destination_crs env = Ok crs ->
  Spec.normalized env crs extent = Ok bbox ->
  Spec.download_setup_ok env (Spec.database_of output_file) ->
  eng_describe env (Sql.schema_query url) = Ok schema ->
  let w := Main.queue_worker url extent output_file in
  In (Execute
        (Sql.base_query 16 "download_data" (Plugin.select_query w schema) url
           (Spec.where_text env 20 (Spec.range_filter "bbox" bbox))))
     (run_trace (Plugin.run env w)).
Proof.
  intros Hcrs Hn Hs Hd w.
  pose proof (plugin_materializes env w crs bbox schema Hcrs Hn Hs Hd) as H.
  replace (Spec.where_text env 20 (Spec.range_filter "bbox" bbox))
    with (Sql.where_clause env 20
            (Plugin.validation_results w !! "bbox_column") bbox);
    [exact H|].
  change (Plugin.validation_results w !! "bbox_column")
    with (Some (PyStr "bbox")).
  unfold Sql.where_clause, Spec.where_text, Spec.range_filter.
  cbn [truthy PyStr.truthy format Spec.render].
  rewrite !append_assoc. reflexivity.
Qed.

Lemma queued_download_filters_on_bbox_witness :
  let env := Sample.engine Sample.plain_schema [] None 5 None None in
  let w := Main.queue_worker Sample.custom_url Sample.square "out.gpkg" in
  ValidationWorker.needs_validation Plugin.PRESET_DATASETS Sample.custom_url = true
  /\ In (Execute
           (Sql.base_query 16 "download_data"
              (Plugin.select_query w Sample.plain_schema) Sample.custom_url
              (Spec.where_text env 20 (Spec.range_filter "bbox" Sample.square))))
        (run_trace (Plugin.run env w)).
Proof.
  intros env w. split; [reflexivity|].
  apply (queued_download_filters_on_bbox env Sample.custom_url "out.gpkg"
           "EPSG:4326" Sample.square Sample.square Sample.plain_schema);
    first [ reflexivity | repeat split; reflexivity ].
Defined.
(** ** Completion is signalled once *)

Lemma completions_app (a b : list event) :
  Download.completions (a ++ b)
  = (Download.completions a + Download.completions b)%nat.
Proof.
  unfold Download.completions. now rewrite List.filter_app, length_app.
Qed.

Lemma completions_none (l : list event) :
  forallb (fun e => negb (Obs.is_finished e)) l = true ->
  Download.completions l = 0%nat.
Proof.
  unfold Download.completions.
  induction l as [|e l IH]; cbn [forallb List.filter]; [reflexivity|].
  intros H. apply andb_true_iff in H as [He Hl].
  apply negb_true_iff in He. rewrite He. now apply IH.
Qed.

Lemma at_most_once_stable :
  Frame.stable (fun e => negb (Obs.is_finished e))
    (fun t => (Download.completions t <= 1)%nat).
Proof.
  intros t l H P. rewrite completions_app, (completions_none l P). lia.
Qed.

Ltac once_leaf :=
  unfold Download.completions;
  cbn [List.filter app Obs.is_finished length]; lia.

(** X21: a run signals completion at most once, in both modules and on
    every path, so the slot that starts the next download of the queue is
    called at most once per worker. *)
Theorem finished_is_emitted_at_most_once
    (env : Env) (wu : Utils.Worker) (wp : Plugin.Worker) :
  (Download.completions (run_trace (Utils.run env wu)) <= 1)%nat
  /\ (Download.completions (run_trace (Plugin.run env wp)) <= 1)%nat.
Proof.
  split.
  - change (Wp.wp (Utils.run env wu)
              (fun s _ => (Download.completions (trace s) <= 1)%nat) initial).
    unfold Utils.run. wp_until_try.
    all: try solve [once_leaf].
    all: apply (FrameRules.wp_try_finally_stable
                  (fun e => negb (Obs.is_finished e))
                  (fun t => (Download.completions t <= 1)%nat));
      [ exact at_most_once_stable | unfold Utils.run_cleanup; only_run |].
    all: apply (FrameRules.wp_try_except_stable
                  (fun e => negb (Obs.is_finished e))
                  (fun t => (Download.completions t <= 1)%nat));
      [ exact at_most_once_stable | intros e0; only_run |].
    all: unfold Utils.run_body.
    all: repeat lazymatch goal with
           | |- Wp.wp (Py.call (Utils.estimate_file_size _ _)) _ _ =>
               apply (FrameRules.wp_only (fun e => negb (Obs.is_finished e)));
               [ unfold Utils.estimate_file_size; only_run
               | let o := fresh "o" in
                 let t := fresh "t" in
                 let E := fresh "E" in
                 let P := fresh "P" in
                 intros [t ? ? ?] o (? & E & P) _; cbn [trace] in E; subst t;
                 apply completions_none in P; destruct o ]; wp_reduce
           | _ => wp_next
           end.
    all: rewrite ?completions_app;
      repeat match goal with H : Download.completions _ = 0%nat |- _ =>
               rewrite H; clear H end;
      once_leaf.
  - change (Wp.wp (Plugin.run env wp)
              (fun s _ => (Download.completions (trace s) <= 1)%nat) initial).
    unfold Plugin.run.
    apply (FrameRules.wp_try_except_stable
             (fun e => negb (Obs.is_finished e))
             (fun t => (Download.completions t <= 1)%nat));
      [ exact at_most_once_stable | intros e0; only_run |].
    wp_until_try.
    all: try solve [once_leaf].
    all: apply (FrameRules.wp_try_finally_stable
                  (fun e => negb (Obs.is_finished e))
                  (fun t => (Download.completions t <= 1)%nat));
      [ exact at_most_once_stable | unfold Plugin.run_cleanup; only_run |].
    all: unfold Plugin.run_body, Plugin.run_handler; wp_go.
    all: once_leaf.
Qed.
(** ** Downloads that meet no obstacle *)

(** Answers of an obliging engine. *)
Ltac oblige Hc He :=
  try match goal with
      | H : eng_execute _ _ = Some _ |- _ => rewrite He in H; discriminate H
      | H : eng_connect _ _ = Some _ |- _ => rewrite Hc in H; discriminate H
      end.

Lemma nonzero_rows (n : Z) : n <> 0 -> (n =? 0) = false.
Proof. intros H. now apply Z.eqb_neq. Qed.

Ltac well H :=
  let Hc := fresh "Hc" in
  let He := fresh "He" in
  let Hm := fresh "Hm" in
  let Hcl := fresh "Hcl" in
  let Hk := fresh "Hk" in
  let Hz := fresh "Hz" in
  destruct H as ((Hc & He & Hm & Hcl & Hk)
                 & (? & ? & ? & ?) & (? & ?) & ? & Hz);
  apply nonzero_rows in Hz; unfold Z.eqb in Hz.



Lemma gpkg_extension (out : string) :
  PyStr.endswith ".gpkg" out = true ->
  PyStr.endswith ".duckdb" (PyStr.lower out) = false
  /\ PyStr.endswith ".geojson" (PyStr.lower out) = false
  /\ String.eqb (PyStr.last_item (PyStr.split "." (PyStr.lower out))) "duckdb"
     = false
  /\ String.eqb (PyStr.last_item (PyStr.split "." (PyStr.lower out))) "parquet"
     = false.
Proof.
  intros H.
  pose proof (extension_of_suffix "gpkg" out eq_refl eq_refl H) as E.
  unfold Obs.file_extension in E.
  assert (N : forall ext, PyStr.split "." ext = [ext] -> ext <> "gpkg" ->
                PyStr.endswith (String "." ext) (PyStr.lower out) = false).
  { intros ext Hs Hne.
    destruct (PyStr.endswith (String "." ext) (PyStr.lower out)) eqn:D;
      [|reflexivity].
    rewrite (last_item_of_suffix ext _ Hs D) in E. congruence. }
  repeat split; try (rewrite E; reflexivity).
  - apply (N "duckdb"); [reflexivity | discriminate].
  - apply (N "geojson"); [reflexivity | discriminate].
Qed.

(** X23: a GeoPackage export that meets no obstacle. Both modules copy
    the table to the destination through GDAL, which is the only write;
    they ask the host to load the file and only then emit [finished]; the
    table is dropped and the connection closed afterwards. [utils.py]
    states the reference system of the output, the plugin module does
    not. *)
Theorem geopackage_export_goes_through_gdal
    (env : Env) (wu : Utils.Worker) (wp : Plugin.Worker) (rows : Z) :
  Download.goes_well env (Utils.extent wu) (Utils.dataset_url wu) rows ->
  Download.goes_well env (Plugin.extent wp) (Plugin.dataset_url wp) rows ->
  PyStr.endswith ".gpkg" (Utils.output_file wu) = true ->
  PyStr.endswith ".gpkg" (Plugin.output_file wp) = true ->
  let tu := run_trace (Utils.run env wu) in
  let tp := run_trace (Plugin.run env wp) in
  (Download.last_events 5 tu
   = [ Download.copy_statement (Utils.output_file wu)
         "(FORMAT GDAL, DRIVER 'GPKG', SRS 'EPSG:4326');";
       LoadLayer (Utils.output_file wu); Finished;
       Download.drop_download_data; Close ]
   /\ List.filter Obs.writes_file tu
      = [ Download.copy_statement (Utils.output_file wu)
            "(FORMAT GDAL, DRIVER 'GPKG', SRS 'EPSG:4326');" ])
  /\ (Download.last_events 5 tp
      = [ Download.copy_statement (Plugin.output_file wp)
            "(FORMAT GDAL, DRIVER 'GPKG');";
          LoadLayer (Plugin.output_file wp); Finished;
          Download.drop_download_data; Close ]
      /\ List.filter Obs.writes_file tp
         = [ Download.copy_statement (Plugin.output_file wp)
               "(FORMAT GDAL, DRIVER 'GPKG');" ]).
Proof.
  intros Hu Hp Gu Gp tu tp. subst tu tp.
  destruct (gpkg_extension _ Gu) as (U1 & U2 & U3 & U4).
  destruct (gpkg_extension _ Gp) as (P1 & P2 & P3 & P4).
  split.
  - clear Hp. well Hu.
    change (Wp.wp (Utils.run env wu)
              (fun s _ =>
                 Download.last_events 5 (trace s)
                 = [ Download.copy_statement (Utils.output_file wu)
                       "(FORMAT GDAL, DRIVER 'GPKG', SRS 'EPSG:4326');";
                     LoadLayer (Utils.output_file wu); Finished;
                     Download.drop_download_data; Close ]
                 /\ List.filter Obs.writes_file (trace s)
                    = [ Download.copy_statement (Utils.output_file wu)
                          "(FORMAT GDAL, DRIVER 'GPKG', SRS 'EPSG:4326');" ])
              initial).
    unfold Utils.run, Utils.run_body, Utils.run_cleanup.
    wp_go_with ltac:(oblige Hc He; never_killed Hk).
    split; reflexivity.
  - clear Hu. well Hp.
    change (Wp.wp (Plugin.run env wp)
              (fun s _ =>
                 Download.last_events 5 (trace s)
                 = [ Download.copy_statement (Plugin.output_file wp)
                       "(FORMAT GDAL, DRIVER 'GPKG');";
                     LoadLayer (Plugin.output_file wp); Finished;
                     Download.drop_download_data; Close ]
                 /\ List.filter Obs.writes_file (trace s)
                    = [ Download.copy_statement (Plugin.output_file wp)
                          "(FORMAT GDAL, DRIVER 'GPKG');" ])
              initial).
    unfold Plugin.run, Plugin.run_body, Plugin.run_handler, Plugin.run_cleanup.
    wp_go_with ltac:(oblige Hc He; never_killed Hk).
    split; reflexivity.
Qed.

Lemma geopackage_export_goes_through_gdal_witness :
  let env := Sample.engine Sample.places_schema [] None 5 None None in
  List.filter Obs.writes_file
    (run_trace (Plugin.run env
                  (Sample.plugin_worker Sample.overture_places "out.gpkg")))
  = [ Download.copy_statement "out.gpkg" "(FORMAT GDAL, DRIVER 'GPKG');" ].
Proof.
  intros env.
  apply (geopackage_export_goes_through_gdal env
           (Sample.utils_worker Sample.overture_places "out.gpkg")
           (Sample.plugin_worker Sample.overture_places "out.gpkg") 5);
    try reflexivity.
  all: repeat split; try reflexivity; try discriminate.
  all: first [ exists "EPSG:4326", Sample.square; split; reflexivity
             | exists Sample.places_schema; reflexivity ].
Defined.

Lemma other_extensions (ext out : string) :
  PyStr.last_item (PyStr.split "." (PyStr.lower out)) = ext ->
  forall other, PyStr.split "." other = [other] -> other <> ext ->
    PyStr.endswith (String "." other) (PyStr.lower out) = false.
Proof.
  intros E other Hs Hne.
  destruct (PyStr.endswith (String "." other) (PyStr.lower out)) eqn:D;
    [|reflexivity].
  rewrite (last_item_of_suffix other _ Hs D) in E. congruence.
Qed.

Lemma select_entry_not_star (row : string * string) (rest : string) :
  Sql.select_entry row +:+ rest <> "*".
Proof.
  unfold Sql.select_entry.
  destruct (PyStr.contains "STRUCT" (PyStr.upper (snd row))
            || PyStr.contains "MAP" (PyStr.upper (snd row)))%bool;
    [discriminate|].
  destruct (PyStr.contains "[]" (snd row)); [discriminate|].
  destruct (String.eqb (PyStr.upper (snd row)) "UTINYINT"); discriminate.
Qed.

Lemma select_list_not_star (schema : list (string * string)) :
  "SELECT " +:+ PyStr.join ", " (map Sql.select_entry schema) <> "SELECT *".
Proof.
  intros H. change "SELECT *" with ("SELECT " +:+ "*") in H.
  apply append_cancel_l in H.
  destruct schema as [|row rest]; [discriminate H|].
  unfold PyStr.join in H. cbn [map String.concat] in H.
  destruct (map Sql.select_entry rest).
  - apply (select_entry_not_star row EmptyString).
    rewrite <- H. clear H.
    induction (Sql.select_entry row) as [|c s IH]; [reflexivity|].
    cbn. now rewrite IH.
  - now apply select_entry_not_star in H.
Qed.

(** X24: a destination written [.PARQUET] is a Parquet file by its
    extension, which is compared in lower case, but not for the test that
    keeps [SELECT *], which compares the path as it is written. The
    columns are therefore coerced as for the other formats, and the
    coerced table is what the Parquet COPY writes. *)
Theorem uppercase_parquet_gets_coerced_columns
    (env : Env) (wu : Utils.Worker) (wp : Plugin.Worker) (rows : Z) :
  Download.goes_well env (Utils.extent wu) (Utils.dataset_url wu) rows ->
  Download.goes_well env (Plugin.extent wp) (Plugin.dataset_url wp) rows ->
  Obs.file_extension (Utils.output_file wu) = "parquet" ->
  Obs.file_extension (Plugin.output_file wp) = "parquet" ->
  PyStr.endswith ".parquet" (Utils.output_file wu) = false ->
  PyStr.endswith ".parquet" (Plugin.output_file wp) = false ->
  (forall schema,
     Utils.select_query wu schema <> "SELECT *"
     /\ Plugin.select_query wp schema <> "SELECT *")
  /\ List.filter Obs.writes_file (run_trace (Utils.run env wu))
     = [ Download.copy_statement (Utils.output_file wu)
           "(FORMAT 'parquet', COMPRESSION 'ZSTD');" ]
  /\ List.filter Obs.writes_file (run_trace (Plugin.run env wp))
     = [ Download.copy_statement (Plugin.output_file wp)
           "(FORMAT 'parquet', COMPRESSION 'ZSTD');" ].
Proof.
  intros Hu Hp Xu Xp Cu Cp. unfold Obs.file_extension in *.
  pose proof (other_extensions _ _ Xu "duckdb" eq_refl ltac:(discriminate)) as U1.
  pose proof (other_extensions _ _ Xu "geojson" eq_refl ltac:(discriminate)) as U2.
  pose proof (other_extensions _ _ Xp "duckdb" eq_refl ltac:(discriminate)) as P1.
  split; [|split].
  - intros schema. split.
    + unfold Utils.select_query, Utils.process_schema_columns.
      rewrite Cu. cbn [negb].
      destruct (PyStr.contains "overture" (Utils.dataset_url wu));
        [discriminate | apply select_list_not_star].
    + unfold Plugin.select_query. rewrite Cp. cbn [negb].
      destruct (PyStr.contains "overture" (Plugin.dataset_url wp)
                && existsb (fun row => PyStr.contains "names" (fst row)) schema)%bool;
        [discriminate | apply select_list_not_star].
  - clear Hp. well Hu.
    change (Wp.wp (Utils.run env wu)
              (fun s _ =>
                 List.filter Obs.writes_file (trace s)
                 = [ Download.copy_statement (Utils.output_file wu)
                       "(FORMAT 'parquet', COMPRESSION 'ZSTD');" ])
              initial).
    unfold Utils.run, Utils.run_body, Utils.run_cleanup.
    rewrite Xu. change (String.eqb "parquet" "duckdb") with false.
    change (String.eqb "parquet" "parquet") with true.
    wp_go_with ltac:(oblige Hc He; never_killed Hk).
    reflexivity.
  - clear Hu. well Hp.
    change (Wp.wp (Plugin.run env wp)
              (fun s _ =>
                 List.filter Obs.writes_file (trace s)
                 = [ Download.copy_statement (Plugin.output_file wp)
                       "(FORMAT 'parquet', COMPRESSION 'ZSTD');" ])
              initial).
    unfold Plugin.run, Plugin.run_body, Plugin.run_handler, Plugin.run_cleanup.
    rewrite Xp. change (String.eqb "parquet" "duckdb") with false.
    change (String.eqb "parquet" "parquet") with true.
    wp_go_with ltac:(oblige Hc He; never_killed Hk).
    reflexivity.
Qed.

Lemma uppercase_parquet_gets_coerced_columns_witness :
  let env := Sample.engine Sample.places_schema [] None 5 None None in
  let wu := Sample.utils_worker Sample.overture_places "out.PARQUET" in
  Utils.select_query wu Sample.places_schema <> "SELECT *"
  /\ List.filter Obs.writes_file (run_trace (Utils.run env wu))
     = [ Download.copy_statement "out.PARQUET"
           "(FORMAT 'parquet', COMPRESSION 'ZSTD');" ].
Proof.
  intros env wu.
  destruct (uppercase_parquet_gets_coerced_columns env wu
              (Sample.plugin_worker Sample.overture_places "out.PARQUET") 5)
    as (H1 & H2 & _); try reflexivity.
  1-2: repeat split; try reflexivity; try discriminate;
       first [ exists "EPSG:4326", Sample.square; split; reflexivity
             | exists Sample.places_schema; reflexivity ].
  split; [exact (proj1 (H1 Sample.places_schema)) | exact H2].
Defined.

Lemma harmless_quiet (l : list event) :
  forallb Download.harmless l = true ->
  forallb (fun e => negb (Obs.is_size_warning e)) l = true
  /\ List.filter Obs.writes_file l = [].
Proof.
  induction l as [|e l IH]; cbn [forallb List.filter]; [now split|].
  intros H. apply andb_true_iff in H as [He Hl]. destruct (IH Hl) as [I1 I2].
  unfold Download.harmless in He. apply negb_true_iff in He.
  repeat (apply orb_false_iff in He as [He ?]).
  repeat match goal with H : _ = false |- _ => rewrite H; clear H end.
  now rewrite I1, I2.
Qed.

Lemma geojson_suffix (out : string) :
  PyStr.endswith ".geojson" out = true ->
  PyStr.endswith ".geojson" (PyStr.lower out) = true
  /\ PyStr.endswith ".duckdb" (PyStr.lower out) = false
  /\ PyStr.endswith ".gpkg" out = false
  /\ PyStr.endswith ".fgb" out = false
  /\ String.eqb (PyStr.last_item (PyStr.split "." (PyStr.lower out))) "duckdb"
     = false
  /\ String.eqb (PyStr.last_item (PyStr.split "." (PyStr.lower out))) "parquet"
     = false.
Proof.
  intros H.
  pose proof (endswith_lower _ _ H) as L. change (PyStr.lower ".geojson")
    with ".geojson" in L.
  pose proof (last_item_of_suffix "geojson" _ eq_refl L) as E.
  pose proof (last_item_of_suffix "geojson" _ eq_refl H) as E'.
  assert (N : forall other, PyStr.split "." other = [other] ->
                other <> "geojson" ->
                PyStr.endswith (String "." other) out = false).
  { intros other Hs Hne.
    destruct (PyStr.endswith (String "." other) out) eqn:D; [|reflexivity].
    rewrite (last_item_of_suffix other _ Hs D) in E'. congruence. }
  split; [exact L|].
  split; [apply (other_extensions _ _ E "duckdb"); [reflexivity | discriminate]|].
  split; [apply (N "gpkg"); [reflexivity | discriminate]|].
  split; [apply (N "fgb"); [reflexivity | discriminate]|].
  rewrite E. split; reflexivity.
Qed.

(** X25: a GeoJSON export whose estimate does not exceed the threshold is
    not gated. On a download that meets no obstacle, for whatever the
    engine answers to the estimator, [utils.py] raises no size warning,
    copies the table through the GeoJSON driver, and loads the layer
    before it emits [finished]. *)
Theorem modest_geojson_export_is_not_gated
    (env : Env) (w : Utils.Worker) (rows : Z) :
  Download.goes_well env (Utils.extent w) (Utils.dataset_url w) rows ->
  PyStr.endswith ".geojson" (Utils.output_file w) = true ->
  (forall cols A mb,
     eng_describe env ("DESCRIBE " +:+ "download_data") = Ok cols ->
     eng_avg env (Utils.sample_query "download_data" (Z.min 100 rows) cols)
     = Ok (Some A) ->
     Utils.estimate_mb rows A = Ok mb ->
     PyFloat.gt_int mb Utils.size_threshold = false) ->
  let t := run_trace (Utils.run env w) in
  Obs.none Obs.is_size_warning t = true
  /\ List.filter Obs.writes_file t
     = [ Download.copy_statement (Utils.output_file w)
           "(FORMAT GDAL, DRIVER 'GeoJSON', SRS 'EPSG:4326');" ]
  /\ Download.last_events 4 t
     = [ LoadLayer (Utils.output_file w); Finished;
         Download.drop_download_data; Close ].
Proof.
  intros Hw G Hsmall t. subst t.
  destruct (geojson_suffix _ G) as (G1 & G2 & G3 & G4 & G5 & G6).
  well Hw.
  change (Wp.wp (Utils.run env w)
            (fun s _ =>
               Obs.none Obs.is_size_warning (trace s) = true
               /\ List.filter Obs.writes_file (trace s)
                  = [ Download.copy_statement (Utils.output_file w)
                        "(FORMAT GDAL, DRIVER 'GeoJSON', SRS 'EPSG:4326');" ]
               /\ Download.last_events 4 (trace s)
                  = [ LoadLayer (Utils.output_file w); Finished;
                      Download.drop_download_data; Close ])
            initial).
  unfold Utils.run, Utils.run_body, Utils.run_cleanup.
  repeat lazymatch goal with
         | |- Wp.wp (Py.call (Utils.estimate_file_size _ _)) _ _ => fail
         | _ => wp_next; oblige Hc He; never_killed Hk; wp_reduce
         end.
  apply wp_estimate. cbn [trace table_name conn].
  intros l c mb Hl Hmb.
  assert (Hgate : PyFloat.gt_int mb Utils.size_threshold = false).
  { destruct Hmb as [->|(N & cols & A & Hn & Hd & Ha & He2)]; [reflexivity|].
    rewrite Hn in *. match goal with H : Ok _ = Ok _ |- _ => injection H as -> end.
    exact (Hsmall cols A mb Hd Ha He2). }
  wp_reduce. rewrite Hgate. cbn [negb andb].
  wp_go_with ltac:(oblige Hc He; never_killed Hk).
  destruct (harmless_quiet l Hl) as (L1 & L2).
  unfold Obs.none, Download.last_events.
  rewrite !forallb_app, !List.filter_app, !rev_app_distr, L1, L2.
  repeat split; reflexivity.
Qed.

Lemma modest_geojson_export_is_not_gated_witness :
  let env :=
    Sample.engine Sample.plain_schema [] None 10000 (Some Sample.bytes_200) None in
  let t := run_trace (Utils.run env
                        (Sample.utils_worker Sample.custom_url "out.geojson")) in
  Obs.none Obs.is_size_warning t = true
  /\ Download.last_events 4 t
     = [ LoadLayer "out.geojson"; Finished; Download.drop_download_data; Close ].
Proof.
  intros env t.
  destruct (modest_geojson_export_is_not_gated env
              (Sample.utils_worker Sample.custom_url "out.geojson") 10000)
    as (H1 & _ & H3).
  - repeat split; try reflexivity; try discriminate;
      first [ exists "EPSG:4326", Sample.square; split; reflexivity
            | exists Sample.plain_schema; reflexivity ].
  - reflexivity.
  - intros cols A mb Hd Ha Hm. injection Ha as <-.
    vm_compute in Hm. injection Hm as <-. reflexivity.
  - split; [exact H1 | exact H3].
Defined.
(** ** How a failure of the engine is reported *)

(** X26: a dataset that the engine cannot read. [utils.py] reports the
    message of the exception on the error signal, once, and does not
    signal completion. The plugin module does the same unless the message
    contains "No data found": then it emits an information signal that
    names the dataset, followed by [finished], and no error. In both
    modules the cleanup finds no table to drop and closes the
    connection. *)
Theorem unreadable_dataset_is_reported
    (env : Env) (wu : Utils.Worker) (wp : Plugin.Worker) (e : exn) :
  Download.unreadable env (Utils.extent wu) (Utils.dataset_url wu) e ->
  Download.unreadable env (Plugin.extent wp) (Plugin.dataset_url wp) e ->
  let tu := run_trace (Utils.run env wu) in
  let tp := run_trace (Plugin.run env wp) in
  (Download.last_events 2 tu = [Error (str_exn e); Close]
   /\ Download.errors tu = [Error (str_exn e)]
   /\ Download.completions tu = 0%nat)
  /\ (if PyStr.contains "No data found" (str_exn e)
      then Download.last_events 3 tp
           = [Info (Plugin.no_data_for (Plugin.dataset_url wp)); Finished; Close]
           /\ Download.errors tp = []
      else Download.last_events 2 tp = [Error (str_exn e); Close]
           /\ Download.errors tp = [Error (str_exn e)]
           /\ Download.completions tp = 0%nat).
Proof.
  intros ((Hc & He & Hm & Hcl & Hk) & (cu & bu & Hcu & Hnu) & Hdu)
         (_ & (cp & bp & Hcp & Hnp) & Hdp) tu tp.
  subst tu tp. split.
  - clear cp bp Hcp Hnp Hdp.
    change (Wp.wp (Utils.run env wu)
              (fun s _ =>
                 Download.last_events 2 (trace s) = [Error (str_exn e); Close]
                 /\ Download.errors (trace s) = [Error (str_exn e)]
                 /\ Download.completions (trace s) = 0%nat)
              initial).
    unfold Utils.run, Utils.run_body, Utils.run_cleanup.
    destruct (PyStr.endswith ".duckdb" (PyStr.lower (Utils.output_file wu)))
      eqn:D;
      wp_go_with ltac:(oblige Hc He; never_killed Hk);
      repeat split; reflexivity.
  - clear cu bu Hcu Hnu Hdu.
    destruct (PyStr.contains "No data found" (str_exn e)) eqn:N.
    + change (Wp.wp (Plugin.run env wp)
                (fun s _ =>
                   Download.last_events 3 (trace s)
                   = [Info (Plugin.no_data_for (Plugin.dataset_url wp));
                      Finished; Close]
                   /\ Download.errors (trace s) = [])
                initial).
      unfold Plugin.run, Plugin.run_body, Plugin.run_handler, Plugin.run_cleanup.
      destruct (PyStr.endswith ".duckdb" (PyStr.lower (Plugin.output_file wp)))
        eqn:D;
        wp_go_with ltac:(oblige Hc He; never_killed Hk);
        repeat split; reflexivity.
    + change (Wp.wp (Plugin.run env wp)
                (fun s _ =>
                   Download.last_events 2 (trace s) = [Error (str_exn e); Close]
                   /\ Download.errors (trace s) = [Error (str_exn e)]
                   /\ Download.completions (trace s) = 0%nat)
                initial).
      unfold Plugin.run, Plugin.run_body, Plugin.run_handler, Plugin.run_cleanup.
      destruct (PyStr.endswith ".duckdb" (PyStr.lower (Plugin.output_file wp)))
        eqn:D;
        wp_go_with ltac:(oblige Hc He; never_killed Hk);
        repeat split; reflexivity.
Qed.

Lemma unreadable_dataset_is_reported_witness :
  let e := PyExc "IOException" "No data found at this URL" in
  let env :=
    {| host_destination_crs := Ok "EPSG:4326";
       host_transform_bbox := fun _ x => Ok x;
       float_str := Sample.show_float;
       bytes_decode := fun b => Ok b;
       eng_connect := fun _ => None;
       eng_execute := fun _ => None;
       eng_describe := fun _ => Fails e;
       eng_count := fun _ => Ok 5;
       eng_avg := fun _ => Ok None;
       eng_kv_metadata := fun _ => Ok [];
       eng_json_path := fun _ => Ok None;
       eng_commit := None;
       eng_close := None;
       kill_at := None |} in
  Download.errors
    (run_trace (Utils.run env (Sample.utils_worker Sample.custom_url "out.gpkg")))
  = [Error "No data found at this URL"]
  /\ Download.errors
       (run_trace (Plugin.run env
                     (Sample.plugin_worker Sample.custom_url "out.gpkg")))
     = [].
Proof.
  intros e env.
  destruct (unreadable_dataset_is_reported env
              (Sample.utils_worker Sample.custom_url "out.gpkg")
              (Sample.plugin_worker Sample.custom_url "out.gpkg") e)
    as [(_ & H1 & _) H2].
  - repeat split; try reflexivity.
    exists "EPSG:4326", Sample.square. split; reflexivity.
  - repeat split; try reflexivity.
    exists "EPSG:4326", Sample.square. split; reflexivity.
  - split; [exact H1|]. exact (proj2 H2).
Defined.
